(** * OpenSILEX API client: a shallow embedding and its properties

    The development follows the Python sources:
    - [opensilex_client.py]: [SSHConfigParser], [OpenSilexClient]
      ([authenticate], [_make_request], the listing wrappers, [get_all_pages]);
    - [get_host.py]: the second [SSHConfigParser];
    - [modules/projects.py]: [ProjectsClient] and its parameter objects;
    - [create_demo_variables.py]: [get_ssh_config_hosts] and
      [construct_opensilex_url].

    Python values that cross the HTTP boundary are JSON values; strings are
    sequences of code points below 256.  Code that talks to the network or to
    the file system runs in a state-and-exception monad whose state records
    what the environment answers and what the program sent. *)

From Stdlib Require Import ZArith Ascii String List Bool Lia.
From stdpp Require Import base gmap strings list pretty.

Local Open Scope Z_scope.
Set Warnings "-register-all".

(** ** Python values *)

(** A decoded JSON document.  [JObj] lists the items of a [dict] in insertion
    order; [JNull] is Python's [None].  Numbers are integers. *)
Inductive json : Type :=
  | JNull
  | JBool (b : bool)
  | JNum (z : Z)
  | JStr (s : string)
  | JArr (items : list json)
  | JObj (fields : list (string * json)).

(** The exceptions the modelled code raises or meets; all of them derive from
    [Exception]. *)
Inductive exn : Type :=
  | FileNotFoundError
  | OSError (what : string)
  | KeyError (key : string)
  | TypeError
  | ValueError
  | AttributeError
  | IndexError
  | JSONDecodeError
  | RequestException (what : string)
  | StopIteration.

(** [bool(v)] *)
Definition truthy (v : json) : bool :=
  match v with
  | JNull => false
  | JBool b => b
  | JNum z => negb (z =? 0)
  | JStr s => match s with EmptyString => false | _ => true end
  | JArr l => match l with [] => false | _ => true end
  | JObj l => match l with [] => false | _ => true end
  end.

Fixpoint assoc (k : string) (l : list (string * json)) : option json :=
  match l with
  | [] => None
  | (k', v) :: l' => if String.eqb k k' then Some v else assoc k l'
  end.

(** [v[k]] for a string key [k]: a [KeyError] on a dict without the key, a
    [TypeError] on anything that is not a dict. *)
Definition getitem (v : json) (k : string) : exn + json :=
  match v with
  | JObj l => match assoc k l with
              | Some x => inr x
              | None => inl (KeyError k)
              end
  | _ => inl TypeError
  end.

(** [d.get(k, default)]: an [AttributeError] on a value without [get]. *)
Definition dict_get (v : json) (k : string) (default : json) : exn + json :=
  match v with
  | JObj l => inr (match assoc k l with Some x => x | None => default end)
  | _ => inl AttributeError
  end.

Fixpoint chars (s : string) : list json :=
  match s with
  | EmptyString => []
  | String c s' => JStr (String c EmptyString) :: chars s'
  end.

(** What iterating over [v] yields, as [list.extend(v)] does: the items of a
    list, the keys of a dict, the characters of a string. *)
Definition py_iter (v : json) : exn + list json :=
  match v with
  | JArr l => inr l
  | JObj l => inr (List.map (fun kv => JStr (fst kv)) l)
  | JStr s => inr (chars s)
  | _ => inl TypeError
  end.

(** [len(v)] *)
Definition py_len (v : json) : exn + Z :=
  match v with
  | JArr l => inr (Z.of_nat (length l))
  | JObj l => inr (Z.of_nat (length l))
  | JStr s => inr (Z.of_nat (String.length s))
  | _ => inl TypeError
  end.

(** ** Strings *)

(** The [str] methods and functions the sources use, on code points below
    256. *)
Module PyStr.

Definition ord (c : ascii) : N := N_of_ascii c.
Definition chr (n : N) : ascii := ascii_of_N n.

Definition between (lo hi n : N) : bool := (lo <=? n)%N && (n <=? hi)%N.

(** [c.isspace()]: the ASCII blanks and separators, NEL and NBSP. *)
Definition isspace (c : ascii) : bool :=
  let n := ord c in
  between 9 13 n || between 28 32 n || (n =? 133)%N || (n =? 160)%N.

Definition lower_char (c : ascii) : ascii :=
  let n := ord c in
  if between 65 90 n || (between 192 222 n && negb (n =? 215)%N)
  then chr (n + 32) else c.

Fixpoint lower (s : string) : string :=
  match s with
  | EmptyString => EmptyString
  | String c s' => String (lower_char c) (lower s')
  end.

Definition is_empty (s : string) : bool :=
  match s with EmptyString => true | _ => false end.

Fixpoint lstrip (s : string) : string :=
  match s with
  | EmptyString => EmptyString
  | String c s' => if isspace c then lstrip s' else s
  end.

Fixpoint rstrip (s : string) : string :=
  match s with
  | EmptyString => EmptyString
  | String c s' =>
      let r := rstrip s' in
      if isspace c && is_empty r then EmptyString else String c r
  end.

Definition strip (s : string) : string := rstrip (lstrip s).

Definition startswith (s pre : string) : bool := String.prefix pre s.

(** [c in s] for a single character *)
Fixpoint contains (c : ascii) (s : string) : bool :=
  match s with
  | EmptyString => false
  | String c' s' => Ascii.eqb c c' || contains c s'
  end.

(** [s.split()]: the maximal runs of non-blank characters. [cur] is the run
    being read. *)
Fixpoint split_from (cur : string) (s : string) : list string :=
  match s with
  | EmptyString => if is_empty cur then [] else [cur]
  | String c s' =>
      if isspace c
      then (if is_empty cur then split_from EmptyString s'
            else cur :: split_from EmptyString s')
      else split_from (cur +:+ String c EmptyString) s'
  end.

Definition split (s : string) : list string := split_from EmptyString s.

(** The first run of non-blank characters of [s] and what follows it. *)
Fixpoint break_ws (s : string) : string * string :=
  match s with
  | EmptyString => (EmptyString, EmptyString)
  | String c s' =>
      if isspace c then (EmptyString, s)
      else let '(w, rest) := break_ws s' in (String c w, rest)
  end.

(** [s.split(None, 1)]: leading blanks are dropped, the first word is cut
    off, and the rest follows from its first non-blank character, trailing
    blanks included. *)
Definition split_once (s : string) : list string :=
  let '(w, rest) := break_ws (lstrip s) in
  if is_empty w then []
  else let rest := lstrip rest in
       if is_empty rest then [w] else [w; rest].

(** [re.split(r'\s+', s, 1)]: cut at the first run of blanks, if any. *)
Fixpoint re_split_once (s : string) : list string :=
  match s with
  | EmptyString => [EmptyString]
  | String c s' =>
      if isspace c then [EmptyString; lstrip s']
      else match re_split_once s' with
           | w :: rest => String c w :: rest
           | [] => [String c EmptyString]
           end
  end.

Definition hex_digit (upper : bool) (n : N) : ascii :=
  if (n <? 10)%N then chr (48 + n)
  else chr ((if upper then 55 else 87) + n).

Definition hex2 (upper : bool) (n : N) : string :=
  String (hex_digit upper (n / 16)) (String (hex_digit upper (n mod 16)) EmptyString).

(** [repr] of a string *)
Definition printable (n : N) : bool :=
  negb (between 128 160 n || (n =? 173)%N).

Definition repr_char (q : ascii) (c : ascii) : string :=
  let n := ord c in
  if Ascii.eqb c q || (n =? 92)%N then String "\" (String c EmptyString)
  else if (n =? 9)%N then "\t"
  else if (n =? 10)%N then "\n"
  else if (n =? 13)%N then "\r"
  else if (n <? 32)%N || (n =? 127)%N then "\x" +:+ hex2 false n
  else if (n <? 127)%N then String c EmptyString
  else if printable n then String c EmptyString
  else "\x" +:+ hex2 false n.

Fixpoint repr_chars (q : ascii) (s : string) : string :=
  match s with
  | EmptyString => EmptyString
  | String c s' => repr_char q c +:+ repr_chars q s'
  end.

Definition repr_str (s : string) : string :=
  let dq := chr 34 in
  let q := if contains "'" s && negb (contains dq s) then dq else "'"%char in
  String q (repr_chars q s +:+ String q EmptyString).

Fixpoint join (sep : string) (l : list string) : string :=
  match l with
  | [] => EmptyString
  | [x] => x
  | x :: l' => x +:+ sep +:+ join sep l'
  end.

Fixpoint repr (v : json) : string :=
  match v with
  | JNull => "None"
  | JBool true => "True"
  | JBool false => "False"
  | JNum z => pretty z
  | JStr s => repr_str s
  | JArr l => "[" +:+ join ", " (List.map repr l) +:+ "]"
  | JObj l =>
      "{" +:+ join ", " (List.map (fun kv => repr_str (fst kv) +:+ ": " +:+ repr (snd kv)) l)
          +:+ "}"
  end.

(** [str(v)], as an f-string applies it *)
Definition str (v : json) : string :=
  match v with
  | JStr s => s
  | _ => repr v
  end.

(** [urllib.parse.quote(s, safe='')]: letters, digits and [_.-~] stay, every
    other byte of the UTF-8 encoding becomes [%XX]. *)
Definition unreserved (n : N) : bool :=
  between 65 90 n || between 97 122 n || between 48 57 n ||
  (n =? 95)%N || (n =? 46)%N || (n =? 45)%N || (n =? 126)%N.

Definition utf8 (c : ascii) : list N :=
  let n := ord c in
  if (n <? 128)%N then [n] else [(192 + n / 64)%N; (128 + n mod 64)%N].

Definition quote_byte (n : N) : string :=
  if unreserved n then String (chr n) EmptyString
  else String "%" (hex2 true n).

Fixpoint quote (s : string) : string :=
  match s with
  | EmptyString => EmptyString
  | String c s' =>
      fold_right (fun b acc => quote_byte b +:+ acc) (quote s') (utf8 c)
  end.

End PyStr.

(** ** State and exceptions *)

(** The outcome of running a piece of Python: a value, a raised exception, or
    a loop that was still running when the fuel ran out. *)
Inductive result (A : Type) : Type :=
  | Ret (a : A)
  | Exc (e : exn)
  | OutOfFuel.
Arguments Ret {A} a.
Arguments Exc {A} e.
Arguments OutOfFuel {A}.

Definition M (St A : Type) : Type := St -> result A * St.

Definition ret {St A} (a : A) : M St A := fun s => (Ret a, s).

Definition raise {St A} (e : exn) : M St A := fun s => (Exc e, s).

Definition bind {St A B} (m : M St A) (k : A -> M St B) : M St B :=
  fun s =>
    match m s with
    | (Ret a, s') => k a s'
    | (Exc e, s') => (Exc e, s')
    | (OutOfFuel, s') => (OutOfFuel, s')
    end.

(** [try: body  except Exception as e: handler e] *)
Definition try_except {St A} (body : M St A) (handler : exn -> M St A) : M St A :=
  fun s =>
    match body s with
    | (Exc e, s') => handler e s'
    | r => r
    end.

Definition lift {St A} (r : exn + A) : M St A :=
  match r with
  | inl e => raise e
  | inr a => ret a
  end.

Definition out_of_fuel {St A} : M St A := fun s => (OutOfFuel, s).

Definition gets {St A} (f : St -> A) : M St A := fun s => (Ret (f s), s).

Definition modify {St} (f : St -> St) : M St unit := fun s => (Ret tt, f s).

Declare Scope py_scope.
Delimit Scope py_scope with py.
Notation "'let!' x ':=' m 'in' k" := (bind m (fun x => k))
  (at level 10, x pattern, m at level 100, k at level 200) : py_scope.
Notation "m '>>' k" := (bind m (fun _ => k))
  (at level 100, k at level 200, right associativity) : py_scope.
Local Open Scope py_scope.

(** ** The HTTP environment and the client ([opensilex_client.py]) *)

Module Client.

Inductive level : Type := INFO | WARNING | ERROR.

(** What the module-level [logger] was told. *)
Inductive log_event : Type :=
  | AuthenticationSuccessful
  | AuthenticationFailed (status : Z) (text : string)
  | AuthenticationError (e : exn)
  | TokenExpired
  | RequestFailed (status : Z) (text : string)
  | RequestError (e : exn).

(** A [requests.Response]: [body = None] is a payload on which
    [response.json()] raises. *)
Record response : Type := Response {
  status_code : Z;
  body : option json;
  text : string
}.

(** What one call into [requests] does: answer or raise. *)
Inductive reply : Type :=
  | Answer (r : response)
  | Fails (e : exn).

(** Which call site reached [requests]: [requests.post] in [authenticate] or
    [requests.request] in [_make_request]. *)
Inductive site : Type := AuthPost | ApiRequest.

Definition site_eqb (a b : site) : bool :=
  match a, b with
  | AuthPost, AuthPost | ApiRequest, ApiRequest => true
  | _, _ => false
  end.

Record call : Type := Call {
  c_site : site;
  c_method : string;
  c_url : string;
  c_headers : gmap string string;
  c_params : option json;
  c_json : option json
}.

(** A call and how it ended. *)
Definition exchange : Type := call * reply.

(** The remote side (or the mock standing for it): what a call meets, given
    everything exchanged before it. *)
Definition remote : Type := list exchange -> call -> reply.

(** The client object together with the world around it; [sent] is the
    traffic so far, oldest first. *)
Record state : Type := State {
  base_url : string;
  username : string;
  password : string;
  token : json;
  headers : gmap string string;
  server : remote;
  sent : list exchange;
  log : list (level * log_event)
}.

Definition set_token (t : json) (s : state) : state :=
  State (base_url s) (username s) (password s) t (headers s)
        (server s) (sent s) (log s).

Definition set_header (k v : string) (s : state) : state :=
  State (base_url s) (username s) (password s) (token s) (<[k := v]> (headers s))
        (server s) (sent s) (log s).

Definition add_log (l : level) (e : log_event) (s : state) : state :=
  State (base_url s) (username s) (password s) (token s) (headers s)
        (server s) (sent s) (log s ++ [(l, e)]).

Definition record (x : exchange) (s : state) : state :=
  State (base_url s) (username s) (password s) (token s) (headers s)
        (server s) (sent s ++ [x]) (log s).

Definition logger (l : level) (e : log_event) : M state unit :=
  modify (add_log l e).

(** One call into [requests]: the remote side decides how it ends, and the
    exchange is recorded. *)
Definition requests_call (c : call) : M state response :=
  fun s =>
    let r := server s (sent s) c in
    match r with
    | Answer x => (Ret x, record (c, r) s)
    | Fails e => (Exc e, record (c, r) s)
    end.

Definition requests_post (url : string) (json_ : json)
    (hdrs : gmap string string) : M state response :=
  requests_call (Call AuthPost "POST" url hdrs None (Some json_)).

Definition requests_request (method url : string) (hdrs : gmap string string)
    (params data : option json) : M state response :=
  requests_call (Call ApiRequest method url hdrs params data).

Definition response_json (r : response) : M state json :=
  match body r with
  | Some j => ret j
  | None => raise JSONDecodeError
  end.

(** [OpenSilexClient.__init__] once the base URL is known: no token, and
    [Content-Type] as the only default header. *)
Definition init (url user pass : string) (net : remote) : state :=
  State url user pass JNull {[ "Content-Type" := "application/json" ]}
        net [] [].

(** A mocked response sequence: the n-th call meets the n-th entry, whatever
    it asks; a call after the end raises, as an exhausted mock does. *)
Definition scripted (l : list reply) : remote :=
  fun h _ => nth (length h) l (Fails StopIteration).

Definition authenticate : M state bool :=
  try_except
    (let! user := gets username in
     let! pass := gets password in
     let auth_data := JObj [("identifier", JStr user); ("password", JStr pass)] in
     let! url := gets base_url in
     let! hdrs := gets headers in
     let! response := requests_post (url +:+ "/security/authenticate") auth_data hdrs in
     if status_code response =? 200 then
       let! result := response_json response in
       let! inner := lift (getitem result "result") in
       let! tok := lift (getitem inner "token") in
       modify (set_token tok) >>
       modify (set_header "Authorization" ("Bearer " +:+ PyStr.str tok)) >>
       logger INFO AuthenticationSuccessful >>
       ret true
     else
       logger ERROR (AuthenticationFailed (status_code response) (text response)) >>
       ret false)
    (fun e => logger ERROR (AuthenticationError e) >> ret false).

(** The [try] block of [_make_request]: send, refresh the token once on a
    401 and send again, then read the answer. *)
Definition request_with_refresh (method url : string) (params data : option json)
    : M state (option json) :=
  try_except
    (let! hdrs := gets headers in
     let! response := requests_request method url hdrs params data in
     let! response :=
       (if status_code response =? 401 then
          logger INFO TokenExpired >>
          let! again := authenticate in
          if again then
            let! hdrs := gets headers in
            requests_request method url hdrs params data
          else ret response
        else ret response) in
     if status_code response =? 200 then
       let! j := response_json response in
       ret (Some j)
     else
       logger ERROR (RequestFailed (status_code response) (text response)) >>
       ret None)
    (fun e => logger ERROR (RequestError e) >> ret None).

Definition _make_request (method endpoint : string) (params data : option json)
    : M state (option json) :=
  let! tok := gets token in
  let! ok := (if negb (truthy tok) then authenticate else ret true) in
  if negb ok then ret None else
  let! base := gets base_url in
  let url := base +:+ endpoint in
  request_with_refresh method url params data.

(** [get_experiments]: the [result] field of the answer, [None] when
    [_make_request] came back with nothing. *)
Definition get_experiments (page page_size : Z) : M state json :=
  let params := JObj [("page", JNum page); ("page_size", JNum page_size)] in
  let! result := _make_request "GET" "/core/experiments" (Some params) None in
  match result with
  | Some r => if truthy r then lift (dict_get r "result" (JArr [])) else ret JNull
  | None => ret JNull
  end.

(** [get_variables] *)
Definition get_variables (page page_size : Z) : M state json :=
  let params := JObj [("page", JNum page); ("page_size", JNum page_size)] in
  let! result := _make_request "GET" "/core/variables" (Some params) None in
  match result with
  | Some r => if truthy r then lift (dict_get r "result" (JArr [])) else ret JNull
  | None => ret JNull
  end.

(** [get_devices] *)
Definition get_devices (page page_size : Z) : M state json :=
  let params := JObj [("page", JNum page); ("page_size", JNum page_size)] in
  let! result := _make_request "GET" "/core/devices" (Some params) None in
  match result with
  | Some r => if truthy r then lift (dict_get r "result" (JArr [])) else ret JNull
  | None => ret JNull
  end.

(** The [while True] loop of [get_all_pages].  [method] is the bound method
    with the caller's other keyword arguments applied; it may live in any
    state.  The loop has no bound of its own, so it runs on [fuel]. *)
Fixpoint pages_loop {St} (fuel : nat) (method : Z -> Z -> M St json)
    (page page_size : Z) (all_results : list json) : M St (list json) :=
  match fuel with
  | O => out_of_fuel
  | S fuel' =>
      let! results := method page page_size in
      if negb (truthy results) then ret all_results
      else
        let! items := lift (py_iter results) in
        let all_results := all_results ++ items in
        let! n := lift (py_len results) in
        if n <? page_size then ret all_results
        else pages_loop fuel' method (page + 1) page_size all_results
  end.

Definition get_all_pages {St} (fuel : nat) (method : Z -> Z -> M St json)
    : M St (list json) :=
  pages_loop fuel method 0 50 [].

Arguments authenticate : simpl never.
Arguments PyStr.str : simpl never.

(** *** Vocabulary for the pagination statements *)

(** Invoking [method] with [page_size = 50] on [n] successive pages starting
    at [page], and collecting what it returns. *)
Fixpoint fetch {St} (method : Z -> Z -> M St json) (page : Z) (n : nat)
    : M St (list json) :=
  match n with
  | O => ret []
  | S n' =>
      let! r := method page 50 in
      let! rs := fetch method (page + 1) n' in
      ret (r :: rs)
  end.

(** A page that makes the loop go on: a list of at least [page_size] items. *)
Definition full_page (p : json) : Prop :=
  exists l, p = JArr l /\ (50 <= length l)%nat.

(** A page that stops the loop: nothing, or a list of fewer than [page_size]
    items. *)
Definition short_page (p : json) : Prop :=
  p = JNull \/ exists l, p = JArr l /\ (length l < 50)%nat.

Definition items_of (p : json) : list json :=
  match p with
  | JArr l => l
  | _ => []
  end.

(** A fake listing method: it serves the given pages, an empty list past
    their end, and keeps the arguments of every invocation. *)
Definition fake_listing (pages : list (list json)) (page page_size : Z)
    : M (list (Z * Z)) json :=
  fun calls =>
    (Ret (JArr (nth (Z.to_nat page) pages [])), calls ++ [(page, page_size)]).

(** *** Vocabulary for the statements *)

(** The call [authenticate] makes from state [s]. *)
Definition auth_call (s : state) : call :=
  Call AuthPost "POST" (base_url s +:+ "/security/authenticate") (headers s) None
       (Some (JObj [("identifier", JStr (username s)); ("password", JStr (password s))])).

(** The call [_make_request] makes from state [s]. *)
Definition api_call (s : state) (method endpoint : string)
    (params data : option json) : call :=
  Call ApiRequest method (base_url s +:+ endpoint) (headers s) params data.

(** The token a decoded body of shape [{"result": {"token": T}}] carries. *)
Definition body_token (b : option json) : option json :=
  match b with
  | Some (JObj top) =>
      match assoc "result" top with
      | Some (JObj inner) => assoc "token" inner
      | _ => None
      end
  | _ => None
  end.

(** The token an answer of the authentication endpoint carries: status 200 and
    a body with a token. *)
Definition reply_token (r : reply) : option json :=
  match r with
  | Answer x => if status_code x =? 200 then body_token (body x) else None
  | Fails _ => None
  end.

(** The ways an authentication fails: the transport raises, the status is not
    200, or the body lacks the token field. *)
Definition auth_failure (r : reply) : Prop :=
  (exists e, r = Fails e) \/
  (exists x, r = Answer x /\ status_code x <> 200) \/
  (exists x, r = Answer x /\ body_token (body x) = None).

(** What a caller of [_make_request] gets out of the last answer: the decoded
    body of a 200, nothing otherwise. *)
Definition payload (r : reply) : option json :=
  match r with
  | Answer x => if status_code x =? 200 then body x else None
  | Fails _ => None
  end.

Definition count_site (k : site) (h : list exchange) : nat :=
  length (List.filter (fun x : exchange => site_eqb (c_site (fst x)) k) h).

(** Everything about the client but its token and headers. *)
Definition same_config (s s' : state) : Prop :=
  base_url s' = base_url s /\ username s' = username s /\
  password s' = password s /\ server s' = server s.

(** The state after an authentication that obtained [tok]. *)
Definition authenticated (tok : json) (a : reply)
    (s : state) : state :=
  State (base_url s) (username s) (password s) tok
        (<["Authorization" := "Bearer " +:+ PyStr.str tok]> (headers s))
        (server s) (sent s ++ [(auth_call s, a)])
        (log s ++ [(INFO, AuthenticationSuccessful)]).

(** The session is Unauthenticated: it holds no token and its default headers
    have no [Authorization] entry. *)
Definition unauthenticated (s : state) : Prop :=
  truthy (token s) = false /\ headers s !! "Authorization" = None.

(** The session holds token [T] and announces it. *)
Definition holds_token (T : string) (s : state) : Prop :=
  token s = JStr T /\ headers s !! "Authorization" = Some ("Bearer " +:+ T).

(** The answer of the authentication endpoint has status 200 and a body of
    shape [{"result": {"token": T}}] (other fields may come with it). *)
Definition issues_token (T : string) (r : reply) : Prop :=
  exists x top inner,
    r = Answer x /\ status_code x = 200 /\ body x = Some (JObj top) /\
    assoc "result" top = Some (JObj inner) /\
    assoc "token" inner = Some (JStr T).

(** No authentication in the traffic [h] obtains a token other than [T]. *)
Definition no_other_token (T : string) (h : list exchange) : Prop :=
  forall c r tok,
    In (c, r) h -> c_site c = AuthPost -> reply_token r = Some tok ->
    tok = JStr T.

(** Every API request in the traffic [h] carries [Authorization: Bearer T]. *)
Definition all_carry (T : string) (h : list exchange) : Prop :=
  forall c r,
    In (c, r) h -> c_site c = ApiRequest ->
    c_headers c !! "Authorization" = Some ("Bearer " +:+ T).

(** Calls of [_make_request], one after the other. *)
Definition request_args : Type := string * string * option json * option json.

Fixpoint make_requests (l : list request_args) : M state (list (option json)) :=
  match l with
  | [] => ret []
  | (method, endpoint, params, data) :: l' =>
      let! v := _make_request method endpoint params data in
      let! vs := make_requests l' in
      ret (v :: vs)
  end.

(** A 200 answer of the authentication endpoint issuing token [T]. *)
Definition token_answer (T : string) : reply :=
  Answer (Response 200 (Some (JObj [("result", JObj [("token", JStr T)])])) EmptyString).

(** *** Sample sessions *)

Definition ok_body : json := JObj [("result", JArr [])].

(** A fresh client whose authentication endpoint issues [A]; the first API
    request is then refused with 401, the re-authentication issues [B], and
    the request sent again is served. *)
Definition rotating_session : state :=
  init "http://localhost:28081/rest" "admin@opensilex.org" "admin"
    (scripted [token_answer "A"; Answer (Response 401 None "expired");
               token_answer "B"; Answer (Response 200 (Some ok_body) "ok")]).

(** An authentication endpoint that issues [T] every time it is asked, next
    to an API that answers with the mocked sequence [api]. *)
Definition steady_endpoint (T : string) (api : list reply) : remote :=
  fun h c =>
    match c_site c with
    | AuthPost => token_answer T
    | ApiRequest => nth (count_site ApiRequest h) api (Fails StopIteration)
    end.

(** A fresh client against such an endpoint; the API refuses the first
    request with 401 and serves the next. *)
Definition steady_session : state :=
  init "http://localhost:28081/rest" "admin@opensilex.org" "admin"
    (steady_endpoint "T" [Answer (Response 401 None "expired");
                          Answer (Response 200 (Some ok_body) "ok")]).

(** A client that holds token [A] and whose next authentication is refused
    with 403. *)
Definition refused_session : state :=
  State "http://localhost:28081/rest" "admin@opensilex.org" "admin" (JStr "A")
    (<["Authorization" := "Bearer A"]> {[ "Content-Type" := "application/json" ]})
    (scripted [Answer (Response 403 None "forbidden")]) [] [].

(** A client that holds token [A] against the mocked sequence
    [401, re-auth 200, last]. *)
Definition expired_session (last : response) : state :=
  State "http://localhost:28081/rest" "admin@opensilex.org" "admin" (JStr "A")
    (<["Authorization" := "Bearer A"]> {[ "Content-Type" := "application/json" ]})
    (scripted [Answer (Response 401 None "expired"); token_answer "B"; Answer last])
    [] [].

(** A client that holds token [A]; the first page of experiments is served
    in full, and the connection breaks on the second. *)
Definition sample_page : list json :=
  repeat (JObj [("uri", JStr "http://opensilex.org/id/experiment/e")]) 50.

Definition broken_session : state :=
  State "http://localhost:28081/rest" "admin@opensilex.org" "admin" (JStr "A")
    (<["Authorization" := "Bearer A"]> {[ "Content-Type" := "application/json" ]})
    (scripted [Answer (Response 200 (Some (JObj [("result", JArr sample_page)])) "ok");
               Fails (RequestException "connection reset")])
    [] [].

End Client.

(** ** SSH configuration files ([opensilex_client.py], [get_host.py]) *)

Module HostResolver.

(** What [os.stat(path)], [open(path, 'r')] and the iteration over the file
    find: no file; a file that is there and cannot be opened; a path that
    cannot even be examined, as below a directory without search permission
    ([stat] and [open] both fail with a [PermissionError], an [OSError]); or
    lines, possibly cut short by a read error. *)
Inductive file : Type :=
  | NoSuchFile
  | Unreadable (what : string)
  | TextFile (lines : list string) (failure : option exn)
  | Unreachable (what : string).

Inductive log_event : Type :=
  | ConfigNotFound (path : string)
  | ConfigError (e : exn).

(** The file system and the logger, with the variables of the running parser:
    [hosts] and [current_host] ([host_entry] in [get_host.py]).  The home
    directory of the user is known: [Path.home()] and [os.path.expanduser]
    find [home]. *)
Record frame : Type := Frame {
  home : string;
  os_name : string;
  fs : string -> file;
  log : list (Client.level * log_event);
  hosts : gmap string (gmap string string);
  current_host : option string
}.

Definition set_locals (h : gmap string (gmap string string)) (c : option string)
    (w : frame) : frame :=
  Frame (home w) (os_name w) (fs w) (log w) h c.

Definition logger (l : Client.level) (e : log_event) : M frame unit :=
  modify (fun w =>
    Frame (home w) (os_name w) (fs w) (log w ++ [(l, e)]) (hosts w) (current_host w)).

(** A machine on which the file system holds [files]. *)
Definition machine (home_dir os : string) (files : string -> file) : frame :=
  Frame home_dir os files [] ∅ None.

(** [open(path, 'r')] *)
Definition open_ (path : string) : M frame (list string * option exn) :=
  let! f := gets (fun w => fs w path) in
  match f with
  | NoSuchFile => raise FileNotFoundError
  | Unreadable what => raise (OSError what)
  | TextFile lines failure => ret (lines, failure)
  | Unreachable what => raise (OSError what)
  end.

(** [path.exists()]: [Path.exists] answers [False] when [stat] finds nothing
    and lets every other [OSError] of [stat] through. *)
Definition exists_ (path : string) : M frame bool :=
  let! f := gets (fun w => fs w path) in
  match f with
  | NoSuchFile => ret false
  | Unreachable what => raise (OSError what)
  | _ => ret true
  end.

Fixpoint for_each {St A} (l : list A) (body : A -> M St unit) : M St unit :=
  match l with
  | [] => ret tt
  | x :: l' => body x >> for_each l' body
  end.

(** [for line in f: body], the file opened by [with open(path, 'r') as f] *)
Definition for_lines (path : string) (body : string -> M frame unit) : M frame unit :=
  let! f := open_ path in
  for_each (fst f) body >>
  match snd f with
  | Some e => raise e
  | None => ret tt
  end.

(** [l[1]] *)
Definition second (l : list string) : exn + string :=
  match l with
  | _ :: x :: _ => inr x
  | _ => inl IndexError
  end.

(** [hosts[h][k] = v] *)
Definition set_attribute (h k v : string) : M frame unit :=
  let! hs := gets hosts in
  match hs !! h with
  | Some entry =>
      let! cur := gets current_host in
      modify (set_locals (<[h := <[k := v]> entry]> hs) cur)
  | None => raise (KeyError h)
  end.

(** [hosts[h] = {}] with [h] the new current host *)
Definition open_entry (h : string) : M frame unit :=
  let! hs := gets hosts in
  modify (set_locals (<[h := ∅]> hs) (Some h)).

Definition is_set (c : option string) : bool :=
  match c with
  | Some h => negb (PyStr.is_empty h)
  | None => false
  end.

(** *** [SSHConfigParser.parse_ssh_config] of [opensilex_client.py] *)

Definition parse_line (line : string) : M frame unit :=
  let line := PyStr.strip line in
  if PyStr.is_empty line || PyStr.startswith line "#" then ret tt
  else if PyStr.startswith (PyStr.lower line) "host " then
    let! h := lift (second (PyStr.split line)) in
    open_entry h
  else
    let! cur := gets current_host in
    if is_set cur && PyStr.contains " " line then
      match PyStr.split_once line, cur with
      | [key; value], Some h => set_attribute h (PyStr.lower key) (PyStr.strip value)
      | _, _ => ret tt
      end
    else ret tt.

(** The default path: [~/.ssh/config], and [~/ssh/config] on Windows when the
    former does not exist.  The test [config_path.exists()] is made on every
    system, and it stands before the [try] of [parse_ssh_config]. *)
Definition default_path : M frame string :=
  let! h := gets home in
  let config_path := h +:+ "/.ssh/config" in
  let! there := exists_ config_path in
  let! os := gets os_name in
  if negb there && String.eqb os "nt" then ret (h +:+ "/ssh/config")
  else ret config_path.

Definition parse_ssh_config (config_path : option string)
    : M frame (gmap string (gmap string string)) :=
  let! config_path :=
    (match config_path with
     | Some p => ret p
     | None => default_path
     end) in
  modify (set_locals ∅ None) >>
  try_except
    (for_lines config_path parse_line)
    (fun e =>
       match e with
       | FileNotFoundError => logger Client.WARNING (ConfigNotFound config_path)
       | _ => logger Client.ERROR (ConfigError e)
       end) >>
  gets hosts.

(** [SSHConfigParser.get_host_ip] on a parsed configuration *)
Definition get_host_ip (host_name : string)
    (ssh_config : gmap string (gmap string string)) : option string :=
  match ssh_config !! host_name with
  | Some entry =>
      match entry !! "hostname" with
      | Some v => Some v
      | None => entry !! "host"
      end
  | None => None
  end.

(** *** [SSHConfigParser] of [get_host.py] *)

Module GetHost.

(** [os.path.expanduser] on a path that starts with the current user's [~] *)
Definition expanduser (path : string) : M frame string :=
  match path with
  | String "~" EmptyString => gets home
  | String "~" (String "/" rest) =>
      let! h := gets home in ret (h +:+ "/" +:+ rest)
  | _ => ret path
  end.

Definition parse_line (line : string) : M frame unit :=
  let line := PyStr.strip line in
  if PyStr.is_empty line || PyStr.startswith line "#" then ret tt
  else if PyStr.startswith (PyStr.lower line) "host " then
    let! h := lift (second (PyStr.split line)) in
    open_entry h
  else
    let! cur := gets current_host in
    match cur with
    | Some h =>
        if negb (PyStr.is_empty h) then
          match PyStr.re_split_once line with
          | [key; value] => set_attribute h (PyStr.lower key) value
          | _ => raise ValueError
          end
        else ret tt
    | None => ret tt
    end.

Definition _parse (config_file : string) : M frame unit :=
  for_lines config_file
    parse_line.

(** [SSHConfigParser(config_file)]: the constructor parses at once. *)
Definition __init__ (config_file : string) : M frame unit :=
  let! config_file := expanduser config_file in
  modify (set_locals ∅ None) >>
  _parse config_file.

Definition get_all_hosts : M frame (gmap string (gmap string string)) :=
  gets hosts.

(** [get_ssh_config_hosts] of [create_demo_variables.py], the caller: it
    catches what the constructor raises. *)
Definition get_ssh_config_hosts : M frame (gmap string (gmap string string)) :=
  try_except
    (__init__ "~/.ssh/config" >> get_all_hosts)
    (fun _ => ret ∅).

End GetHost.

(** *** Sample machines *)

Definition demo_config : list string :=
  ["Host demo"; "    HostName 10.0.0.5"; "    Port 28081"].

Definition demo_machine : frame :=
  machine "/home/user" "posix"
    (fun path => if String.eqb path "/home/user/.ssh/config"
                 then TextFile demo_config None else NoSuchFile).

Definition bare_machine : frame :=
  machine "/home/user" "posix" (fun _ => NoSuchFile).

Definition locked_machine : frame :=
  machine "/home/user" "posix" (fun _ => Unreadable "Permission denied").

(** A machine on which [~/.ssh] may not be searched. *)
Definition sealed_machine : frame :=
  machine "/home/user" "posix" (fun _ => Unreachable "Permission denied").

End HostResolver.

(** ** Projects, experiments and scientific objects ([modules/projects.py]) *)

Module Projects.

(** A field of a parameter object as the Python value it holds: [None] when
    unset. *)
Definition of_str (o : option string) : json :=
  match o with Some s => JStr s | None => JNull end.

Definition of_int (o : option Z) : json :=
  match o with Some z => JNum z | None => JNull end.

Definition of_bool (o : option bool) : json :=
  match o with Some b => JBool b | None => JNull end.

Definition of_list (o : option (list string)) : json :=
  match o with Some l => JArr (List.map JStr l) | None => JNull end.

Module ProjectSearchParams.
Record t : Type := Make {
  name : option string;
  year : option Z;
  keyword : option string;
  order_by : option (list string);
  page : Z;
  page_size : Z
}.
Definition default : t := Make None None None None 0 20.
End ProjectSearchParams.

Module ProjectCreationData.
Record t : Type := Make {
  uri : option string;
  name : option string;
  shortname : option string;
  description : option string;
  start_date : option string;
  end_date : option string;
  homepage : option string;
  objective : option string;
  keywords : option (list string);
  related_projects : option (list string);
  coordinators : option (list string);
  scientific_contacts : option (list string);
  administrative_contacts : option (list string)
}.
Definition default : t :=
  Make None None None None None None None None None None None None None.
End ProjectCreationData.

Module ExperimentSearchParams.
Record t : Type := Make {
  name : option string;
  year : option Z;
  project : option string;
  is_public : option bool;
  order_by : option (list string);
  page : Z;
  page_size : Z
}.
Definition default : t := Make None None None None None 0 20.
End ExperimentSearchParams.

(** The methods of [BaseAPIClient] ([modules/base.py]) the wrappers hand
    their requests to; [R] is what they return. *)
Record BaseAPIClient (R : Type) : Type := {
  get : string -> option (gmap string json) -> R;
  post : string -> gmap string json -> R;
  put : string -> gmap string json -> R;
  delete : string -> R
}.
Arguments get {R}.
Arguments post {R}.
Arguments put {R}.
Arguments delete {R}.

(** [if v: d[k] = v] *)
Definition set_if_truthy (k : string) (v : json) (d : gmap string json)
    : gmap string json :=
  if truthy v then <[k := v]> d else d.

(** [if v is not None: d[k] = v] *)
Definition set_if_not_none (k : string) (v : json) (d : gmap string json)
    : gmap string json :=
  match v with
  | JNull => d
  | _ => <[k := v]> d
  end.

Section Wrappers.
Context {R : Type} (client : BaseAPIClient R).



Definition get_project_by_uri (uri : string) : R :=
  get client ("/core/projects/" +:+ PyStr.quote uri) None.

Definition get_projects_by_uris (uris : list string) : R :=
  get client "/core/projects/by_uris"
    (Some {[ "uris" := JArr (List.map JStr uris) ]}).




Definition delete_project (uri : string) : R :=
  delete client ("/core/projects/" +:+ uri).

Definition search_experiments_query (params : ExperimentSearchParams.t)
    : gmap string json :=
  let query_params : gmap string json :=
    <["page_size" := JNum (ExperimentSearchParams.page_size params)]>
      (<["page" := JNum (ExperimentSearchParams.page params)]> ∅) in
  let query_params :=
    set_if_truthy "name" (of_str (ExperimentSearchParams.name params)) query_params in
  let query_params :=
    set_if_truthy "year" (of_int (ExperimentSearchParams.year params)) query_params in
  let query_params :=
    set_if_truthy "project" (of_str (ExperimentSearchParams.project params)) query_params in
  let query_params :=
    set_if_not_none "is_public" (of_bool (ExperimentSearchParams.is_public params))
      query_params in
  let query_params :=
    set_if_truthy "order_by" (of_list (ExperimentSearchParams.order_by params))
      query_params in
  query_params.

Definition search_experiments (params : option ExperimentSearchParams.t) : R :=
  let params :=
    match params with
    | Some p => p
    | None => ExperimentSearchParams.default
    end in
  get client "/core/experiments" (Some (search_experiments_query params)).

Definition get_experiment_by_uri (uri : string) : R :=
  get client ("/core/experiments/" +:+ uri) None.

Definition create_experiment (experiment_data : gmap string json) : R :=
  post client "/core/experiments" experiment_data.

Definition delete_experiment (uri : string) : R :=
  delete client ("/core/experiments/" +:+ uri).

Definition get_scientific_object_by_uri (uri : string) : R :=
  get client ("/core/scientific_objects/" +:+ uri) None.

Definition delete_scientific_object (uri : string) : R :=
  delete client ("/core/scientific_objects/" +:+ uri).

Definition get_scientific_objects_by_uris (uris : list string) : R :=
  get client "/core/scientific_objects/by_uris"
    (Some {[ "uris" := JArr (List.map JStr uris) ]}).

End Wrappers.

(** *** Vocabulary for the statements *)

(** A base client that only tells what it was asked. *)
Inductive asked : Type :=
  | Get (path : string) (params : option (gmap string json))
  | Post (path : string) (data : gmap string json)
  | Put (path : string) (data : gmap string json)
  | Delete (path : string).

Definition recorder : BaseAPIClient asked :=
  {| get := Get; post := Post; put := Put; delete := Delete |}.




(** The path is [prefix] followed by the percent-encoded [uri]. *)
Definition encoded_under (prefix uri path : string) : Prop :=
  path = prefix +:+ PyStr.quote uri.

Definition sample_uri : string := "http://opensilex.org/id/project/p1".

End Projects.

(** ** The response envelope *)

Module Envelope.

(** [APIResponse], by the fields its users read ([success], [data],
    [errors], [message], [status_code]). *)
Record APIResponse : Type := {
  success : bool;
  data : option json;
  errors : list string;
  message : option string;
  status_code : option Z
}.

(** What the remote side says in the body of an answer. *)
Record remote_body : Type := {
  remote_result : option json;
  remote_message : option string;
  remote_errors : list string
}.

(** The outcomes of a transport call that section 4.3 of the specification
    tells apart. *)
Inductive http_outcome : Type :=
  | TransportFailure (what : string)
  | AuthenticationFailure (status : option Z) (remote : string)
  | Answered (status : Z) (b : remote_body).

(** Modelled from the spec: the construction of [APIResponse] in
    [modules/base.py], which is not among the sources.  Section 4.3: a
    transport failure gives [success=false], no status code and one error; an
    authentication failure gives [success=false], the status code of its
    stage if any, and (section 7) the remote message; an answer in 200-299 is
    a success carrying the remote result; any other answer gives
    [success=false] with its status code and the remote error list. *)
Definition classify (o : http_outcome) : APIResponse :=
  match o with
  | TransportFailure what =>
      {| success := false; data := None; errors := [what];
         message := None; status_code := None |}
  | AuthenticationFailure status remote =>
      {| success := false; data := None; errors := [];
         message := Some remote; status_code := status |}
  | Answered status b =>
      if (200 <=? status) && (status <=? 299) then
        {| success := true; data := remote_result b; errors := [];
           message := remote_message b; status_code := Some status |}
      else
        {| success := false; data := None; errors := remote_errors b;
           message := remote_message b; status_code := Some status |}
  end.

End Envelope.

(** ** The other methods of [OpenSilexClient] ([opensilex_client.py]) *)

Module Listing.
Import Client.

(** [v[0]] *)
Definition py_first (v : json) : exn + json :=
  match v with
  | JArr (x :: _) => inr x
  | JArr [] => inl IndexError
  | JStr (String c _) => inr (JStr (String c EmptyString))
  | JStr EmptyString => inl IndexError
  | JObj _ => inl (KeyError "0")
  | _ => inl TypeError
  end.

(** [if v: params[k] = v], on a dict kept as its items in insertion order;
    [k] is not yet a key of [params]. *)
Definition add_if_truthy (k : string) (v : json) (params : list (string * json))
    : list (string * json) :=
  if truthy v then params ++ [(k, v)] else params.

Definition of_str (o : option string) : json :=
  match o with Some s => JStr s | None => JNull end.

(** [result.get("result", []) if result else None] *)
Definition result_or_none (result : option json) : M state json :=
  match result with
  | Some r => if truthy r then lift (dict_get r "result" (JArr [])) else ret JNull
  | None => ret JNull
  end.

Definition get_experiment (uri : string) : M state json :=
  let params := JObj [("uri", JStr uri)] in
  let! result := _make_request "GET" "/core/experiments" (Some params) None in
  match result with
  | Some r =>
      if truthy r then
        let! found := lift (dict_get r "result" JNull) in
        if truthy found then
          let! items := lift (dict_get r "result" (JArr [JObj []])) in
          lift (py_first items)
        else ret JNull
      else ret JNull
  | None => ret JNull
  end.

Definition get_scientific_objects (experiment_uri rdf_type : option string)
    (page page_size : Z) : M state json :=
  let params := [("page", JNum page); ("page_size", JNum page_size)] in
  let params := add_if_truthy "experiment" (of_str experiment_uri) params in
  let params := add_if_truthy "rdf_type" (of_str rdf_type) params in
  let! result := _make_request "GET" "/core/scientific_objects" (Some (JObj params)) None in
  result_or_none result.

Definition data_params (experiment_uri variable_uri scientific_object_uri
    start_date end_date : option string) (page page_size : Z)
    : list (string * json) :=
  let params := [("page", JNum page); ("page_size", JNum page_size)] in
  let params := add_if_truthy "experiment" (of_str experiment_uri) params in
  let params := add_if_truthy "variable" (of_str variable_uri) params in
  let params := add_if_truthy "scientific_object" (of_str scientific_object_uri) params in
  let params := add_if_truthy "start_date" (of_str start_date) params in
  let params := add_if_truthy "end_date" (of_str end_date) params in
  params.

Definition get_data (experiment_uri variable_uri scientific_object_uri
    start_date end_date : option string) (page page_size : Z) : M state json :=
  let params :=
    data_params experiment_uri variable_uri scientific_object_uri
      start_date end_date page page_size in
  let! result := _make_request "GET" "/core/data" (Some (JObj params)) None in
  result_or_none result.

(** [post_data]: [result is not None] *)
Definition post_data (data_list : list json) : M state bool :=
  let! result := _make_request "POST" "/core/data" None (Some (JArr data_list)) in
  ret (match result with
       | Some JNull | None => false
       | Some _ => true
       end).

Definition get_events (experiment_uri : option string) (page page_size : Z)
    : M state json :=
  let params := [("page", JNum page); ("page_size", JNum page_size)] in
  let params := add_if_truthy "experiment" (of_str experiment_uri) params in
  let! result := _make_request "GET" "/core/events" (Some (JObj params)) None in
  result_or_none result.

(** *** Vocabulary for the statements *)

(** The session announces the token it holds, or holds none and announces
    none. *)
Definition coherent (s : state) : Prop :=
  headers s !! "Authorization" = Some ("Bearer " +:+ PyStr.str (token s)) \/
  (token s = JNull /\ headers s !! "Authorization" = None).

(** An exchange of this client: an authentication carrying its credentials
    to the authentication endpoint, or the API request the caller asked
    for. *)
Definition well_addressed (s : state) (method endpoint : string)
    (params data : option json) (x : exchange) : Prop :=
  match c_site (fst x) with
  | AuthPost =>
      c_method (fst x) = "POST" /\
      c_url (fst x) = base_url s +:+ "/security/authenticate" /\
      c_params (fst x) = None /\
      c_json (fst x) =
        Some (JObj [("identifier", JStr (username s)); ("password", JStr (password s))])
  | ApiRequest =>
      c_method (fst x) = method /\
      c_url (fst x) = base_url s +:+ endpoint /\
      c_params (fst x) = params /\
      c_json (fst x) = data
  end.

(** A client that holds token [A] and is served by [net]. *)
Definition session_with (net : remote) : state :=
  State "http://localhost:28081/rest" "admin@opensilex.org" "admin" (JStr "A")
    (<["Authorization" := "Bearer A"]> {[ "Content-Type" := "application/json" ]})
    net [] [].

End Listing.

(** ** Constructing the client ([opensilex_client.py]) *)

Module Boot.
Import HostResolver.

(** [s.rstrip('/')] *)
Fixpoint rstrip_slash (s : string) : string :=
  match s with
  | EmptyString => EmptyString
  | String c s' =>
      let r := rstrip_slash s' in
      if Ascii.eqb c "/" && PyStr.is_empty r then EmptyString else String c r
  end.

(** What the constructor and [_get_base_url_from_ssh] tell the logger.  The
    available hosts are kept as a set. *)
Inductive boot_event : Type :=
  | UsingDefaultURL (url : string)
  | ClientInitialized (url : string)
  | FoundSSHHost (host : string)
  | FoundVMIP (ip : string)
  | NoVMConfiguration (available : gset string)
  | NoSSHConfig.

(** The machine the client is constructed on, and what the constructor
    logged. *)
Record boot : Type := Boot {
  world : frame;
  notes : list (Client.level * boot_event)
}.

Definition note (l : Client.level) (e : boot_event) : M boot unit :=
  modify (fun b => Boot (world b) (notes b ++ [(l, e)])).

(** Running the host resolver on the machine. *)
Definition on_world {A} (m : M frame A) : M boot A :=
  fun b =>
    let '(r, w) := m (world b) in (r, Boot w (notes b)).

(** [SSHConfigParser.get_host_ip] with its optional configuration *)
Definition get_host_ip_or_parse (host_name : string)
    (ssh_config : option (gmap string (gmap string string)))
    : M frame (option string) :=
  let! cfg :=
    (match ssh_config with
     | Some c => ret c
     | None => parse_ssh_config None
     end) in
  ret (get_host_ip host_name cfg).

Definition common_hosts : list string :=
  ["opensilex"; "opensilex-vm"; "opensilex-dev"; "vm";
   "phis"; "phis-vm"; "phis-dev"; "phis-prod"; "phis-test"].

Definition has_host (cfg : gmap string (gmap string string)) (h : string) : bool :=
  match cfg !! h with
  | Some _ => true
  | None => false
  end.

Definition str_truthy (s : string) : bool := negb (PyStr.is_empty s).

Definition _get_base_url_from_ssh (ssh_host : option string)
    : M boot (option string) :=
  let! ssh_config := on_world (parse_ssh_config None) in
  let! ssh_host :=
    (match ssh_host with
     | None =>
         match List.find (has_host ssh_config) common_hosts with
         | Some host => note Client.INFO (FoundSSHHost host) >> ret (Some host)
         | None => ret None
         end
     | Some h => ret (Some h)
     end) in
  let announce :=
    (if bool_decide (ssh_config = ∅)
     then note Client.WARNING NoSSHConfig >> ret None
     else note Client.WARNING (NoVMConfiguration (dom ssh_config)) >> ret None)
    : M boot (option string) in
  match ssh_host with
  | Some h =>
      if str_truthy h && has_host ssh_config h then
        match get_host_ip h ssh_config with
        | Some vm_ip =>
            if str_truthy vm_ip then
              let base_url := "http://" +:+ vm_ip +:+ ":28081/rest" in
              note Client.INFO (FoundVMIP vm_ip) >> ret (Some base_url)
            else announce
        | None => announce
        end
      else announce
  | None => announce
  end.

Definition default_url : string := "http://opensilex.org/sandbox/rest".

(** [OpenSilexClient.__init__]; [net] is the remote side the new client will
    talk to. *)
Definition __init__ (base_url : option string) (username password : string)
    (ssh_host : option string) (use_ssh_config : bool) (net : Client.remote)
    : M boot Client.state :=
  let! base_url :=
    (match base_url with
     | None => if use_ssh_config then _get_base_url_from_ssh ssh_host else ret None
     | Some u => ret (Some u)
     end) in
  let! base_url :=
    (match base_url with
     | None => note Client.INFO (UsingDefaultURL default_url) >> ret default_url
     | Some u => ret u
     end) in
  let url := rstrip_slash base_url in
  note Client.INFO (ClientInitialized url) >>
  ret (Client.State url username password JNull
         {[ "Content-Type" := "application/json" ]} net [] []).

(** [x or default] on an optional string *)
Definition or_default (x : option string) (default : string) : string :=
  match x with
  | Some s => if str_truthy s then s else default
  | None => default
  end.

Definition from_ssh_config (ssh_host username password : option string)
    (net : Client.remote) : M boot Client.state :=
  __init__ None (or_default username "admin@opensilex.org")
    (or_default password "admin") ssh_host true net.

(** *** Vocabulary for the statements *)

Fixpoint no_blank (s : string) : bool :=
  match s with
  | EmptyString => true
  | String c s' => negb (PyStr.isspace c) && no_blank s'
  end.

(** A word: at least one character and no blank. *)
Definition word (s : string) : Prop :=
  s <> EmptyString /\ no_blank s = true.

(** A line the parsers skip: blank, or a comment. *)
Definition ignorable (line : string) : bool :=
  PyStr.is_empty (PyStr.strip line) || PyStr.startswith (PyStr.strip line) "#".

(** Every attribute key of the configuration is in lower case. *)
Definition lowercase_keys (cfg : gmap string (gmap string string)) : Prop :=
  forall h entry k v,
    cfg !! h = Some entry -> entry !! k = Some v -> PyStr.lower k = k.

(** The current host, if any, has an entry. *)
Definition host_is_open (w : frame) : Prop :=
  forall h, current_host w = Some h -> is_Some (hosts w !! h).

Fixpoint slashes (n : nat) : string :=
  match n with
  | O => EmptyString
  | S n' => String "/" (slashes n')
  end.

Fixpoint ends_with_slash (s : string) : bool :=
  match s with
  | EmptyString => false
  | String c EmptyString => Ascii.eqb c "/"
  | String _ s' => ends_with_slash s'
  end.

(** A host block as [ssh] users write it. *)
Definition host_block (alias ip port : string) : list string :=
  ["Host " +:+ alias; "    HostName " +:+ ip; "    Port " +:+ port].

(** What a host block leaves in the mapping. *)
Definition block_entry (ip port : string) : gmap string string :=
  <["port" := port]> (<["hostname" := ip]> ∅).

(** A machine whose [~/.ssh/config] holds [lines]. *)
Definition machine_with (lines : list string) : frame :=
  machine "/home/user" "posix"
    (fun path => if String.eqb path "/home/user/.ssh/config"
                 then TextFile lines None else NoSuchFile).

Definition fresh (w : frame) : boot := Boot w [].

End Boot.

(** ** The remaining searches of [modules/projects.py] *)

Module Searches.
Import Projects.

Module ScientificObjectSearchParams.
Record t : Type := Make {
  name : option string;
  rdf_types : option (list string);
  experiment : option string;
  factor_levels : option (list string);
  parent : option string;
  germplasm : option (list string);
  order_by : option (list string);
  page : Z;
  page_size : Z
}.
Definition default : t := Make None None None None None None None 0 20.
End ScientificObjectSearchParams.

Section Wrappers.
Context {R : Type} (client : BaseAPIClient R).

Definition search_scientific_objects_query (params : ScientificObjectSearchParams.t)
    : gmap string json :=
  let query_params : gmap string json :=
    <["page_size" := JNum (ScientificObjectSearchParams.page_size params)]>
      (<["page" := JNum (ScientificObjectSearchParams.page params)]> ∅) in
  let query_params :=
    set_if_truthy "name" (of_str (ScientificObjectSearchParams.name params))
      query_params in
  let query_params :=
    set_if_truthy "rdf_types" (of_list (ScientificObjectSearchParams.rdf_types params))
      query_params in
  let query_params :=
    set_if_truthy "experiment" (of_str (ScientificObjectSearchParams.experiment params))
      query_params in
  let query_params :=
    set_if_truthy "factor_levels"
      (of_list (ScientificObjectSearchParams.factor_levels params)) query_params in
  let query_params :=
    set_if_truthy "parent" (of_str (ScientificObjectSearchParams.parent params))
      query_params in
  let query_params :=
    set_if_truthy "germplasm" (of_list (ScientificObjectSearchParams.germplasm params))
      query_params in
  let query_params :=
    set_if_truthy "order_by" (of_list (ScientificObjectSearchParams.order_by params))
      query_params in
  query_params.

Definition search_scientific_objects (params : option ScientificObjectSearchParams.t)
    : R :=
  let params :=
    match params with
    | Some p => p
    | None => ScientificObjectSearchParams.default
    end in
  get client "/core/scientific_objects" (Some (search_scientific_objects_query params)).

End Wrappers.

(** *** Vocabulary for the statements *)

(** The filters of an experiment search that are sent when truthy. *)
Definition experiment_fields (p : ExperimentSearchParams.t) : list (string * json) :=
  [("name", of_str (ExperimentSearchParams.name p));
   ("year", of_int (ExperimentSearchParams.year p));
   ("project", of_str (ExperimentSearchParams.project p));
   ("order_by", of_list (ExperimentSearchParams.order_by p))].

(** The optional filters of a search for scientific objects. *)
Definition object_fields (p : ScientificObjectSearchParams.t) : list (string * json) :=
  [("name", of_str (ScientificObjectSearchParams.name p));
   ("rdf_types", of_list (ScientificObjectSearchParams.rdf_types p));
   ("experiment", of_str (ScientificObjectSearchParams.experiment p));
   ("factor_levels", of_list (ScientificObjectSearchParams.factor_levels p));
   ("parent", of_str (ScientificObjectSearchParams.parent p));
   ("germplasm", of_list (ScientificObjectSearchParams.germplasm p));
   ("order_by", of_list (ScientificObjectSearchParams.order_by p))].

(** Every character of [s] passes [ok]. *)
Fixpoint all_chars (ok : ascii -> bool) (s : string) : bool :=
  match s with
  | EmptyString => true
  | String c s' => ok c && all_chars ok s'
  end.

(** A character [quote] leaves alone. *)
Definition is_unreserved (c : ascii) : bool := PyStr.unreserved (PyStr.ord c).

(** A character that cannot end or split a path segment: an unreserved one,
    or the percent sign of an escape. *)
Definition segment_safe (c : ascii) : bool :=
  is_unreserved c || Ascii.eqb c "%".

End Searches.

(** ** The URL of the demo script ([create_demo_variables.py]) *)

Module DemoScript.

(** What the script prints. *)
Inductive printed : Type :=
  | ConstructedAPIURL (api_url : string).

(** [host_config.get(k, default)] *)
Definition get_or (host_config : gmap string string) (k default : string) : string :=
  match host_config !! k with
  | Some v => v
  | None => default
  end.

Definition construct_opensilex_url (host_name : string)
    (host_config : gmap string string) : M (list printed) string :=
  let hostname := get_or host_config "hostname" host_name in
  let port := get_or host_config "port" "28081" in
  let api_url := "http://" +:+ hostname +:+ ":" +:+ port +:+ "/sandbox/rest" in
  modify (fun out => out ++ [ConstructedAPIURL api_url]) >>
  ret api_url.

End DemoScript.

(** * Properties *)

Lemma snoc2 {A} (l : list A) (a b : A) : (l ++ [a]) ++ [b] = l ++ [a; b].
Proof. now rewrite <- app_assoc. Qed.

Lemma snoc3 {A} (l : list A) (a b c : A) :
  ((l ++ [a]) ++ [b]) ++ [c] = l ++ [a; b; c].
Proof. now rewrite <- !app_assoc. Qed.

Module ClientFacts.
Import Client.

Lemma authenticate_ok (s : state) (tok : json) :
  reply_token (server s (sent s) (auth_call s)) = Some tok ->
  authenticate s =
    (Ret true, authenticated tok (server s (sent s) (auth_call s)) s).
Proof.
  unfold authenticate, try_except, bind, gets, requests_post, requests_call.
  change (Call AuthPost "POST" _ _ _ _) with (auth_call s).
  destruct (server s (sent s) (auth_call s)) as [x|e]; cbn; [|discriminate].
  destruct (status_code x =? 200); [|discriminate].
  unfold response_json.
  destruct (body x) as [[| | | | |top]|]; cbn; try discriminate.
  destruct (assoc "result" top) as [[| | | | |inner]|]; cbn; try discriminate.
  destruct (assoc "token" inner) as [t|]; cbn; [|discriminate].
  intros [= ->]. reflexivity.
Qed.

Lemma authenticate_ko (s : state) :
  reply_token (server s (sent s) (auth_call s)) = None ->
  exists ev,
    authenticate s =
      (Ret false,
       add_log ERROR ev (record (auth_call s, server s (sent s) (auth_call s)) s)).
Proof.
  unfold authenticate, try_except, bind, gets, requests_post, requests_call.
  change (Call AuthPost "POST" _ _ _ _) with (auth_call s).
  destruct (server s (sent s) (auth_call s)) as [x|e]; cbn; [|eauto].
  destruct (status_code x =? 200); [|eauto].
  unfold response_json.
  destruct (body x) as [[| | | | |top]|]; cbn; eauto.
  destruct (assoc "result" top) as [[| | | | |inner]|]; cbn; eauto.
  destruct (assoc "token" inner) as [t|]; cbn; [discriminate|eauto].
Qed.

(** [authenticate] always returns, and says whether the answer carried a
    token. *)
Lemma authenticate_returns (s : state) :
  exists s',
    authenticate s =
      (Ret (bool_decide (is_Some (reply_token (server s (sent s) (auth_call s))))), s').
Proof.
  destruct (reply_token (server s (sent s) (auth_call s))) as [tok|] eqn:E.
  - rewrite (authenticate_ok s tok E). eauto.
  - destruct (authenticate_ko s E) as [ev ->]. eauto.
Qed.

(** The request goes out and the transport raises. *)
Lemma refresh_transport_error (s : state) method url params data e :
  let c := Call ApiRequest method url (headers s) params data in
  server s (sent s) c = Fails e ->
  request_with_refresh method url params data s =
    (Ret None, add_log ERROR (RequestError e) (record (c, Fails e) s)).
Proof.
  intros c H.
  unfold request_with_refresh, try_except, bind, gets, requests_request,
    requests_call.
  fold c. rewrite H. reflexivity.
Qed.

(** The request is answered with something other than 401. *)
Lemma refresh_plain (s : state) method url params data x :
  let c := Call ApiRequest method url (headers s) params data in
  server s (sent s) c = Answer x ->
  (status_code x =? 401) = false ->
  exists s',
    request_with_refresh method url params data s =
      (Ret (payload (Answer x)), s') /\
    sent s' = sent s ++ [(c, Answer x)] /\
    token s' = token s /\ headers s' = headers s /\ same_config s s'.
Proof.
  intros c H H401.
  unfold request_with_refresh, try_except, bind, gets, requests_request,
    requests_call.
  fold c. rewrite H. cbn. rewrite H401. cbn.
  unfold same_config.
  destruct (status_code x =? 200); cbn.
  - unfold response_json. destruct (body x); cbn; eauto 10.
  - eauto 10.
Qed.

(** The request is answered 401 and the re-authentication fails: the 401 is
    the last word. *)
Lemma refresh_401_ko (s : state) method url params data x :
  let c := Call ApiRequest method url (headers s) params data in
  let h1 := sent s ++ [(c, Answer x)] in
  let a := server s h1 (auth_call s) in
  server s (sent s) c = Answer x ->
  status_code x = 401 ->
  reply_token a = None ->
  exists s',
    request_with_refresh method url params data s = (Ret None, s') /\
    sent s' = h1 ++ [(auth_call s, a)] /\
    token s' = token s /\ headers s' = headers s /\ same_config s s'.
Proof.
  intros c h1 a H H401 Ha.
  unfold request_with_refresh, try_except, bind, gets, requests_request,
    requests_call, logger, modify.
  fold c. rewrite H. cbn. rewrite H401. cbn.
  set (s1 := add_log INFO TokenExpired (record (c, Answer x) s)).
  destruct (authenticate_ko s1 Ha) as [ev Hev]. rewrite Hev. cbn.
  rewrite H401. cbn. unfold same_config. eauto 10.
Qed.

(** The request is answered 401 and the re-authentication obtains [tok]: the
    same request goes out once more under the new header, and its answer is
    the last word. *)
Lemma refresh_401_ok (s : state) method url params data x tok :
  let c := Call ApiRequest method url (headers s) params data in
  let h1 := sent s ++ [(c, Answer x)] in
  let a := server s h1 (auth_call s) in
  let hdrs := <["Authorization" := "Bearer " +:+ PyStr.str tok]> (headers s) in
  let c2 := Call ApiRequest method url hdrs params data in
  let h2 := h1 ++ [(auth_call s, a)] in
  server s (sent s) c = Answer x ->
  status_code x = 401 ->
  reply_token a = Some tok ->
  exists s',
    request_with_refresh method url params data s =
      (Ret (payload (server s h2 c2)), s') /\
    sent s' = h2 ++ [(c2, server s h2 c2)] /\
    token s' = tok /\ headers s' = hdrs /\ same_config s s'.
Proof.
  intros c h1 a hdrs c2 h2 H H401 Ha.
  unfold request_with_refresh, try_except, bind, gets, requests_request,
    requests_call, logger, modify.
  fold c. rewrite H. cbn. rewrite H401. cbn.
  set (s1 := add_log INFO TokenExpired (record (c, Answer x) s)).
  rewrite (authenticate_ok s1 tok Ha). cbn.
  change (auth_call s1) with (auth_call s).
  unfold same_config.
  repeat match goal with
  | |- context [match ?t with Answer _ => _ | Fails _ => _ end] =>
      progress change t with (server s h2 c2)
  | |- context [record (?c, ?t)] =>
      progress change t with (server s h2 c2)
  end.
  destruct (server s h2 c2) as [y|e]; cbn; [|eauto 10].
  destruct (status_code y =? 200); cbn; [|eauto 10].
  unfold response_json. destruct (body y); cbn; eauto 10.
Qed.


Lemma make_request_held (s : state) method endpoint params data :
  truthy (token s) = true ->
  _make_request method endpoint params data s =
    request_with_refresh method (base_url s +:+ endpoint) params data s.
Proof.
  intros H. unfold _make_request, bind, gets. rewrite H. reflexivity.
Qed.

(** Without a token the first step is [authenticate]; when it fails nothing
    else is sent. *)
Lemma make_request_unheld_ko (s : state) method endpoint params data :
  truthy (token s) = false ->
  reply_token (server s (sent s) (auth_call s)) = None ->
  exists ev,
    _make_request method endpoint params data s =
      (Ret None,
       add_log ERROR ev (record (auth_call s, server s (sent s) (auth_call s)) s)).
Proof.
  intros H Ha. unfold _make_request, bind, gets. rewrite H. cbn.
  destruct (authenticate_ko s Ha) as [ev ->]. cbn. eauto.
Qed.

Lemma make_request_unheld_ok (s : state) method endpoint params data tok :
  truthy (token s) = false ->
  reply_token (server s (sent s) (auth_call s)) = Some tok ->
  _make_request method endpoint params data s =
    request_with_refresh method (base_url s +:+ endpoint) params data
      (authenticated tok (server s (sent s) (auth_call s)) s).
Proof.
  intros H Ha. unfold _make_request, bind, gets. rewrite H. cbn.
  rewrite (authenticate_ok s tok Ha). reflexivity.
Qed.

(** After a 401 the traffic of the call is fixed: the request, one
    authentication, and the request once more exactly when that authentication
    obtained a token. *)
Lemma retry_after_401 (s : state) method endpoint params data x :
  let c := api_call s method endpoint params data in
  let h1 := sent s ++ [(c, Answer x)] in
  let a := server s h1 (auth_call s) in
  truthy (token s) = true ->
  server s (sent s) c = Answer x ->
  status_code x = 401 ->
  exists v s' new,
    _make_request method endpoint params data s = (Ret v, s') /\
    sent s' = sent s ++ new /\
    count_site AuthPost new = 1%nat /\
    match reply_token a with
    | Some tok =>
        let c2 := Call ApiRequest method (base_url s +:+ endpoint)
                    (<["Authorization" := "Bearer " +:+ PyStr.str tok]> (headers s))
                    params data in
        let r2 := server s (h1 ++ [(auth_call s, a)]) c2 in
        new = [(c, Answer x); (auth_call s, a); (c2, r2)] /\ v = payload r2
    | None =>
        new = [(c, Answer x); (auth_call s, a)] /\ v = None
    end.
Proof.
  intros c h1 a Htok H H401.
  rewrite (make_request_held s _ _ _ _ Htok).
  destruct (reply_token a) as [tok|] eqn:Ha.
  - destruct (refresh_401_ok s method (base_url s +:+ endpoint) params data x tok
                H H401 Ha) as (s' & Hrun & Hsent & _).
    eexists _, s', [(c, Answer x); (auth_call s, a); _].
    split; [exact Hrun|].
    split; [rewrite Hsent; apply snoc3|].
    split; [reflexivity|]. split; reflexivity.
  - destruct (refresh_401_ko s method (base_url s +:+ endpoint) params data x
                H H401 Ha) as (s' & Hrun & Hsent & _).
    eexists _, s', [(c, Answer x); (auth_call s, a)].
    split; [exact Hrun|].
    split; [rewrite Hsent; apply snoc2|].
    split; [reflexivity|]. split; reflexivity.
Qed.

(** The same when the call starts without a token and its first
    authentication obtains [tok0]. *)
Lemma retry_after_401_fresh (s : state) method endpoint params data tok0 x :
  let a0 := server s (sent s) (auth_call s) in
  let s1 := authenticated tok0 a0 s in
  let c := api_call s1 method endpoint params data in
  let h1 := sent s1 ++ [(c, Answer x)] in
  let a := server s h1 (auth_call s1) in
  truthy (token s) = false ->
  reply_token a0 = Some tok0 ->
  server s (sent s1) c = Answer x ->
  status_code x = 401 ->
  exists v s' new,
    _make_request method endpoint params data s = (Ret v, s') /\
    sent s' = sent s1 ++ new /\
    count_site AuthPost new = 1%nat /\
    match reply_token a with
    | Some tok =>
        let c2 := Call ApiRequest method (base_url s +:+ endpoint)
                    (<["Authorization" := "Bearer " +:+ PyStr.str tok]> (headers s1))
                    params data in
        let r2 := server s (h1 ++ [(auth_call s1, a)]) c2 in
        new = [(c, Answer x); (auth_call s1, a); (c2, r2)] /\ v = payload r2
    | None =>
        new = [(c, Answer x); (auth_call s1, a)] /\ v = None
    end.
Proof.
  intros a0 s1 c h1 a Htok Ha0 H H401.
  rewrite (make_request_unheld_ok s _ _ _ _ tok0 Htok Ha0). fold a0 s1.
  destruct (reply_token a) as [tok|] eqn:Ha.
  - destruct (refresh_401_ok s1 method (base_url s +:+ endpoint) params data x tok
                H H401 Ha) as (s' & Hrun & Hsent & _).
    eexists _, s', [(c, Answer x); (auth_call s1, a); _].
    split; [exact Hrun|].
    split; [rewrite Hsent; apply snoc3|].
    split; [reflexivity|]. split; reflexivity.
  - destruct (refresh_401_ko s1 method (base_url s +:+ endpoint) params data x
                H H401 Ha) as (s' & Hrun & Hsent & _).
    eexists _, s', [(c, Answer x); (auth_call s1, a)].
    split; [exact Hrun|].
    split; [rewrite Hsent; apply snoc2|].
    split; [reflexivity|]. split; reflexivity.
Qed.

(** What one pass through the [try] block amounts to: it returns, it adds
    to the traffic, any raising exchange makes it return [None], and otherwise
    the last exchange decides. *)
Lemma refresh_summary (s : state) method url params data :
  exists v s' new,
    request_with_refresh method url params data s = (Ret v, s') /\
    sent s' = sent s ++ new /\
    same_config s s' /\
    new <> [] /\
    (forall c e, In (c, Fails e) new -> v = None) /\
    (forall c r, last new = Some (c, r) ->
       v = if site_eqb (c_site c) ApiRequest then payload r else None).
Proof.
  set (c := Call ApiRequest method url (headers s) params data).
  destruct (server s (sent s) c) as [x|e] eqn:H.
  - destruct (status_code x =? 401) eqn:H401.
    + apply Z.eqb_eq in H401.
      set (a := server s (sent s ++ [(c, Answer x)]) (auth_call s)).
      destruct (reply_token a) as [tok|] eqn:Ha.
      * destruct (refresh_401_ok s method url params data x tok H H401 Ha)
          as (s' & Hrun & Hsent & _ & _ & Hcfg).
        fold c a in Hrun, Hsent.
        set (c2 := Call ApiRequest method url _ params data) in Hrun, Hsent.
        set (r2 := server s _ c2) in Hrun, Hsent.
        exists (payload r2), s', [(c, Answer x); (auth_call s, a); (c2, r2)].
        split; [exact Hrun|]. split; [rewrite Hsent; apply snoc3|].
        split; [exact Hcfg|]. split; [discriminate|]. split.
        -- clearbody r2 a.
           intros c' e [E|[E|[E|[]]]]; inversion E as [[E1 E2]].
           ++ rewrite E2 in Ha. discriminate.
           ++ reflexivity.
        -- intros c' r [= <- <-]. reflexivity.
      * destruct (refresh_401_ko s method url params data x H H401 Ha)
          as (s' & Hrun & Hsent & _ & _ & Hcfg).
        fold c a in Hrun, Hsent.
        exists None, s', [(c, Answer x); (auth_call s, a)].
        split; [exact Hrun|]. split; [rewrite Hsent; apply snoc2|].
        split; [exact Hcfg|]. split; [discriminate|]. split.
        -- reflexivity.
        -- intros c' r [= <- <-]. reflexivity.
    + destruct (refresh_plain s method url params data x H H401)
        as (s' & Hrun & Hsent & _ & _ & Hcfg).
      exists (payload (Answer x)), s', [(c, Answer x)].
      split; [exact Hrun|]. split; [exact Hsent|]. split; [exact Hcfg|].
      split; [discriminate|]. split.
      * intros c' e [E|[]]. inversion E.
      * intros c' r [= <- <-]. reflexivity.
  - rewrite (refresh_transport_error s method url params data e H).
    eexists _, _, [(c, Fails e)].
    split; [reflexivity|]. split; [reflexivity|].
    split; [repeat split|]. split; [discriminate|]. split.
    + reflexivity.
    + intros c' r [= <- <-]. reflexivity.
Qed.

(** What one pass through the [try] block sends first, and what it returns
    when the first answer settles the matter. *)
Lemma refresh_first (s : state) method url params data :
  let c := Call ApiRequest method url (headers s) params data in
  exists v s' new,
    request_with_refresh method url params data s = (Ret v, s') /\
    sent s' = sent s ++ new /\
    hd_error new = Some (c, server s (sent s) c) /\
    (forall x, server s (sent s) c = Answer x -> status_code x <> 401 ->
       new = [(c, Answer x)]) /\
    (forall e, server s (sent s) c = Fails e -> new = [(c, Fails e)]).
Proof.
  intros c.
  destruct (server s (sent s) c) as [x|e] eqn:H.
  - destruct (status_code x =? 401) eqn:H401.
    + apply Z.eqb_eq in H401.
      set (a := server s (sent s ++ [(c, Answer x)]) (auth_call s)).
      destruct (reply_token a) as [tok|] eqn:Ha.
      * destruct (refresh_401_ok s method url params data x tok H H401 Ha)
          as (s' & Hrun & Hsent & _).
        eexists _, s', [(c, Answer x); (auth_call s, a); _].
        split; [exact Hrun|]. split; [rewrite Hsent; apply snoc3|].
        split; [reflexivity|]. split; [|discriminate].
        intros x' [= <-] Hne. contradiction.
      * destruct (refresh_401_ko s method url params data x H H401 Ha)
          as (s' & Hrun & Hsent & _).
        eexists _, s', [(c, Answer x); (auth_call s, a)].
        split; [exact Hrun|]. split; [rewrite Hsent; apply snoc2|].
        split; [reflexivity|]. split; [|discriminate].
        intros x' [= <-] Hne. contradiction.
    + destruct (refresh_plain s method url params data x H H401)
        as (s' & Hrun & Hsent & _).
      eexists _, s', [(c, Answer x)].
      split; [exact Hrun|]. split; [exact Hsent|].
      split; [reflexivity|]. split; [|discriminate].
      intros x' [= <-] _. reflexivity.
  - rewrite (refresh_transport_error s method url params data e H).
    eexists _, _, [(c, Fails e)].
    split; [reflexivity|]. split; [reflexivity|].
    split; [reflexivity|]. split; [discriminate|].
    intros e' [= <-]. reflexivity.
Qed.

(** The two descriptions of one pass, joined. *)
Lemma refresh_account (s : state) method url params data :
  let c := Call ApiRequest method url (headers s) params data in
  exists v s' new,
    request_with_refresh method url params data s = (Ret v, s') /\
    sent s' = sent s ++ new /\
    hd_error new = Some (c, server s (sent s) c) /\
    (forall x, server s (sent s) c = Answer x -> status_code x <> 401 ->
       new = [(c, Answer x)]) /\
    (forall e, server s (sent s) c = Fails e -> new = [(c, Fails e)]) /\
    (forall c' e, In (c', Fails e) new -> v = None) /\
    (forall c' r, last new = Some (c', r) ->
       v = if site_eqb (c_site c') ApiRequest then payload r else None).
Proof.
  intros c.
  destruct (refresh_first s method url params data)
    as (v & s' & new & Hrun & Hsent & Hhd & Hplain & Hfail).
  destruct (refresh_summary s method url params data)
    as (v2 & s2 & new2 & Hrun2 & Hsent2 & _ & _ & Hexc & Hl).
  rewrite Hrun in Hrun2. injection Hrun2 as <- <-.
  rewrite Hsent in Hsent2. apply app_inv_head in Hsent2 as <-.
  exists v, s', new. auto 10.
Qed.

(** C2. [_make_request] always returns a value, never an exception, and it
    always sends something.  Without a token it authenticates first; when
    that fails it returns [None] and the authentication is all it sent.  When
    a token is held, or has just been obtained, the caller's request goes
    out; if the transport raises on it the call returns [None]; if it is
    answered with a status other than 401 that answer is the last exchange.
    In every case the last exchange decides: the decoded body of a 200 answer
    to the API request, [None] for any other status, [None] when any exchange
    raised, and [None] when the last exchange was a failed authentication. *)
Theorem make_request_never_raises (s : state) method endpoint params data :
  exists v s' new,
    _make_request method endpoint params data s = (Ret v, s') /\
    sent s' = sent s ++ new /\
    new <> [] /\
    (truthy (token s) = false ->
     reply_token (server s (sent s) (auth_call s)) = None ->
     v = None /\ count_site ApiRequest new = 0%nat /\
     new = [(auth_call s, server s (sent s) (auth_call s))]) /\
    (forall s0,
       (truthy (token s) = true /\ s0 = s) \/
       (truthy (token s) = false /\
        exists tok,
          reply_token (server s (sent s) (auth_call s)) = Some tok /\
          s0 = authenticated tok (server s (sent s) (auth_call s)) s) ->
       let c := api_call s0 method endpoint params data in
       In (c, server s (sent s0) c) new /\
       (forall x, server s (sent s0) c = Answer x -> status_code x <> 401 ->
          last new = Some (c, Answer x) /\
          v = if status_code x =? 200 then body x else None) /\
       (forall e, server s (sent s0) c = Fails e ->
          last new = Some (c, Fails e) /\ v = None)) /\
    (forall c e, In (c, Fails e) new -> v = None) /\
    (forall c x, last new = Some (c, Answer x) -> c_site c = ApiRequest ->
       v = if status_code x =? 200 then body x else None) /\
    (forall c r, last new = Some (c, r) -> c_site c = AuthPost -> v = None).
Proof.
  assert (Hlast : forall (v : option json) (new : list exchange),
    (forall c r, last new = Some (c, r) ->
       v = if site_eqb (c_site c) ApiRequest then payload r else None) ->
    (forall c x, last new = Some (c, Answer x) -> c_site c = ApiRequest ->
       v = if status_code x =? 200 then body x else None) /\
    (forall c r, last new = Some (c, r) -> c_site c = AuthPost -> v = None)).
  { intros v new Hl. split.
    - intros c x Hc Hs. rewrite (Hl _ _ Hc), Hs. reflexivity.
    - intros c r Hc Hs. rewrite (Hl _ _ Hc), Hs. reflexivity. }
  destruct (truthy (token s)) eqn:Htok.
  - rewrite (make_request_held s _ _ _ _ Htok).
    destruct (refresh_account s method (base_url s +:+ endpoint) params data)
      as (v & s' & new & Hrun & Hsent & Hhd & Hplain & Hfail & Hexc & Hl).
    exists v, s', new. split; [exact Hrun|]. split; [exact Hsent|].
    split; [intros ->; discriminate Hhd|].
    split; [discriminate|].
    split; [|split; [exact Hexc|apply Hlast, Hl]].
    intros s0 [[_ ->]|[[=] _]] c.
    split; [|split].
    + destruct new as [|y new']; [discriminate Hhd|].
      injection Hhd as ->. left. reflexivity.
    + intros x Hx Hne. rewrite (Hplain x Hx Hne) in *.
      split; [reflexivity|].
      rewrite (Hl c (Answer x) eq_refl). reflexivity.
    + intros e He. rewrite (Hfail e He) in *.
      split; [reflexivity|].
      exact (Hexc c e (or_introl eq_refl)).
  - destruct (reply_token (server s (sent s) (auth_call s))) as [tok|] eqn:Ha.
    + rewrite (make_request_unheld_ok s _ _ _ _ tok Htok Ha).
      set (a := server s (sent s) (auth_call s)) in *.
      destruct (refresh_account (authenticated tok a s) method
                  (base_url s +:+ endpoint) params data)
        as (v & s' & new & Hrun & Hsent & Hhd & Hplain & Hfail & Hexc & Hl).
      assert (Hne : new <> []) by (intros ->; discriminate Hhd).
      assert (Hlast' : forall y, last ((auth_call s, a) :: new) = y -> last new = y).
      { intros y Hy. destruct new as [|z new']; [congruence|exact Hy]. }
      exists v, s', ((auth_call s, a) :: new).
      split; [exact Hrun|].
      split; [rewrite Hsent; cbn; rewrite <- app_assoc; reflexivity|].
      split; [discriminate|].
      split; [intros _ [=]|].
      split; [|split].
      * intros s0 [[[=] _]|[_ (tok' & [= <-] & ->)]] c.
        split; [|split].
        -- destruct new as [|y new']; [discriminate Hhd|].
           injection Hhd as ->. right. left. reflexivity.
        -- intros x Hx Hn. rewrite (Hplain x Hx Hn) in *.
           split; [reflexivity|].
           rewrite (Hl c (Answer x) eq_refl). reflexivity.
        -- intros e He. rewrite (Hfail e He) in *.
           split; [reflexivity|].
           exact (Hexc c e (or_introl eq_refl)).
      * intros c e [E|Hin]; [|exact (Hexc c e Hin)].
        clearbody a. inversion E as [[E1 E2]]. rewrite E2 in Ha. discriminate.
      * apply Hlast. intros c r Hc. apply Hl, Hlast', Hc.
    + destruct (make_request_unheld_ko s method endpoint params data Htok Ha)
        as [ev ->].
      eexists None, _, [(auth_call s, _)].
      split; [reflexivity|]. split; [reflexivity|].
      split; [discriminate|].
      split; [intros _ _; repeat split; reflexivity|].
      split.
      { intros s0 [[[=] _]|[_ (tok' & Hsome & _)]]. discriminate Hsome. }
      split; [reflexivity|].
      split; [|reflexivity].
      intros c x [= <- _]. discriminate.
Qed.


(** C1. Within one call of [_make_request], whether it starts with a token
    or obtains one first, a first answer of status 401 to the request is
    followed by exactly one authentication and, exactly when that
    authentication obtains a token, by the same request once more (same
    method, URL, parameters and body, under the refreshed headers) and by
    nothing else, whatever the second answer is.  Against the mocked sequence
    [401, re-auth 200, 200] the call returns the body of the last answer after
    2 API requests and 1 authentication; against [401, re-auth 200, 401] it
    returns [None] after 2 API requests and 1 authentication. *)
Theorem make_request_retries_once :
  (forall (s : state) method endpoint params data x,
     truthy (token s) = true ->
     server s (sent s) (api_call s method endpoint params data) = Answer x ->
     status_code x = 401 ->
     let c := api_call s method endpoint params data in
     let h1 := sent s ++ [(c, Answer x)] in
     let a := server s h1 (auth_call s) in
     exists v s' new,
       _make_request method endpoint params data s = (Ret v, s') /\
       sent s' = sent s ++ new /\
       count_site AuthPost new = 1%nat /\
       match reply_token a with
       | Some tok =>
           let c2 := Call ApiRequest method (base_url s +:+ endpoint)
                       (<["Authorization" := "Bearer " +:+ PyStr.str tok]> (headers s))
                       params data in
           let r2 := server s (h1 ++ [(auth_call s, a)]) c2 in
           new = [(c, Answer x); (auth_call s, a); (c2, r2)] /\
           count_site ApiRequest new = 2%nat /\ v = payload r2
       | None =>
           new = [(c, Answer x); (auth_call s, a)] /\
           count_site ApiRequest new = 1%nat /\ v = None
       end) /\
  (forall (s : state) method endpoint params data tok0 x,
     truthy (token s) = false ->
     reply_token (server s (sent s) (auth_call s)) = Some tok0 ->
     let s1 := authenticated tok0 (server s (sent s) (auth_call s)) s in
     let c := api_call s1 method endpoint params data in
     server s (sent s1) c = Answer x ->
     status_code x = 401 ->
     let h1 := sent s1 ++ [(c, Answer x)] in
     let a := server s h1 (auth_call s1) in
     exists v s' new,
       _make_request method endpoint params data s = (Ret v, s') /\
       sent s' = sent s1 ++ new /\
       count_site AuthPost new = 1%nat /\
       match reply_token a with
       | Some tok =>
           let c2 := Call ApiRequest method (base_url s +:+ endpoint)
                       (<["Authorization" := "Bearer " +:+ PyStr.str tok]> (headers s1))
                       params data in
           let r2 := server s (h1 ++ [(auth_call s1, a)]) c2 in
           new = [(c, Answer x); (auth_call s1, a); (c2, r2)] /\
           count_site ApiRequest new = 2%nat /\ v = payload r2
       | None =>
           new = [(c, Answer x); (auth_call s1, a)] /\
           count_site ApiRequest new = 1%nat /\ v = None
       end) /\
  (forall (s : state) method endpoint params data b0 t0 T b t2,
     truthy (token s) = true ->
     sent s = [] ->
     server s = scripted [Answer (Response 401 b0 t0); token_answer T;
                          Answer (Response 200 (Some b) t2)] ->
     exists s',
       _make_request method endpoint params data s = (Ret (Some b), s') /\
       count_site ApiRequest (sent s') = 2%nat /\
       count_site AuthPost (sent s') = 1%nat) /\
  (forall (s : state) method endpoint params data b0 t0 T b2 t2,
     truthy (token s) = true ->
     sent s = [] ->
     server s = scripted [Answer (Response 401 b0 t0); token_answer T;
                          Answer (Response 401 b2 t2)] ->
     exists s',
       _make_request method endpoint params data s = (Ret None, s') /\
       count_site ApiRequest (sent s') = 2%nat /\
       count_site AuthPost (sent s') = 1%nat /\
       length (sent s') = 3%nat).
Proof.
  split; [|split; [|split]].
  - intros s method endpoint params data x Htok H H401 c h1 a.
    destruct (retry_after_401 s method endpoint params data x Htok H H401)
      as (v & s' & new & Hrun & Hsent & Hauth & Hnew).
    exists v, s', new. fold c h1 a in Hnew.
    split; [exact Hrun|]. split; [exact Hsent|]. split; [exact Hauth|].
    destruct (reply_token a).
    + destruct Hnew as [-> ->]. repeat split.
    + destruct Hnew as [-> ->]. repeat split.
  - intros s method endpoint params data tok0 x Htok Ha0 s1 c H H401 h1 a.
    destruct (retry_after_401_fresh s method endpoint params data tok0 x
                Htok Ha0 H H401)
      as (v & s' & new & Hrun & Hsent & Hauth & Hnew).
    exists v, s', new. fold s1 c h1 a in Hnew.
    split; [exact Hrun|]. split; [exact Hsent|]. split; [exact Hauth|].
    destruct (reply_token a).
    + destruct Hnew as [-> ->]. repeat split.
    + destruct Hnew as [-> ->]. repeat split.
  - intros s method endpoint params data b0 t0 T b t2 Htok Hs Hsrv.
    destruct (retry_after_401 s method endpoint params data (Response 401 b0 t0)
                Htok) as (v & s' & new & Hrun & Hsent & Hauth & Hnew).
    { rewrite Hsrv, Hs. reflexivity. }
    { reflexivity. }
    rewrite Hsrv, Hs in Hnew. cbn in Hnew. destruct Hnew as [-> ->].
    exists s'. rewrite Hrun, Hsent, Hs. repeat split.
  - intros s method endpoint params data b0 t0 T b2 t2 Htok Hs Hsrv.
    destruct (retry_after_401 s method endpoint params data (Response 401 b0 t0)
                Htok) as (v & s' & new & Hrun & Hsent & Hauth & Hnew).
    { rewrite Hsrv, Hs. reflexivity. }
    { reflexivity. }
    rewrite Hsrv, Hs in Hnew. cbn in Hnew. destruct Hnew as [-> ->].
    exists s'. rewrite Hrun, Hsent, Hs. repeat split.
Qed.

(** C1 at work: a client holding [A] meets 401, re-authenticates once and
    is served on the second attempt; met with a second 401 it gives up. *)
Lemma make_request_retries_once_witness :
  (exists s',
     _make_request "GET" "/core/experiments" None None
       (expired_session (Response 200 (Some ok_body) "ok")) = (Ret (Some ok_body), s') /\
     count_site ApiRequest (sent s') = 2%nat /\
     count_site AuthPost (sent s') = 1%nat) /\
  (exists s',
     _make_request "GET" "/core/experiments" None None
       (expired_session (Response 401 None "expired")) = (Ret None, s') /\
     count_site ApiRequest (sent s') = 2%nat /\
     count_site AuthPost (sent s') = 1%nat /\
     length (sent s') = 3%nat).
Proof.
  destruct make_request_retries_once as (_ & _ & Hok & Hko).
  split.
  - apply (Hok (expired_session (Response 200 (Some ok_body) "ok"))
               "GET" "/core/experiments" None None None "expired" "B" ok_body "ok");
      reflexivity.
  - apply (Hko (expired_session (Response 401 None "expired"))
               "GET" "/core/experiments" None None None "expired" "B" None "expired");
      reflexivity.
Defined.

End ClientFacts.

Module SessionFacts.
Import Client.

Lemma issues_token_reply (T : string) (r : reply) :
  issues_token T r -> reply_token r = Some (JStr T).
Proof.
  intros (x & top & inner & -> & Hs & Hb & Hr & Ht).
  cbn. rewrite Hs, Hb. cbn. rewrite Hr. exact Ht.
Qed.

Lemma classic_token (tok : json) (T : string) : tok = JStr T \/ tok <> JStr T.
Proof.
  destruct tok as [| | |s| |]; try (right; discriminate).
  destruct (String.eqb_spec s T) as [->|Hne]; [left; reflexivity|].
  right. intros [= E]. contradiction.
Qed.

Lemma failed_auth_unchanged (s : state) :
  reply_token (server s (sent s) (auth_call s)) = None ->
  exists s',
    authenticate s = (Ret false, s') /\
    token s' = token s /\ headers s' = headers s /\ same_config s s' /\
    sent s' = sent s ++ [(auth_call s, server s (sent s) (auth_call s))].
Proof.
  intros Ha. destruct (ClientFacts.authenticate_ko s Ha) as [ev ->].
  eexists. split; [reflexivity|]. unfold same_config. cbn. auto 10.
Qed.

(** One pass through the [try] block from a session that holds [T]. *)
Lemma refresh_keeps_token (T : string) (s : state) method url params data :
  holds_token T s ->
  exists v s' new,
    request_with_refresh method url params data s = (Ret v, s') /\
    sent s' = sent s ++ new /\
    same_config s s' /\
    (no_other_token T new -> holds_token T s' /\ all_carry T new).
Proof.
  intros [Htok Hhdr].
  set (c := Call ApiRequest method url (headers s) params data).
  assert (Hc : c_headers c !! "Authorization" = Some ("Bearer " +:+ T))
    by exact Hhdr.
  destruct (server s (sent s) c) as [x|e] eqn:H.
  - destruct (status_code x =? 401) eqn:H401.
    + apply Z.eqb_eq in H401.
      set (a := server s (sent s ++ [(c, Answer x)]) (auth_call s)).
      destruct (reply_token a) as [tok|] eqn:Ha.
      * destruct (ClientFacts.refresh_401_ok s method url params data x tok
                    H H401 Ha) as (s' & Hrun & Hsent & Ht' & Hh' & Hcfg).
        fold c a in Hrun, Hsent.
        set (c2 := Call ApiRequest method url _ params data) in Hrun, Hsent.
        set (r2 := server s _ c2) in Hrun, Hsent.
        exists (payload r2), s', [(c, Answer x); (auth_call s, a); (c2, r2)].
        split; [exact Hrun|]. split; [rewrite Hsent; apply snoc3|].
        split; [exact Hcfg|].
        intros Hno.
        assert (tok = JStr T) as ->.
        { apply (Hno (auth_call s) a); [right; left; reflexivity|reflexivity|exact Ha]. }
        split.
        -- split; [exact Ht'|]. rewrite Hh'. apply lookup_insert_eq.
        -- intros c' r' [E|[E|[E|[]]]] Hsite; inversion E; subst c'.
           ++ exact Hc.
           ++ discriminate.
           ++ cbn. apply lookup_insert_eq.
      * destruct (ClientFacts.refresh_401_ko s method url params data x
                    H H401 Ha) as (s' & Hrun & Hsent & Ht' & Hh' & Hcfg).
        fold c a in Hrun, Hsent.
        exists None, s', [(c, Answer x); (auth_call s, a)].
        split; [exact Hrun|]. split; [rewrite Hsent; apply snoc2|].
        split; [exact Hcfg|].
        intros _. split.
        -- split; [rewrite Ht'; exact Htok|rewrite Hh'; exact Hhdr].
        -- intros c' r' [E|[E|[]]] Hsite; inversion E; subst c'.
           ++ exact Hc.
           ++ discriminate.
    + destruct (ClientFacts.refresh_plain s method url params data x H H401)
        as (s' & Hrun & Hsent & Ht' & Hh' & Hcfg).
      exists (payload (Answer x)), s', [(c, Answer x)].
      split; [exact Hrun|]. split; [exact Hsent|]. split; [exact Hcfg|].
      intros _. split.
      * split; [rewrite Ht'; exact Htok|rewrite Hh'; exact Hhdr].
      * intros c' r' [E|[]] Hsite; inversion E; subst c'. exact Hc.
  - rewrite (ClientFacts.refresh_transport_error s method url params data e H).
    eexists _, _, [(c, Fails e)].
    split; [reflexivity|]. split; [reflexivity|].
    split; [repeat split|].
    intros _. split.
    + split; [exact Htok|exact Hhdr].
    + intros c' r' [E|[]] Hsite; inversion E; subst c'. exact Hc.
Qed.


Lemma same_config_trans (s1 s2 s3 : state) :
  same_config s1 s2 -> same_config s2 s3 -> same_config s1 s3.
Proof.
  unfold same_config. intros (?&?&?&?) (?&?&?&?).
  repeat split; congruence.
Qed.

Lemma no_other_token_app (T : string) (h1 h2 : list exchange) :
  no_other_token T (h1 ++ h2) -> no_other_token T h1 /\ no_other_token T h2.
Proof.
  unfold no_other_token. intros H.
  split; intros c r tok Hin; apply H, in_or_app; auto.
Qed.

Lemma all_carry_app (T : string) (h1 h2 : list exchange) :
  all_carry T h1 -> all_carry T h2 -> all_carry T (h1 ++ h2).
Proof.
  unfold all_carry. intros H1 H2 c r Hin.
  apply in_app_or in Hin as [Hin|Hin]; eauto.
Qed.

(** One call of [_make_request] from a session that holds [T]. *)
Lemma make_request_keeps_token (T : string) (s : state) method endpoint params data :
  holds_token T s ->
  exists v s' new,
    _make_request method endpoint params data s = (Ret v, s') /\
    sent s' = sent s ++ new /\
    same_config s s' /\
    (no_other_token T new -> holds_token T s' /\ all_carry T new).
Proof.
  intros Hinv.
  destruct (truthy (token s)) eqn:Htok.
  - rewrite (ClientFacts.make_request_held s _ _ _ _ Htok).
    apply refresh_keeps_token, Hinv.
  - set (a := server s (sent s) (auth_call s)).
    destruct (reply_token a) as [tok|] eqn:Ha.
    + rewrite (ClientFacts.make_request_unheld_ok s _ _ _ _ tok Htok Ha).
      fold a.
      destruct (classic_token tok T) as [->|Hne].
      * assert (Hinv1 : holds_token T (authenticated (JStr T) a s)).
        { split; [reflexivity|]. cbn. apply lookup_insert_eq. }
        destruct (refresh_keeps_token T _ method (base_url s +:+ endpoint)
                    params data Hinv1) as (v & s' & new & Hrun & Hsent & Hcfg & Hk).
        exists v, s', ((auth_call s, a) :: new).
        split; [exact Hrun|].
        split; [rewrite Hsent; cbn; rewrite <- app_assoc; reflexivity|].
        split; [exact Hcfg|].
        intros Hno.
        apply (no_other_token_app T [(auth_call s, a)] new) in Hno as [_ Hno].
        destruct (Hk Hno) as [Hi Hall]. split; [exact Hi|].
        apply (all_carry_app T [(auth_call s, a)] new); [|exact Hall].
        intros c r [E|[]] Hsite. inversion E; subst c. discriminate.
      * destruct (ClientFacts.refresh_summary (authenticated tok a s) method
                    (base_url s +:+ endpoint) params data)
          as (v & s' & new & Hrun & Hsent & Hcfg & _).
        exists v, s', ((auth_call s, a) :: new).
        split; [exact Hrun|].
        split; [rewrite Hsent; cbn; rewrite <- app_assoc; reflexivity|].
        split; [exact Hcfg|].
        intros Hno. exfalso. apply Hne.
        apply (Hno (auth_call s) a); [left; reflexivity|reflexivity|exact Ha].
    + destruct (failed_auth_unchanged s Ha) as (s' & Hrun & Ht' & Hh' & Hcfg & Hsent).
      exists None, s', [(auth_call s, a)].
      split.
      { unfold _make_request, bind, gets. rewrite Htok. cbn. rewrite Hrun.
        reflexivity. }
      split; [exact Hsent|]. split; [exact Hcfg|].
      intros _. split.
      * destruct Hinv as [Ht Hh]. split; [rewrite Ht'; exact Ht|rewrite Hh'; exact Hh].
      * intros c r [E|[]] Hsite. inversion E; subst c. discriminate.
Qed.


Lemma make_request_total (s : state) method endpoint params data :
  exists v s' new,
    _make_request method endpoint params data s = (Ret v, s') /\
    sent s' = sent s ++ new /\ same_config s s'.
Proof.
  destruct (truthy (token s)) eqn:Htok.
  - rewrite (ClientFacts.make_request_held s _ _ _ _ Htok).
    destruct (ClientFacts.refresh_summary s method (base_url s +:+ endpoint)
                params data) as (v & s' & new & Hrun & Hsent & Hcfg & _).
    eauto 10.
  - set (a := server s (sent s) (auth_call s)).
    destruct (reply_token a) as [tok|] eqn:Ha.
    + rewrite (ClientFacts.make_request_unheld_ok s _ _ _ _ tok Htok Ha).
      fold a.
      destruct (ClientFacts.refresh_summary (authenticated tok a s) method
                  (base_url s +:+ endpoint) params data)
        as (v & s' & new & Hrun & Hsent & Hcfg & _).
      exists v, s', ((auth_call s, a) :: new).
      split; [exact Hrun|].
      split; [rewrite Hsent; cbn; rewrite <- app_assoc; reflexivity|].
      exact Hcfg.
    + destruct (ClientFacts.make_request_unheld_ko s method endpoint params data
                  Htok Ha) as [ev ->].
      eexists None, _, [(auth_call s, a)].
      split; [reflexivity|]. split; [reflexivity|]. repeat split.
Qed.

Lemma make_requests_total (l : list request_args) :
  forall s : state,
    exists vs s' new,
      make_requests l s = (Ret vs, s') /\
      sent s' = sent s ++ new /\ same_config s s'.
Proof.
  induction l as [|[[[method endpoint] params] data] l IH]; intros s.
  - exists [], s, []. split; [reflexivity|].
    split; [symmetry; apply app_nil_r|]. repeat split.
  - destruct (make_request_total s method endpoint params data)
      as (v & s1 & new1 & Hrun1 & Hsent1 & Hcfg1).
    destruct (IH s1) as (vs & s2 & new2 & Hrun2 & Hsent2 & Hcfg2).
    exists (v :: vs), s2, (new1 ++ new2).
    split; [cbn; unfold bind; rewrite Hrun1, Hrun2; reflexivity|].
    split; [rewrite Hsent2, Hsent1, <- app_assoc; reflexivity|].
    exact (same_config_trans _ _ _ Hcfg1 Hcfg2).
Qed.

(** Calls in a row from a session that holds [T]: as long as no
    authentication obtains another token, [T] stays and every API request
    carries it. *)
Lemma make_requests_keep_token (T : string) (l : list request_args) :
  forall (s s' : state) vs new,
    holds_token T s ->
    make_requests l s = (Ret vs, s') ->
    sent s' = sent s ++ new ->
    no_other_token T new ->
    holds_token T s' /\ all_carry T new.
Proof.
  induction l as [|[[[method endpoint] params] data] l IH];
    intros s s' vs new Hinv Hrun Hsent Hno.
  - cbn in Hrun. injection Hrun as <- <-.
    rewrite <- (app_nil_r (sent s)) in Hsent at 1.
    apply app_inv_head in Hsent as <-.
    split; [exact Hinv|]. intros c r [].
  - destruct (make_request_keeps_token T s method endpoint params data Hinv)
      as (v & s1 & new1 & Hrun1 & Hsent1 & Hcfg1 & Hk1).
    destruct (make_requests_total l s1) as (vs2 & s2 & new2 & Hrun2 & Hsent2 & _).
    cbn in Hrun. unfold bind in Hrun. rewrite Hrun1, Hrun2 in Hrun.
    cbn in Hrun. injection Hrun as <- <-.
    rewrite Hsent2, Hsent1, <- app_assoc in Hsent.
    apply app_inv_head in Hsent as <-.
    apply no_other_token_app in Hno as [Hno1 Hno2].
    destruct (Hk1 Hno1) as [Hinv1 Hall1].
    destruct (IH s1 s2 vs2 new2 Hinv1 Hrun2 Hsent2 Hno2) as [Hinv2 Hall2].
    split; [exact Hinv2|]. apply all_carry_app; assumption.
Qed.

(** *** An endpoint that always issues the same token *)

Lemma count_site_app (k : site) (h1 h2 : list exchange) :
  count_site k (h1 ++ h2) = (count_site k h1 + count_site k h2)%nat.
Proof. unfold count_site. rewrite List.filter_app. apply length_app. Qed.

(** One pass through the [try] block from a session that holds [T], against
    an endpoint that issues [T]. *)
Lemma refresh_steady (T : string) (s : state) method url params data :
  holds_token T s ->
  (forall h c, c_site c = AuthPost -> issues_token T (server s h c)) ->
  exists v s' new,
    request_with_refresh method url params data s = (Ret v, s') /\
    sent s' = sent s ++ new /\
    same_config s s' /\
    holds_token T s' /\ all_carry T new /\
    (1 <= count_site ApiRequest new)%nat.
Proof.
  intros [Htok Hhdr] Hsrv.
  set (c := Call ApiRequest method url (headers s) params data).
  assert (Hc : c_headers c !! "Authorization" = Some ("Bearer " +:+ T))
    by exact Hhdr.
  destruct (server s (sent s) c) as [x|e] eqn:H.
  - destruct (status_code x =? 401) eqn:H401.
    + apply Z.eqb_eq in H401.
      set (a := server s (sent s ++ [(c, Answer x)]) (auth_call s)).
      assert (Ha : reply_token a = Some (JStr T))
        by (apply issues_token_reply, Hsrv; reflexivity).
      destruct (ClientFacts.refresh_401_ok s method url params data x (JStr T)
                  H H401 Ha) as (s' & Hrun & Hsent & Ht' & Hh' & Hcfg).
      fold c a in Hrun, Hsent.
      set (c2 := Call ApiRequest method url _ params data) in Hrun, Hsent.
      set (r2 := server s _ c2) in Hrun, Hsent.
      exists (payload r2), s', [(c, Answer x); (auth_call s, a); (c2, r2)].
      split; [exact Hrun|]. split; [rewrite Hsent; apply snoc3|].
      split; [exact Hcfg|].
      split; [split; [exact Ht'|rewrite Hh'; apply lookup_insert_eq]|].
      split; [|cbn; lia].
      intros c' r' [E|[E|[E|[]]]] Hsite; inversion E; subst c'.
      * exact Hc.
      * discriminate.
      * cbn. apply lookup_insert_eq.
    + destruct (ClientFacts.refresh_plain s method url params data x H H401)
        as (s' & Hrun & Hsent & Ht' & Hh' & Hcfg).
      exists (payload (Answer x)), s', [(c, Answer x)].
      split; [exact Hrun|]. split; [exact Hsent|]. split; [exact Hcfg|].
      split; [split; [rewrite Ht'; exact Htok|rewrite Hh'; exact Hhdr]|].
      split; [|cbn; lia].
      intros c' r' [E|[]] Hsite; inversion E; subst c'. exact Hc.
  - rewrite (ClientFacts.refresh_transport_error s method url params data e H).
    eexists _, _, [(c, Fails e)].
    split; [reflexivity|]. split; [reflexivity|].
    split; [repeat split|].
    split; [split; [exact Htok|exact Hhdr]|].
    split; [|cbn; lia].
    intros c' r' [E|[]] Hsite; inversion E; subst c'. exact Hc.
Qed.

(** One call of [_make_request] in the same situation: with an empty [T] the
    call authenticates first, and is issued [T] again. *)
Lemma make_request_steady (T : string) (s : state) method endpoint params data :
  holds_token T s ->
  (forall h c, c_site c = AuthPost -> issues_token T (server s h c)) ->
  exists v s' new,
    _make_request method endpoint params data s = (Ret v, s') /\
    sent s' = sent s ++ new /\
    same_config s s' /\
    holds_token T s' /\ all_carry T new /\
    (1 <= count_site ApiRequest new)%nat.
Proof.
  intros Hinv Hsrv.
  destruct (truthy (token s)) eqn:Htok.
  - rewrite (ClientFacts.make_request_held s _ _ _ _ Htok).
    apply refresh_steady; assumption.
  - set (a := server s (sent s) (auth_call s)).
    assert (Ha : reply_token a = Some (JStr T))
      by (apply issues_token_reply, Hsrv; reflexivity).
    rewrite (ClientFacts.make_request_unheld_ok s _ _ _ _ (JStr T) Htok Ha).
    fold a.
    assert (Hinv1 : holds_token T (authenticated (JStr T) a s)).
    { split; [reflexivity|]. cbn. apply lookup_insert_eq. }
    destruct (refresh_steady T _ method (base_url s +:+ endpoint) params data
                Hinv1 Hsrv)
      as (v & s' & new & Hrun & Hsent & Hcfg & Hinv' & Hall & Hcount).
    exists v, s', ((auth_call s, a) :: new).
    split; [exact Hrun|].
    split; [rewrite Hsent; cbn; rewrite <- app_assoc; reflexivity|].
    split; [exact Hcfg|]. split; [exact Hinv'|].
    split.
    + apply (all_carry_app T [(auth_call s, a)] new); [|exact Hall].
      intros c r [E|[]] Hsite. inversion E; subst c. discriminate.
    + change ((auth_call s, a) :: new) with ([(auth_call s, a)] ++ new).
      rewrite count_site_app. lia.
Qed.

(** Calls in a row. *)
Lemma make_requests_steady (T : string) (l : list request_args) :
  forall s : state,
    holds_token T s ->
    (forall h c, c_site c = AuthPost -> issues_token T (server s h c)) ->
    exists vs s' new,
      make_requests l s = (Ret vs, s') /\
      sent s' = sent s ++ new /\
      holds_token T s' /\ all_carry T new /\
      (length l <= count_site ApiRequest new)%nat /\
      length vs = length l.
Proof.
  induction l as [|[[[method endpoint] params] data] l IH]; intros s Hinv Hsrv.
  - exists [], s, []. split; [reflexivity|].
    split; [symmetry; apply app_nil_r|]. split; [exact Hinv|].
    split; [intros c r []|]. split; [cbn; lia|reflexivity].
  - destruct (make_request_steady T s method endpoint params data Hinv Hsrv)
      as (v & s1 & new1 & Hrun1 & Hsent1 & Hcfg1 & Hinv1 & Hall1 & Hcount1).
    assert (Hsrv1 : forall h c, c_site c = AuthPost -> issues_token T (server s1 h c)).
    { destruct Hcfg1 as (_ & _ & _ & ->). exact Hsrv. }
    destruct (IH s1 Hinv1 Hsrv1)
      as (vs & s2 & new2 & Hrun2 & Hsent2 & Hinv2 & Hall2 & Hcount2 & Hlen2).
    exists (v :: vs), s2, (new1 ++ new2).
    split; [cbn; unfold bind; rewrite Hrun1, Hrun2; reflexivity|].
    split; [rewrite Hsent2, Hsent1, <- app_assoc; reflexivity|].
    split; [exact Hinv2|].
    split; [apply all_carry_app; assumption|].
    split; [rewrite count_site_app; cbn [length]; lia|].
    cbn [length]. rewrite Hlen2. reflexivity.
Qed.

(** C3.  Against an authentication endpoint that responds with HTTP 200 and a
    body of shape [{"result": {"token": T}}], [authenticate] returns [True],
    the session stores [T] and its default headers hold
    [Authorization: Bearer T]; the calls of [_make_request] that follow all
    return, each of them sends at least one API request, and every API
    request they send carries [Authorization: Bearer T], the request sent
    again after a 401 and a re-authentication included; at the end the
    session still holds [T]. *)
Theorem authenticate_round_trip (s : state) (T : string) :
  (forall h c, c_site c = AuthPost -> issues_token T (server s h c)) ->
  exists s1,
    authenticate s = (Ret true, s1) /\
    token s1 = JStr T /\
    headers s1 !! "Authorization" = Some ("Bearer " +:+ T) /\
    forall l : list request_args,
      exists vs s2 new,
        make_requests l s1 = (Ret vs, s2) /\
        sent s2 = sent s1 ++ new /\
        holds_token T s2 /\
        all_carry T new /\
        (length l <= count_site ApiRequest new)%nat /\
        length vs = length l.
Proof.
  intros Hsrv.
  assert (Hiss : reply_token (server s (sent s) (auth_call s)) = Some (JStr T))
    by (apply issues_token_reply, Hsrv; reflexivity).
  rewrite (ClientFacts.authenticate_ok s (JStr T) Hiss).
  eexists. split; [reflexivity|].
  assert (Hinv : holds_token T
            (authenticated (JStr T) (server s (sent s) (auth_call s)) s)).
  { split; [reflexivity|]. cbn. apply lookup_insert_eq. }
  split; [apply Hinv|]. split; [apply Hinv|].
  intros l.
  exact (make_requests_steady T l _ Hinv Hsrv).
Qed.

(** C3 at work: a fresh client against an endpoint that issues [T], whose
    API refuses the first request with 401. *)
Lemma authenticate_round_trip_witness :
  exists s1,
    authenticate steady_session = (Ret true, s1) /\
    token s1 = JStr "T" /\
    headers s1 !! "Authorization" = Some ("Bearer " +:+ "T") /\
    forall l : list request_args,
      exists vs s2 new,
        make_requests l s1 = (Ret vs, s2) /\
        sent s2 = sent s1 ++ new /\
        holds_token "T" s2 /\
        all_carry "T" new /\
        (length l <= count_site ApiRequest new)%nat /\
        length vs = length l.
Proof.
  apply (authenticate_round_trip steady_session "T").
  intros h c Hc. cbn. unfold steady_endpoint. rewrite Hc.
  eexists _, _, _. repeat split; reflexivity.
Defined.

(** The condition bears on the endpoint, not on one answer: when a
    re-authentication obtains another token, the request sent again carries
    that token and not the first one. *)
Lemma later_requests_carry_new_token :
  ~ (forall (s : state) (T : string),
       issues_token T (server s (sent s) (auth_call s)) ->
       exists s1,
         authenticate s = (Ret true, s1) /\
         token s1 = JStr T /\
         forall (l : list request_args) vs s2 new,
           make_requests l s1 = (Ret vs, s2) ->
           sent s2 = sent s1 ++ new ->
           all_carry T new).
Proof.
  intros H.
  destruct (H rotating_session "A") as (s1 & Hrun & _ & Hall).
  { eexists _, _, _. repeat split; reflexivity. }
  vm_compute in Hrun. injection Hrun as <-.
  set (s1 := State _ _ _ _ _ _ _ _) in Hall.
  set (l := [("GET", "/core/experiments", None, None)] : list request_args).
  pose (out := make_requests l s1).
  specialize (Hall l (match fst out with Ret vs => vs | _ => [] end) (snd out)
                (drop 1 (sent (snd out)))).
  assert (H1 : make_requests l s1 =
               (Ret match fst out with Ret vs => vs | _ => [] end, snd out))
    by (vm_compute; reflexivity).
  assert (H2 : sent (snd out) = sent s1 ++ drop 1 (sent (snd out)))
    by (vm_compute; reflexivity).
  specialize (Hall H1 H2).
  set (c2 := Call ApiRequest "GET" "http://localhost:28081/rest/core/experiments"
               (<["Authorization" := "Bearer B"]>
                  (<["Authorization" := "Bearer A"]>
                     {[ "Content-Type" := "application/json" ]})) None None).
  specialize (Hall c2 (Answer (Response 200 (Some ok_body) "ok"))).
  assert (Hin : In (c2, Answer (Response 200 (Some ok_body) "ok"))
                   (drop 1 (sent (snd out)))).
  { vm_compute. right. right. left. reflexivity. }
  specialize (Hall Hin eq_refl).
  vm_compute in Hall. discriminate.
Qed.


Lemma auth_failure_no_token (r : reply) :
  auth_failure r -> reply_token r = None.
Proof.
  intros [[e ->]|[(x & -> & Hs)|(x & -> & Hb)]]; cbn.
  - reflexivity.
  - destruct (Z.eqb_spec (status_code x) 200); [contradiction|reflexivity].
  - rewrite Hb. destruct (status_code x =? 200); reflexivity.
Qed.

(** C4, as amended.  Whenever [authenticate] fails (a status other than 200,
    a transport failure, or a 200 body lacking the token field) it returns
    [False] and leaves the session's token and default headers as they were:
    a session that was Unauthenticated before the call is Unauthenticated
    after it. *)
Theorem failed_authenticate_keeps_session (s : state) :
  auth_failure (server s (sent s) (auth_call s)) ->
  exists s',
    authenticate s = (Ret false, s') /\
    token s' = token s /\
    headers s' = headers s /\
    (unauthenticated s -> unauthenticated s').
Proof.
  intros Hf. apply auth_failure_no_token in Hf.
  destruct (failed_auth_unchanged s Hf) as (s' & Hrun & Ht & Hh & _).
  exists s'. split; [exact Hrun|]. split; [exact Ht|]. split; [exact Hh|].
  unfold unauthenticated. rewrite Ht, Hh. tauto.
Qed.

(** The amended C4 at work: a fresh client whose authentication is refused
    with 403. *)
Lemma failed_authenticate_keeps_session_witness :
  let s := init "http://localhost:28081/rest" "admin@opensilex.org" "wrong"
             (scripted [Answer (Response 403 None "forbidden")]) in
  exists s',
    authenticate s = (Ret false, s') /\
    token s' = token s /\
    headers s' = headers s /\
    (unauthenticated s -> unauthenticated s').
Proof.
  intros s. apply (failed_authenticate_keeps_session s).
  right. left. eexists. split; [reflexivity|]. cbn. lia.
Defined.

(** C4 as stated fails: a session that held a token still holds it, and still
    announces it, after a failed [authenticate]. *)
Lemma failed_authenticate_keeps_old_token :
  ~ (forall s : state,
       auth_failure (server s (sent s) (auth_call s)) ->
       exists s', authenticate s = (Ret false, s') /\ unauthenticated s').
Proof.
  intros H.
  destruct (H refused_session) as (s' & Hrun & Htok & _).
  { right. left. eexists. split; [reflexivity|]. cbn. lia. }
  vm_compute in Hrun. injection Hrun as <-.
  vm_compute in Htok. discriminate.
Qed.

End SessionFacts.

Module PaginationFacts.
Import Client.

Lemma fetch_step {St} (method : Z -> Z -> M St json) page n s r rs s' :
  fetch method page (S n) s = (Ret (r :: rs), s') ->
  exists s1,
    method page 50 s = (Ret r, s1) /\
    fetch method (page + 1) n s1 = (Ret rs, s').
Proof.
  cbn. unfold bind.
  destruct (method page 50 s) as [[r0|e|] s1]; try discriminate.
  destruct (fetch method (page + 1) n s1) as [[rs0|e|] s2] eqn:E;
    try discriminate.
  cbn. intros H. inversion H; subst. eauto.
Qed.

Lemma fetch_length {St} (method : Z -> Z -> M St json) n :
  forall page s rs s',
    fetch method page n s = (Ret rs, s') -> length rs = n.
Proof.
  induction n as [|n IH]; intros page s rs s'.
  - cbn. intros [= <- _]. reflexivity.
  - cbn. unfold bind.
    destruct (method page 50 s) as [[r0|e|] s1]; try discriminate.
    destruct (fetch method (page + 1) n s1) as [[rs0|e|] s2] eqn:E;
      try discriminate.
    cbn. intros [= <- _]. cbn. f_equal. exact (IH _ _ _ _ E).
Qed.

(** The last turn of the loop, on a page that stops it. *)
Lemma pages_loop_stop {St} (method : Z -> Z -> M St json) fuel page acc s last s' :
  method page 50 s = (Ret last, s') ->
  short_page last ->
  pages_loop (S fuel) method page 50 acc s = (Ret (acc ++ items_of last), s').
Proof.
  intros Hm Hshort. cbn. unfold bind. rewrite Hm.
  destruct Hshort as [->|(l & -> & Hlen)].
  - cbn. rewrite app_nil_r. reflexivity.
  - destruct l as [|x l].
    + cbn. rewrite app_nil_r. reflexivity.
    + cbn [truthy negb lift py_iter py_len ret items_of].
      destruct (Z.ltb_spec (Z.of_nat (length (x :: l))) 50) as [_|Hge];
        [reflexivity|lia].
Qed.

(** A turn of the loop on a page that lets it go on. *)
Lemma pages_loop_go {St} (method : Z -> Z -> M St json) fuel page acc s p s1 :
  method page 50 s = (Ret p, s1) ->
  full_page p ->
  pages_loop (S fuel) method page 50 acc s =
    pages_loop fuel method (page + 1) 50 (acc ++ items_of p) s1.
Proof.
  intros Hm (l & -> & Hlen). cbn [pages_loop]. unfold bind at 1. rewrite Hm.
  destruct l as [|x l]; [cbn in Hlen; lia|].
  cbn [truthy negb lift py_iter py_len ret items_of]. unfold bind, ret.
  destruct (Z.ltb_spec (Z.of_nat (length (x :: l))) 50) as [Hlt|_];
    [lia|reflexivity].
Qed.

(** The loop over [k] full pages followed by a short one. *)
Lemma pages_loop_run {St} (method : Z -> Z -> M St json) (pages : list json) :
  forall (fuel : nat) page acc s last s',
    (length pages < fuel)%nat ->
    fetch method page (S (length pages)) s = (Ret (pages ++ [last]), s') ->
    Forall full_page pages ->
    short_page last ->
    pages_loop fuel method page 50 acc s =
      (Ret (acc ++ concat (List.map items_of pages) ++ items_of last), s').
Proof.
  induction pages as [|p pages IH]; intros fuel page acc s last s' Hfuel Hf Hfull Hs.
  - destruct fuel as [|fuel]; [cbn in Hfuel; lia|].
    apply fetch_step in Hf as (s1 & Hm & Hrest).
    cbn in Hrest. injection Hrest as <-.
    exact (pages_loop_stop method fuel page acc s last s1 Hm Hs).
  - destruct fuel as [|fuel]; [cbn in Hfuel; lia|].
    cbn [length app] in Hf.
    apply fetch_step in Hf as (s1 & Hm & Hrest).
    inversion Hfull as [|? ? Hp Hfull']; subst.
    rewrite (pages_loop_go method fuel page acc s p s1 Hm Hp).
    rewrite (IH fuel (page + 1) (acc ++ items_of p) s1 last s'
               ltac:(cbn in Hfuel; lia) Hrest Hfull' Hs).
    cbn [List.map concat]. rewrite <- !app_assoc. reflexivity.
Qed.


Lemma fetch_snoc {St} (method : Z -> Z -> M St json) n :
  forall page s rs s1 r s',
    fetch method page n s = (Ret rs, s1) ->
    method (page + Z.of_nat n) 50 s1 = (Ret r, s') ->
    fetch method page (S n) s = (Ret (rs ++ [r]), s').
Proof.
  induction n as [|n IH]; intros page s rs s1 r s' Hf Hm.
  - cbn in Hf. injection Hf as <- <-.
    replace (page + Z.of_nat 0) with page in Hm by lia.
    cbn. unfold bind. rewrite Hm. reflexivity.
  - destruct rs as [|r0 rs]; [apply fetch_length in Hf; discriminate|].
    apply fetch_step in Hf as (s0 & Hm0 & Hrest).
    replace (page + Z.of_nat (S n)) with (page + 1 + Z.of_nat n) in Hm by lia.
    pose proof (IH (page + 1) s0 rs s1 r s' Hrest Hm) as Hnext.
    change (fetch method page (S (S n)) s)
      with (bind (method page 50)
              (fun r1 => bind (fetch method (page + 1) (S n))
                           (fun rs1 => ret (r1 :: rs1))) s).
    unfold bind at 1. rewrite Hm0. unfold bind. rewrite Hnext. reflexivity.
Qed.

(** C5. [get_all_pages] invokes the listing method with [page = 0, 1, 2, ...]
    and [page_size = 50], stops at the first page that is empty or shorter
    than [page_size], and returns the items of all the pages it fetched, in
    page order and as they came.  Pages of sizes 50, 50 and 13 give 113 items
    after exactly 3 invocations; an empty page 0 gives the empty list after
    exactly 1 invocation. *)
Theorem get_all_pages_collects :
  (forall St (method : Z -> Z -> M St json) (pages : list json) last s s' fuel,
     (length pages < fuel)%nat ->
     fetch method 0 (S (length pages)) s = (Ret (pages ++ [last]), s') ->
     Forall full_page pages ->
     short_page last ->
     get_all_pages fuel method s =
       (Ret (concat (List.map items_of pages) ++ items_of last), s')) /\
  (forall (p0 p1 p2 : list json) fuel,
     length p0 = 50%nat -> length p1 = 50%nat -> length p2 = 13%nat ->
     (3 <= fuel)%nat ->
     get_all_pages fuel (fake_listing [p0; p1; p2]) [] =
       (Ret (p0 ++ p1 ++ p2), [(0, 50); (1, 50); (2, 50)]) /\
     length (p0 ++ p1 ++ p2) = 113%nat) /\
  (forall fuel,
     (1 <= fuel)%nat ->
     get_all_pages fuel (fake_listing [[]]) [] = (Ret [], [(0, 50)])).
Proof.
  split; [|split].
  - intros St method pages last s s' fuel Hfuel Hf Hfull Hshort.
    exact (pages_loop_run method pages fuel 0 [] s last s' Hfuel Hf Hfull Hshort).
  - intros p0 p1 p2 fuel H0 H1 H2 Hfuel. split.
    + unfold get_all_pages.
      rewrite (pages_loop_run (fake_listing [p0; p1; p2]) [JArr p0; JArr p1]
                 fuel 0 [] [] (JArr p2) [(0, 50); (1, 50); (2, 50)]).
      * cbn. rewrite app_nil_r, <- app_assoc. reflexivity.
      * cbn. lia.
      * reflexivity.
      * repeat constructor; eexists; (split; [reflexivity|lia]).
      * right. eexists. split; [reflexivity|lia].
    + rewrite !length_app. lia.
  - intros fuel Hfuel.
    unfold get_all_pages.
    rewrite (pages_loop_run (fake_listing [[]]) [] fuel 0 [] [] (JArr [])
               [(0, 50)]).
    + reflexivity.
    + cbn. lia.
    + reflexivity.
    + constructor.
    + right. eexists. split; [reflexivity|cbn; lia].
Qed.

(** C5 at work on pages of 50, 50 and 13 items. *)
Lemma get_all_pages_collects_witness :
  get_all_pages 3 (fake_listing [sample_page; sample_page; firstn 13 sample_page]) [] =
    (Ret (sample_page ++ sample_page ++ firstn 13 sample_page),
     [(0, 50); (1, 50); (2, 50)]) /\
  length (sample_page ++ sample_page ++ firstn 13 sample_page) = 113%nat.
Proof.
  destruct get_all_pages_collects as (_ & H & _).
  apply (H sample_page sample_page (firstn 13 sample_page) 3%nat);
    vm_compute; try reflexivity; lia.
Defined.

(** A failed page and an empty page end the loop alike. *)
Lemma get_all_pages_stops_on {St} (method : Z -> Z -> M St json)
    (pages : list json) (last : json) s s' fuel :
  last = JNull \/ last = JArr [] ->
  (length pages < fuel)%nat ->
  fetch method 0 (S (length pages)) s = (Ret (pages ++ [last]), s') ->
  Forall full_page pages ->
  get_all_pages fuel method s = (Ret (concat (List.map items_of pages)), s').
Proof.
  intros Hlast Hfuel Hf Hfull.
  unfold get_all_pages.
  rewrite (pages_loop_run method pages fuel 0 [] s last s' Hfuel Hf Hfull).
  - destruct Hlast as [-> | ->]; cbn; rewrite app_nil_r; reflexivity.
  - destruct Hlast as [-> | ->]; [left; reflexivity|].
    right. eexists. split; [reflexivity|cbn; lia].
Qed.

(** [get_experiments] hides a transport error behind [None]. *)
Lemma get_experiments_transport_error (s : state) (page page_size : Z) e :
  truthy (token s) = true ->
  server s (sent s)
    (api_call s "GET" "/core/experiments"
       (Some (JObj [("page", JNum page); ("page_size", JNum page_size)])) None)
    = Fails e ->
  exists s', get_experiments page page_size s = (Ret JNull, s').
Proof.
  intros Htok Hsrv. unfold get_experiments, bind.
  rewrite (ClientFacts.make_request_held s _ _ _ _ Htok).
  rewrite (ClientFacts.refresh_transport_error s "GET" _ _ _ e Hsrv).
  cbn. eauto.
Qed.

(** C6. When the listing method fails on page [k] after [k] full pages,
    [get_all_pages] returns the items of pages [0 .. k-1] as an ordinary
    result; it is the very result it returns when page [k] is genuinely
    empty.  For [get_experiments] this is what a transport error on page [k]
    leads to. *)
Theorem partial_result_is_silent :
  (forall St (method : Z -> Z -> M St json) (pages : list json) s s' fuel,
     (length pages < fuel)%nat ->
     fetch method 0 (S (length pages)) s = (Ret (pages ++ [JNull]), s') ->
     Forall full_page pages ->
     get_all_pages fuel method s =
       (Ret (concat (List.map items_of pages)), s')) /\
  (forall St St' (failing : Z -> Z -> M St json) (complete : Z -> Z -> M St' json)
          (pages : list json) s s' t t' fuel,
     (length pages < fuel)%nat ->
     Forall full_page pages ->
     fetch failing 0 (S (length pages)) s = (Ret (pages ++ [JNull]), s') ->
     fetch complete 0 (S (length pages)) t = (Ret (pages ++ [JArr []]), t') ->
     fst (get_all_pages fuel failing s) = fst (get_all_pages fuel complete t)) /\
  (forall (s sk : state) (pages : list json) e fuel,
     (length pages < fuel)%nat ->
     fetch get_experiments 0 (length pages) s = (Ret pages, sk) ->
     Forall full_page pages ->
     truthy (token sk) = true ->
     server sk (sent sk)
       (api_call sk "GET" "/core/experiments"
          (Some (JObj [("page", JNum (Z.of_nat (length pages)));
                       ("page_size", JNum 50)])) None) = Fails e ->
     exists s',
       get_all_pages fuel get_experiments s =
         (Ret (concat (List.map items_of pages)), s')).
Proof.
  split; [|split].
  - intros St method pages s s' fuel Hfuel Hf Hfull.
    apply (get_all_pages_stops_on method pages JNull); auto.
  - intros St St' failing complete pages s s' t t' fuel Hfuel Hfull Hf Hc.
    rewrite (get_all_pages_stops_on failing pages JNull s s' fuel); auto.
    rewrite (get_all_pages_stops_on complete pages (JArr []) t t' fuel); auto.
  - intros s sk pages e fuel Hfuel Hf Hfull Htok Hsrv.
    destruct (get_experiments_transport_error sk _ 50 e Htok Hsrv) as [s' Hm].
    exists s'.
    apply (get_all_pages_stops_on get_experiments pages JNull); auto.
    apply (fetch_snoc get_experiments (length pages) 0 s pages sk JNull s' Hf).
    exact Hm.
Qed.

(** C6 at work: the first page of experiments arrives, the connection breaks
    on the second, and the caller gets the 50 items of the first. *)
Lemma partial_result_is_silent_witness :
  exists s',
    get_all_pages 5 get_experiments broken_session = (Ret sample_page, s').
Proof.
  destruct partial_result_is_silent as (_ & _ & H).
  destruct (H broken_session (snd (fetch get_experiments 0 1 broken_session))
              [JArr sample_page] (RequestException "connection reset") 5%nat)
    as [s' Hrun].
  - cbn. lia.
  - vm_compute. reflexivity.
  - constructor; [|constructor]. exists sample_page. split; [reflexivity|].
    vm_compute. lia.
  - reflexivity.
  - vm_compute. reflexivity.
  - exists s'. rewrite Hrun. reflexivity.
Defined.

End PaginationFacts.

Module HostFacts.
Import HostResolver.




(** What the test before the [try] comes to: the exception of [stat], or the
    path the parser will open. *)
Lemma default_path_resolved (w : frame) :
  match fs w (home w +:+ "/.ssh/config") with
  | Unreachable what => default_path w = (Exc (OSError what), w)
  | NoSuchFile =>
      default_path w =
        (Ret (if String.eqb (os_name w) "nt" then home w +:+ "/ssh/config"
              else home w +:+ "/.ssh/config"), w)
  | _ => default_path w = (Ret (home w +:+ "/.ssh/config"), w)
  end.
Proof.
  unfold default_path, exists_, bind, gets.
  destruct (fs w (home w +:+ "/.ssh/config")) as [|what|lines failure|what];
    cbn; try reflexivity.
  destruct (String.eqb (os_name w) "nt"); reflexivity.
Qed.

Lemma default_path_cases (w : frame) :
  (exists p, default_path w = (Ret p, w)) \/
  (exists what,
     fs w (home w +:+ "/.ssh/config") = Unreachable what /\
     default_path w = (Exc (OSError what), w)).
Proof.
  pose proof (default_path_resolved w) as H.
  destruct (fs w (home w +:+ "/.ssh/config")) as [|what|lines failure|what];
    eauto.
Qed.

(** Without a path the parser works on the default path, once that is
    found. *)
Lemma parse_default_as_explicit (w : frame) (p : string) :
  default_path w = (Ret p, w) ->
  parse_ssh_config None w = parse_ssh_config (Some p) w.
Proof.
  intros H. unfold parse_ssh_config. unfold bind at 1. rewrite H.
  reflexivity.
Qed.

Lemma parse_default_raises (w : frame) (e : exn) :
  default_path w = (Exc e, w) ->
  parse_ssh_config None w = (Exc e, w).
Proof.
  intros H. unfold parse_ssh_config. unfold bind at 1. rewrite H.
  reflexivity.
Qed.






End HostFacts.

Module ProjectsFacts.
Import Projects.

Lemma lookup_set_if_truthy (k' : string) (v : json) (d : gmap string json) (k : string) :
  set_if_truthy k' v d !! k =
    if String.eqb k k' then (if truthy v then Some v else d !! k) else d !! k.
Proof.
  unfold set_if_truthy.
  destruct (String.eqb_spec k k') as [->|Hne].
  - destruct (truthy v); [apply lookup_insert_eq|reflexivity].
  - destruct (truthy v); [|reflexivity].
    apply lookup_insert_ne. congruence.
Qed.

Lemma lookup_insert_eqb (k' : string) (v : json) (d : gmap string json) (k : string) :
  <[k' := v]> d !! k = if String.eqb k k' then Some v else d !! k.
Proof.
  destruct (String.eqb_spec k k') as [->|Hne].
  - apply lookup_insert_eq.
  - apply lookup_insert_ne. congruence.
Qed.







(** C7 at its failing input.  [get_project_by_uri] percent-encodes the URI it
    puts into the path; [delete_project], [get_experiment_by_uri],
    [delete_experiment], [get_scientific_object_by_uri] and
    [delete_scientific_object] put it there as it is.  URIs sent as query
    parameters go out as they are. *)
Theorem uri_path_segments :
  (forall R (client : BaseAPIClient R) uri,
     get_project_by_uri client uri =
       get client ("/core/projects/" +:+ PyStr.quote uri) None) /\
  get_project_by_uri recorder sample_uri =
    Get "/core/projects/http%3A%2F%2Fopensilex.org%2Fid%2Fproject%2Fp1" None /\
  delete_project recorder sample_uri =
    Delete "/core/projects/http://opensilex.org/id/project/p1" /\
  (forall path, delete_project recorder sample_uri = Delete path ->
                ~ encoded_under "/core/projects/" sample_uri path) /\
  (forall path, get_experiment_by_uri recorder sample_uri = Get path None ->
                ~ encoded_under "/core/experiments/" sample_uri path) /\
  (forall path, delete_experiment recorder sample_uri = Delete path ->
                ~ encoded_under "/core/experiments/" sample_uri path) /\
  (forall path, get_scientific_object_by_uri recorder sample_uri = Get path None ->
                ~ encoded_under "/core/scientific_objects/" sample_uri path) /\
  (forall path, delete_scientific_object recorder sample_uri = Delete path ->
                ~ encoded_under "/core/scientific_objects/" sample_uri path) /\
  (forall uris,
     get_projects_by_uris recorder uris =
       Get "/core/projects/by_uris" (Some {[ "uris" := JArr (List.map JStr uris) ]})).
Proof.
  split; [reflexivity|].
  split; [vm_compute; reflexivity|].
  split; [vm_compute; reflexivity|].
  repeat split; try reflexivity;
    intros path [= <-]; unfold encoded_under; vm_compute; discriminate.
Qed.

End ProjectsFacts.

Module EnvelopeFacts.
Import Envelope.

(** C10.  Every envelope built by [classify] obeys the invariant: a success
    has a status code in 200-299, and a failure has an error, a message or a
    status code. *)
Theorem envelope_invariant (o : http_outcome) :
  (success (classify o) = true ->
   exists c, status_code (classify o) = Some c /\ 200 <= c <= 299) /\
  (success (classify o) = false ->
   errors (classify o) <> [] \/ message (classify o) <> None \/
   status_code (classify o) <> None).
Proof.
  destruct o as [what|status remote|status b]; cbn.
  - split; [discriminate|]. intros _. left. discriminate.
  - split; [discriminate|]. intros _. right. left. discriminate.
  - destruct ((200 <=? status) && (status <=? 299)) eqn:E; cbn.
    + split; [|discriminate]. intros _. exists status.
      apply andb_true_iff in E as [E1 E2].
      apply Z.leb_le in E1, E2. split; [reflexivity|lia].
    + split; [discriminate|]. intros _. right. right. discriminate.
Qed.

End EnvelopeFacts.

Module ListingFacts.
Import Client Listing.

(** The three shapes the traffic of one pass through the [try] block can
    take, with the session it leaves behind. *)
Lemma refresh_shape (s : state) method url params data :
  let c := Call ApiRequest method url (headers s) params data in
  exists v s' new,
    request_with_refresh method url params data s = (Ret v, s') /\
    sent s' = sent s ++ new /\
    same_config s s' /\
    ((exists r, new = [(c, r)] /\ v = payload r /\
                token s' = token s /\ headers s' = headers s) \/
     (exists x a, new = [(c, Answer x); (auth_call s, a)] /\ v = None /\
                  reply_token a = None /\
                  token s' = token s /\ headers s' = headers s) \/
     (exists x a tok r2,
        let hdrs := <["Authorization" := "Bearer " +:+ PyStr.str tok]> (headers s) in
        new = [(c, Answer x); (auth_call s, a);
               (Call ApiRequest method url hdrs params data, r2)] /\
        v = payload r2 /\ reply_token a = Some tok /\
        token s' = tok /\ headers s' = hdrs)).
Proof.
  intros c.
  destruct (server s (sent s) c) as [x|e] eqn:H.
  - destruct (status_code x =? 401) eqn:H401.
    + apply Z.eqb_eq in H401.
      set (a := server s (sent s ++ [(c, Answer x)]) (auth_call s)).
      destruct (reply_token a) as [tok|] eqn:Ha.
      * destruct (ClientFacts.refresh_401_ok s method url params data x tok
                    H H401 Ha) as (s' & Hrun & Hsent & Ht & Hh & Hcfg).
        fold c a in Hrun, Hsent.
        set (c2 := Call ApiRequest method url _ params data) in Hrun, Hsent.
        set (r2 := server s _ c2) in Hrun, Hsent.
        exists (payload r2), s', [(c, Answer x); (auth_call s, a); (c2, r2)].
        split; [exact Hrun|]. split; [rewrite Hsent; apply snoc3|].
        split; [exact Hcfg|]. right. right.
        exists x, a, tok, r2. cbn zeta. auto.
      * destruct (ClientFacts.refresh_401_ko s method url params data x
                    H H401 Ha) as (s' & Hrun & Hsent & Ht & Hh & Hcfg).
        fold c a in Hrun, Hsent.
        exists None, s', [(c, Answer x); (auth_call s, a)].
        split; [exact Hrun|]. split; [rewrite Hsent; apply snoc2|].
        split; [exact Hcfg|]. right. left. exists x, a. auto.
    + destruct (ClientFacts.refresh_plain s method url params data x H H401)
        as (s' & Hrun & Hsent & Ht & Hh & Hcfg).
      exists (payload (Answer x)), s', [(c, Answer x)].
      split; [exact Hrun|]. split; [exact Hsent|]. split; [exact Hcfg|].
      left. exists (Answer x). auto.
  - rewrite (ClientFacts.refresh_transport_error s method url params data e H).
    eexists None, _, [(c, Fails e)].
    split; [reflexivity|]. split; [reflexivity|].
    split; [repeat split|]. left. exists (Fails e). auto.
Qed.

(** The shapes of the traffic of a whole call: those of the [try] block,
    preceded by the first authentication when the call starts without a
    token. *)
Lemma make_request_shape (s : state) method endpoint params data :
  exists v s' pre s1 new,
    _make_request method endpoint params data s = (Ret v, s') /\
    sent s' = sent s ++ pre ++ new /\
    same_config s s' /\
    ((truthy (token s) = true /\ pre = [] /\ s1 = s) \/
     (truthy (token s) = false /\
      exists a, pre = [(auth_call s, a)] /\
        ((reply_token a = None /\ new = [] /\ v = None /\ s1 = s /\
          token s' = token s /\ headers s' = headers s) \/
         (exists tok, reply_token a = Some tok /\ s1 = authenticated tok a s)))) /\
    let c := Call ApiRequest method (base_url s +:+ endpoint) (headers s1) params data in
    ((new = [] /\ truthy (token s) = false /\ v = None /\
      token s' = token s /\ headers s' = headers s) \/
     (exists r, new = [(c, r)] /\ v = payload r /\
                token s' = token s1 /\ headers s' = headers s1) \/
     (exists x a, new = [(c, Answer x); (auth_call s1, a)] /\ v = None /\
                  reply_token a = None /\
                  token s' = token s1 /\ headers s' = headers s1) \/
     (exists x a tok r2,
        let hdrs := <["Authorization" := "Bearer " +:+ PyStr.str tok]> (headers s1) in
        new = [(c, Answer x); (auth_call s1, a);
               (Call ApiRequest method (base_url s +:+ endpoint) hdrs params data, r2)] /\
        v = payload r2 /\ reply_token a = Some tok /\
        token s' = tok /\ headers s' = hdrs)).
Proof.
  destruct (truthy (token s)) eqn:Htok.
  - rewrite (ClientFacts.make_request_held s _ _ _ _ Htok).
    destruct (refresh_shape s method (base_url s +:+ endpoint) params data)
      as (v & s' & new & Hrun & Hsent & Hcfg & Hshape).
    exists v, s', [], s, new.
    split; [exact Hrun|]. split; [exact Hsent|]. split; [exact Hcfg|].
    split; [left; auto|]. right. exact Hshape.
  - set (a := server s (sent s) (auth_call s)).
    destruct (reply_token a) as [tok|] eqn:Ha.
    + rewrite (ClientFacts.make_request_unheld_ok s _ _ _ _ tok Htok Ha). fold a.
      destruct (refresh_shape (authenticated tok a s) method
                  (base_url s +:+ endpoint) params data)
        as (v & s' & new & Hrun & Hsent & Hcfg & Hshape).
      exists v, s', [(auth_call s, a)], (authenticated tok a s), new.
      split; [exact Hrun|].
      split; [rewrite Hsent; cbn; rewrite <- app_assoc; reflexivity|].
      split; [exact Hcfg|].
      split; [right; split; [reflexivity|]; exists a; split; [reflexivity|];
              right; exists tok; auto|].
      right. exact Hshape.
    + destruct (ClientFacts.make_request_unheld_ko s method endpoint params data
                  Htok Ha) as [ev ->].
      eexists None, _, [(auth_call s, a)], s, [].
      split; [reflexivity|]. split; [reflexivity|].
      split; [repeat split|].
      split; [right; split; [reflexivity|]; exists a; split; [reflexivity|];
              left; auto 10|].
      left. auto.
Qed.


Ltac shape_cases H :=
  let Hpre := fresh "Hpre" in
  let Hnew := fresh "Hnew" in
  destruct H as (Hpre & Hnew);
  destruct Hpre as [(? & ? & ?)|(? & ? & ? & [(? & ? & ? & ? & ? & ?)|(? & ? & ?)])];
  cbn zeta in Hnew;
  destruct Hnew as [(? & ? & ? & ? & ?)|[(? & ? & ? & ? & ?)|[(? & ? & ? & ? & ? & ? & ?)|
                      (? & ? & ? & ? & ? & ? & ? & ? & ?)]]];
  subst; try congruence.

(** X1.  One call of [_make_request] exchanges between one and four messages
    with the remote side: at most two API requests and at most two
    authentications, and at most one authentication (three messages) when the
    call starts with a token. *)
Theorem make_request_traffic_bounded (s : state) method endpoint params data :
  exists v s' new,
    _make_request method endpoint params data s = (Ret v, s') /\
    sent s' = sent s ++ new /\
    (1 <= length new <= 4)%nat /\
    (count_site ApiRequest new <= 2)%nat /\
    (count_site AuthPost new <= 2)%nat /\
    (truthy (token s) = true ->
     (count_site AuthPost new <= 1)%nat /\ (length new <= 3)%nat).
Proof.
  destruct (make_request_shape s method endpoint params data)
    as (v & s' & pre & s1 & new & Hrun & Hsent & Hcfg & Hshape).
  exists v, s', (pre ++ new).
  split; [exact Hrun|]. split; [exact Hsent|].
  shape_cases Hshape; cbn; try (repeat split; try lia; congruence);
    try discriminate.
Qed.

(** X2.  Whatever the remote side answers, every message of a call is
    addressed as it should be: an authentication is a POST of the client's
    credentials to [base_url + "/security/authenticate"], and an API request
    has the caller's method, parameters and body and goes to
    [base_url + endpoint]. *)
Theorem make_request_messages_addressed (s : state) method endpoint params data :
  exists v s' new,
    _make_request method endpoint params data s = (Ret v, s') /\
    sent s' = sent s ++ new /\
    Forall (well_addressed s method endpoint params data) new.
Proof.
  destruct (make_request_shape s method endpoint params data)
    as (v & s' & pre & s1 & new & Hrun & Hsent & Hcfg & Hshape).
  exists v, s', (pre ++ new).
  split; [exact Hrun|]. split; [exact Hsent|].
  shape_cases Hshape; cbn; try discriminate;
    repeat constructor.
Qed.

Lemma coherent_authenticated (tok : json) (a : reply) (s : state) :
  coherent (authenticated tok a s).
Proof. left. cbn. apply lookup_insert_eq. Qed.

(** X3.  The session stays coherent: its [Authorization] header is
    ["Bearer " + str(token)], or it has neither token nor header.  A new
    client is coherent, and [authenticate] and [_make_request] keep it so,
    whatever their outcome. *)
Theorem session_stays_coherent :
  (forall url user pass net, coherent (init url user pass net)) /\
  (forall (s s' : state) r,
     coherent s -> authenticate s = (r, s') -> coherent s') /\
  (forall (s s' : state) method endpoint params data r,
     coherent s ->
     _make_request method endpoint params data s = (r, s') ->
     coherent s').
Proof.
  split; [|split].
  - intros url user pass net. right. split; reflexivity.
  - intros s s' r Hc Hrun.
    destruct (reply_token (server s (sent s) (auth_call s))) as [tok|] eqn:Ha.
    + rewrite (ClientFacts.authenticate_ok s tok Ha) in Hrun.
      injection Hrun as _ <-. apply coherent_authenticated.
    + destruct (ClientFacts.authenticate_ko s Ha) as [ev Hko].
      rewrite Hko in Hrun. injection Hrun as _ <-. exact Hc.
  - intros s s' method endpoint params data r Hc Hrun.
    destruct (make_request_shape s method endpoint params data)
      as (v & s2 & pre & s1 & new & Hrun2 & Hsent & Hcfg & Hshape).
    rewrite Hrun2 in Hrun. injection Hrun as _ <-.
    assert (Hgen : forall t : state,
              coherent t -> token s2 = token t -> headers s2 = headers t ->
              coherent s2).
    { intros t Ht E1 E2. unfold coherent. rewrite E1, E2. exact Ht. }
    assert (Hins : forall (tok : json) (h : gmap string string),
              token s2 = tok ->
              headers s2 = <["Authorization" := "Bearer " +:+ PyStr.str tok]> h ->
              coherent s2).
    { intros tok h E1 E2. left. rewrite E1, E2. apply lookup_insert_eq. }
    shape_cases Hshape; try discriminate;
      first [ eapply Hgen; [exact Hc|eassumption|eassumption]
            | eapply Hgen; [apply coherent_authenticated|eassumption|eassumption]
            | eapply Hins; eassumption
            | left;
              match goal with E : headers s2 = _ |- _ => rewrite E end;
              apply lookup_insert_eq ].
Qed.

(** X4.  A call changes nothing of the client but its token and its
    [Authorization] header: base URL, credentials and every other default
    header (such as [Content-Type]) are as before. *)
Theorem make_request_keeps_other_headers (s s' : state) method endpoint params data r :
  _make_request method endpoint params data s = (r, s') ->
  same_config s s' /\
  forall k, k <> "Authorization" -> headers s' !! k = headers s !! k.
Proof.
  intros Hrun.
  destruct (make_request_shape s method endpoint params data)
    as (v & s2 & pre & s1 & new & Hrun2 & Hsent & Hcfg & Hshape).
  rewrite Hrun2 in Hrun. injection Hrun as _ <-.
  split; [exact Hcfg|]. intros k Hk.
  shape_cases Hshape; try discriminate;
    repeat match goal with
    | E : headers s2 = _ |- _ => rewrite E; clear E
    end; cbn; rewrite ?lookup_insert_ne by congruence; reflexivity.
Qed.

(** X4 at work on a call that refreshes its token. *)
Lemma make_request_keeps_other_headers_witness :
  let s := expired_session (Response 200 (Some ok_body) "ok") in
  let s' := snd (_make_request "GET" "/core/experiments" None None s) in
  same_config s s' /\
  forall k, k <> "Authorization" -> headers s' !! k = headers s !! k.
Proof.
  intros s s'.
  apply (make_request_keeps_other_headers s s' "GET" "/core/experiments" None None
           (Ret (Some ok_body))).
  vm_compute. reflexivity.
Defined.

Lemma payload_some (r : reply) (j : json) :
  payload r = Some j ->
  exists x, r = Answer x /\ status_code x = 200 /\ body x = Some j.
Proof.
  destruct r as [x|e]; cbn; [|discriminate].
  destruct (Z.eqb_spec (status_code x) 200); [|discriminate].
  eauto.
Qed.

(** X5.  A call that returns a payload was served: its last message is an API
    request with the caller's method and URL, answered with status 200 and
    that payload as its body. *)
Theorem make_request_payload_was_served (s s' : state) method endpoint params data j :
  _make_request method endpoint params data s = (Ret (Some j), s') ->
  exists c x,
    last (sent s') = Some (c, Answer x) /\
    c_site c = ApiRequest /\
    c_method c = method /\
    c_url c = base_url s +:+ endpoint /\
    status_code x = 200 /\
    body x = Some j.
Proof.
  intros Hrun.
  destruct (make_request_shape s method endpoint params data)
    as (v & s2 & pre & s1 & new & Hrun2 & Hsent & Hcfg & Hshape).
  rewrite Hrun2 in Hrun. injection Hrun as -> <-.
  rewrite Hsent.
  shape_cases Hshape; try discriminate;
    match goal with
    | E : Some j = payload ?r |- _ =>
        symmetry in E; apply payload_some in E as (y & -> & Hst & Hb)
    end;
    eexists _, y; rewrite !last_app; cbn; repeat split; assumption.
Qed.

(** X5 at work on a call that is served on its second attempt. *)
Lemma make_request_payload_was_served_witness :
  let s := expired_session (Response 200 (Some ok_body) "ok") in
  let s' := snd (_make_request "GET" "/core/experiments" None None s) in
  exists c x,
    last (sent s') = Some (c, Answer x) /\
    c_site c = ApiRequest /\
    c_method c = "GET" /\
    c_url c = base_url s +:+ "/core/experiments" /\
    status_code x = 200 /\
    body x = Some ok_body.
Proof.
  intros s s'.
  apply (make_request_payload_was_served s s' "GET" "/core/experiments" None None
           ok_body).
  vm_compute. reflexivity.
Defined.


(** A call that holds a token and whose request is answered with anything
    but 401. *)
Lemma make_request_plain (s : state) method endpoint params data x :
  truthy (token s) = true ->
  server s (sent s) (api_call s method endpoint params data) = Answer x ->
  status_code x <> 401 ->
  exists s',
    _make_request method endpoint params data s = (Ret (payload (Answer x)), s') /\
    sent s' = sent s ++ [(api_call s method endpoint params data, Answer x)].
Proof.
  intros Htok H H401.
  rewrite (ClientFacts.make_request_held s _ _ _ _ Htok).
  assert (E : (status_code x =? 401) = false) by (apply Z.eqb_neq; exact H401).
  destruct (ClientFacts.refresh_plain s method (base_url s +:+ endpoint) params
              data x H E) as (s' & Hrun & Hsent & _).
  exists s'. split; [exact Hrun|exact Hsent].
Qed.

(** X6.  [post_data] reports success exactly when the answer to its request
    is a 200 with a JSON body other than [null]: any other status, [201
    Created] included, makes it return [False]. *)
Theorem post_data_counts_only_200 (s : state) (data_list : list json) x :
  truthy (token s) = true ->
  server s (sent s)
    (api_call s "POST" "/core/data" None (Some (JArr data_list))) = Answer x ->
  status_code x <> 401 ->
  exists b s',
    post_data data_list s = (Ret b, s') /\
    (b = true <->
     status_code x = 200 /\ exists j, body x = Some j /\ j <> JNull) /\
    (status_code x = 201 -> b = false).
Proof.
  intros Htok H H401.
  destruct (make_request_plain s "POST" "/core/data" None (Some (JArr data_list))
              x Htok H H401) as (s' & Hrun & _).
  unfold post_data, bind. rewrite Hrun. cbn.
  eexists _, s'. split; [reflexivity|].
  destruct (Z.eqb_spec (status_code x) 200) as [E|E].
  - split.
    + destruct (body x) as [[]|]; split; intros Hb;
        try discriminate; try (split; [exact E|eexists; split; [reflexivity|discriminate]]);
        try reflexivity;
        destruct Hb as (_ & j & [= <-] & Hj); try contradiction; discriminate.
    + intros E'. rewrite E in E'. discriminate.
  - split; [|reflexivity].
    split; [discriminate|]. intros [E' _]. contradiction.
Qed.

(** X6 at work: the remote side creates the data and says so with 201. *)
Lemma post_data_counts_only_200_witness :
  let s := session_with (scripted [Answer (Response 201 (Some ok_body) "created")]) in
  exists b s',
    post_data [JObj [("value", JNum 25)]] s = (Ret b, s') /\
    (b = true <-> 201 = 200 /\ exists j, Some ok_body = Some j /\ j <> JNull) /\
    (201 = 201 -> b = false).
Proof.
  intros s.
  apply (post_data_counts_only_200 s [JObj [("value", JNum 25)]]
           (Response 201 (Some ok_body) "created")).
  - reflexivity.
  - reflexivity.
  - cbn. lia.
Defined.

(** X7.  What [get_experiments] makes of a 200 answer: the [result] field of
    a JSON object (an empty list when the field is missing), [None] for a
    falsy body, and an [AttributeError] that leaves the method when the body
    is any other JSON value, such as a list. *)
Theorem get_experiments_on_200 (s : state) (page page_size : Z) x r :
  truthy (token s) = true ->
  server s (sent s)
    (api_call s "GET" "/core/experiments"
       (Some (JObj [("page", JNum page); ("page_size", JNum page_size)])) None)
    = Answer x ->
  status_code x = 200 ->
  body x = Some r ->
  exists out s',
    get_experiments page page_size s = (out, s') /\
    (forall fields, r = JObj fields -> fields <> [] ->
       out = Ret (match assoc "result" fields with
                  | Some v => v
                  | None => JArr []
                  end)) /\
    (truthy r = false -> out = Ret JNull) /\
    (truthy r = true -> (forall fields, r <> JObj fields) ->
       out = Exc AttributeError).
Proof.
  intros Htok H H200 Hb.
  destruct (make_request_plain s "GET" "/core/experiments" _ None x Htok H
              ltac:(lia)) as (s' & Hrun & _).
  unfold get_experiments, bind. rewrite Hrun. cbn.
  rewrite H200, Hb. cbn.
  destruct (truthy r) eqn:Ht.
  - destruct r as [| | | | |fields]; cbn;
      eexists _, s'; (split; [reflexivity|]);
      (split; [intros f [= <-] Hne; try reflexivity|]);
      (split; [discriminate|]); intros _ Hno; try reflexivity.
    exfalso. exact (Hno fields eq_refl).
  - eexists _, s'. split; [reflexivity|].
    split; [|split; [reflexivity|discriminate]].
    intros fields -> Hne. destruct fields; [contradiction|discriminate].
Qed.

(** X7 at work: a 200 answer whose body is a JSON list. *)
Lemma get_experiments_on_200_witness :
  let s := session_with (scripted [Answer (Response 200 (Some (JArr sample_page)) "ok")]) in
  exists out s',
    get_experiments 0 20 s = (out, s') /\
    (forall fields, JArr sample_page = JObj fields -> fields <> [] ->
       out = Ret (match assoc "result" fields with
                  | Some v => v
                  | None => JArr []
                  end)) /\
    (truthy (JArr sample_page) = false -> out = Ret JNull) /\
    (truthy (JArr sample_page) = true ->
     (forall fields, JArr sample_page <> JObj fields) ->
     out = Exc AttributeError).
Proof.
  intros s.
  apply (get_experiments_on_200 s 0 20 (Response 200 (Some (JArr sample_page)) "ok"));
    reflexivity.
Defined.

(** X8.  [get_experiment] returns the first item of the [result] list of a
    200 answer, and [None] when that list is empty or missing or when the
    answer has another status. *)
Theorem get_experiment_first_or_none (s : state) (uri : string) x :
  truthy (token s) = true ->
  server s (sent s)
    (api_call s "GET" "/core/experiments" (Some (JObj [("uri", JStr uri)])) None)
    = Answer x ->
  status_code x <> 401 ->
  exists out s',
    get_experiment uri s = (out, s') /\
    (forall fields e rest,
       status_code x = 200 -> body x = Some (JObj fields) ->
       assoc "result" fields = Some (JArr (e :: rest)) ->
       out = Ret e) /\
    (forall fields,
       status_code x = 200 -> body x = Some (JObj fields) ->
       assoc "result" fields = None \/ assoc "result" fields = Some (JArr []) ->
       out = Ret JNull) /\
    (status_code x <> 200 -> out = Ret JNull).
Proof.
  intros Htok H H401.
  destruct (make_request_plain s "GET" "/core/experiments" _ None x Htok H H401)
    as (s' & Hrun & _).
  unfold get_experiment, bind. rewrite Hrun. cbn.
  assert (Hfin : forall out : result json,
    (forall fields e rest,
       status_code x = 200 -> body x = Some (JObj fields) ->
       assoc "result" fields = Some (JArr (e :: rest)) -> out = Ret e) ->
    (forall fields,
       status_code x = 200 -> body x = Some (JObj fields) ->
       assoc "result" fields = None \/ assoc "result" fields = Some (JArr []) ->
       out = Ret JNull) ->
    (status_code x <> 200 -> out = Ret JNull) ->
    exists out' s'',
      (out, s') = (out', s'') /\
      (forall fields e rest,
         status_code x = 200 -> body x = Some (JObj fields) ->
         assoc "result" fields = Some (JArr (e :: rest)) -> out' = Ret e) /\
      (forall fields,
         status_code x = 200 -> body x = Some (JObj fields) ->
         assoc "result" fields = None \/ assoc "result" fields = Some (JArr []) ->
         out' = Ret JNull) /\
      (status_code x <> 200 -> out' = Ret JNull)).
  { intros out H1 H2 H3. exists out, s'. auto. }
  assert (Hfin' : forall out : result json,
    ((forall fields e rest,
       status_code x = 200 -> body x = Some (JObj fields) ->
       assoc "result" fields = Some (JArr (e :: rest)) -> out = Ret e) /\
    (forall fields,
       status_code x = 200 -> body x = Some (JObj fields) ->
       assoc "result" fields = None \/ assoc "result" fields = Some (JArr []) ->
       out = Ret JNull) /\
    (status_code x <> 200 -> out = Ret JNull)) ->
    exists out' s'',
      (out, s') = (out', s'') /\
      (forall fields e rest,
         status_code x = 200 -> body x = Some (JObj fields) ->
         assoc "result" fields = Some (JArr (e :: rest)) -> out' = Ret e) /\
      (forall fields,
         status_code x = 200 -> body x = Some (JObj fields) ->
         assoc "result" fields = None \/ assoc "result" fields = Some (JArr []) ->
         out' = Ret JNull) /\
      (status_code x <> 200 -> out' = Ret JNull)).
  { intros out (H1 & H2 & H3). apply Hfin; assumption. }
  clear Hfin.
  destruct (Z.eqb_spec (status_code x) 200) as [E|E];
    [|apply Hfin'; repeat split; intros; congruence].
  destruct (body x) as [r|] eqn:Hb;
    [|apply Hfin'; repeat split; intros; congruence].
  assert (Hdone : forall out : result json,
    (forall fields e rest,
       r = JObj fields ->
       assoc "result" fields = Some (JArr (e :: rest)) -> out = Ret e) ->
    (forall fields,
       r = JObj fields ->
       assoc "result" fields = None \/ assoc "result" fields = Some (JArr []) ->
       out = Ret JNull) ->
    exists out' s'',
      (out, s') = (out', s'') /\
      (forall fields e rest,
         status_code x = 200 -> Some r = Some (JObj fields) ->
         assoc "result" fields = Some (JArr (e :: rest)) -> out' = Ret e) /\
      (forall fields,
         status_code x = 200 -> Some r = Some (JObj fields) ->
         assoc "result" fields = None \/ assoc "result" fields = Some (JArr []) ->
         out' = Ret JNull) /\
      (status_code x <> 200 -> out' = Ret JNull)).
  { intros out H1 H2. apply Hfin'. repeat split.
    - intros fields e rest _ [= ->]. eauto.
    - intros fields _ [= ->]. eauto.
    - contradiction. }
  clear Hfin'.
  destruct (truthy r) eqn:Ht.
  - destruct r as [|b|z|str|items|fields]; cbn;
      try (apply Hdone; intros; discriminate).
    destruct (assoc "result" fields) as [found|] eqn:Hf.
    + destruct found as [|[|]|z|[|c str]|[|e0 items]|[|kv inner]]; cbn;
        try (destruct (z =? 0); cbn);
        apply Hdone; intros f; intros;
        repeat match goal with
        | Hi : JObj _ = JObj _ |- _ => injection Hi as <-
        | Hd : _ \/ _ |- _ => destruct Hd
        end; congruence.
    + cbn. apply Hdone; intros f; intros;
        repeat match goal with
        | Hi : JObj _ = JObj _ |- _ => injection Hi as <-
        end; [congruence|reflexivity].
  - apply Hdone.
    + intros fields e rest -> Hr. destruct fields; discriminate.
    + reflexivity.
Qed.


(** X8 at work: the first of a page of experiments. *)
Lemma get_experiment_first_or_none_witness :
  let x := Response 200 (Some (JObj [("result", JArr sample_page)])) "ok" in
  let s := session_with (scripted [Answer x]) in
  exists out s',
    get_experiment "http://opensilex.org/id/experiment/e" s = (out, s') /\
    (forall fields e rest,
       status_code x = 200 -> body x = Some (JObj fields) ->
       assoc "result" fields = Some (JArr (e :: rest)) ->
       out = Ret e) /\
    (forall fields,
       status_code x = 200 -> body x = Some (JObj fields) ->
       assoc "result" fields = None \/ assoc "result" fields = Some (JArr []) ->
       out = Ret JNull) /\
    (status_code x <> 200 -> out = Ret JNull).
Proof.
  intros x s.
  apply (get_experiment_first_or_none s "http://opensilex.org/id/experiment/e" x).
  - reflexivity.
  - reflexivity.
  - cbn. lia.
Defined.

Lemma result_or_none_state (v : option json) (s s' : state) out :
  result_or_none v s = (out, s') -> s' = s.
Proof.
  destruct v as [r|]; cbn; [|intros [= _ <-]; reflexivity].
  destruct (truthy r); [|intros [= _ <-]; reflexivity].
  destruct r; cbn; intros [= _ <-]; reflexivity.
Qed.

(** X9.  The query of [get_data] holds [page] and [page_size] followed by
    exactly the filters given as non-empty strings, in the order of the
    method's parameters; a filter that is [None] or empty is not sent.  It is
    the query of the request the method makes, a GET on [/core/data]. *)
Theorem get_data_query
    (experiment_uri variable_uri scientific_object_uri start_date end_date : option string)
    (page page_size : Z) :
  data_params experiment_uri variable_uri scientific_object_uri start_date end_date
      page page_size =
    [("page", JNum page); ("page_size", JNum page_size)] ++
    List.filter (fun kv => truthy (snd kv))
      [("experiment", of_str experiment_uri);
       ("variable", of_str variable_uri);
       ("scientific_object", of_str scientific_object_uri);
       ("start_date", of_str start_date);
       ("end_date", of_str end_date)] /\
  forall s : state,
    truthy (token s) = true ->
    exists out s' r rest,
      get_data experiment_uri variable_uri scientific_object_uri start_date end_date
        page page_size s = (out, s') /\
      sent s' =
        sent s ++
        (api_call s "GET" "/core/data"
           (Some (JObj (data_params experiment_uri variable_uri scientific_object_uri
                          start_date end_date page page_size))) None, r) :: rest.
Proof.
  split.
  - unfold data_params, add_if_truthy.
    destruct experiment_uri as [[|? ?]|], variable_uri as [[|? ?]|],
      scientific_object_uri as [[|? ?]|], start_date as [[|? ?]|],
      end_date as [[|? ?]|]; reflexivity.
  - intros s Htok.
    set (q := data_params _ _ _ _ _ _ _).
    destruct (make_request_shape s "GET" "/core/data" (Some (JObj q)) None)
      as (v & s2 & pre & s1 & new & Hrun & Hsent & Hcfg & Hshape).
    unfold get_data, bind. fold q. rewrite Hrun.
    destruct (result_or_none v s2) as [out s3] eqn:Hr.
    apply result_or_none_state in Hr as ->.
    shape_cases Hshape; cbn in Hsent;
      eexists out, s2, _, _; (split; [reflexivity|exact Hsent]).
Qed.

(** X10.  [get_all_pages] has no bound of its own: against a listing method
    that always returns a full page it never returns, however long it
    runs. *)
Theorem get_all_pages_needs_a_short_page {St} (method : Z -> Z -> M St json) :
  (forall page s, exists p s', method page 50 s = (Ret p, s') /\ full_page p) ->
  forall fuel s, exists s', get_all_pages fuel method s = (OutOfFuel, s').
Proof.
  intros Hfull fuel. unfold get_all_pages.
  generalize 0 as page. generalize (@nil json) as acc.
  induction fuel as [|fuel IH]; intros acc page s.
  - exists s. reflexivity.
  - destruct (Hfull page s) as (p & s1 & Hm & Hp).
    rewrite (PaginationFacts.pages_loop_go method fuel page acc s p s1 Hm Hp).
    apply IH.
Qed.

(** X10 at work on a remote side that answers every request with the same
    full page. *)
Lemma get_all_pages_needs_a_short_page_witness :
  exists s',
    get_all_pages 1000 (fun _ _ u => (Ret (JArr sample_page), u)) tt = (OutOfFuel, s').
Proof.
  apply (get_all_pages_needs_a_short_page (St := unit)
           (fun _ _ u => (Ret (JArr sample_page), u))).
  intros page s. exists (JArr sample_page), s.
  split; [reflexivity|]. exists sample_page. split; [reflexivity|].
  vm_compute. lia.
Defined.

Lemma pages_loop_raises {St} (method : Z -> Z -> M St json) (pages : list json) :
  forall (fuel : nat) page acc s sk e s',
    (length pages < fuel)%nat ->
    fetch method page (length pages) s = (Ret pages, sk) ->
    Forall full_page pages ->
    method (page + Z.of_nat (length pages)) 50 sk = (Exc e, s') ->
    pages_loop fuel method page 50 acc s = (Exc e, s').
Proof.
  induction pages as [|p pages IH]; intros fuel page acc s sk e s' Hfuel Hf Hfull Hm.
  - destruct fuel as [|fuel]; [cbn in Hfuel; lia|].
    cbn in Hf. injection Hf as <-.
    replace (page + Z.of_nat (length (@nil json))) with page in Hm by (cbn; lia).
    cbn. unfold bind. rewrite Hm. reflexivity.
  - destruct fuel as [|fuel]; [cbn in Hfuel; lia|].
    cbn [length] in Hf.
    apply PaginationFacts.fetch_step in Hf as (s1 & Hm1 & Hrest).
    inversion Hfull as [|? ? Hp Hfull']; subst.
    rewrite (PaginationFacts.pages_loop_go method fuel page acc s p s1 Hm1 Hp).
    apply (IH fuel (page + 1) (acc ++ items_of p) s1 sk e s');
      [cbn in Hfuel; lia|exact Hrest|exact Hfull'|].
    replace (page + 1 + Z.of_nat (length pages))
      with (page + Z.of_nat (length (p :: pages))) by (cbn [length]; lia).
    exact Hm.
Qed.

(** X11.  [get_all_pages] catches nothing: an exception raised by the listing
    method on page [k] leaves [get_all_pages], and the items of the pages
    fetched before are not returned. *)
Theorem get_all_pages_lets_exceptions_through {St} (method : Z -> Z -> M St json)
    (pages : list json) (s sk s' : St) (e : exn) (fuel : nat) :
  (length pages < fuel)%nat ->
  fetch method 0 (length pages) s = (Ret pages, sk) ->
  Forall full_page pages ->
  method (Z.of_nat (length pages)) 50 sk = (Exc e, s') ->
  get_all_pages fuel method s = (Exc e, s').
Proof.
  intros Hfuel Hf Hfull Hm.
  exact (pages_loop_raises method pages fuel 0 [] s sk e s' Hfuel Hf Hfull Hm).
Qed.

(** X11 at work: the second page of experiments arrives as a bare JSON
    list, [get_experiments] raises, and the first page is lost with it. *)
Lemma get_all_pages_lets_exceptions_through_witness :
  let s := session_with
             (scripted [Answer (Response 200 (Some (JObj [("result", JArr sample_page)])) "ok");
                        Answer (Response 200 (Some (JArr sample_page)) "ok")]) in
  exists s', get_all_pages 5 get_experiments s = (Exc AttributeError, s').
Proof.
  intros s.
  exists (snd (get_experiments 1 50 (snd (fetch get_experiments 0 1 s)))).
  apply (get_all_pages_lets_exceptions_through get_experiments [JArr sample_page]
           s (snd (fetch get_experiments 0 1 s))).
  - cbn. lia.
  - vm_compute. reflexivity.
  - constructor; [|constructor]. exists sample_page. split; [reflexivity|].
    vm_compute. lia.
  - vm_compute. reflexivity.
Defined.

End ListingFacts.

Module ParserFacts.
Import HostResolver Boot.

Ltac each_char c :=
  destruct c as [[|] [|] [|] [|] [|] [|] [|] [|]].

Lemma lower_char_idem (c : ascii) :
  PyStr.lower_char (PyStr.lower_char c) = PyStr.lower_char c.
Proof. each_char c; vm_compute; reflexivity. Qed.

Lemma lower_idem (s : string) : PyStr.lower (PyStr.lower s) = PyStr.lower s.
Proof.
  induction s as [|c s IH]; [reflexivity|].
  cbn [PyStr.lower]. rewrite lower_char_idem, IH. reflexivity.
Qed.

Lemma lower_char_blank (c : ascii) :
  PyStr.lower_char c = " "%char -> c = " "%char.
Proof. each_char c; vm_compute; intros H; try reflexivity; discriminate. Qed.

Lemma lower_char_letter (c l : ascii) :
  PyStr.isspace l = false ->
  PyStr.lower_char l = l ->
  PyStr.lower_char c = l -> PyStr.isspace c = false.
Proof.
  intros Hl Hfix <-. revert Hl. each_char c; vm_compute; intros H;
    try reflexivity; discriminate.
Qed.

Lemma for_each_app {St A} (l1 l2 : list A) (body : A -> M St unit) (w : St) :
  for_each (l1 ++ l2) body w =
    bind (for_each l1 body) (fun _ => for_each l2 body) w.
Proof.
  revert w. induction l1 as [|x l1 IH]; intros w; [reflexivity|].
  cbn [for_each app]. unfold bind in *.
  destruct (body x w) as [[[]|e|] w1]; [|reflexivity|reflexivity].
  apply IH.
Qed.

Lemma parse_line_ignorable (line : string) (w : frame) :
  ignorable line = true -> parse_line line w = (Ret tt, w).
Proof.
  unfold ignorable, parse_line. intros ->. reflexivity.
Qed.

Lemma get_host_parse_line_ignorable (line : string) (w : frame) :
  ignorable line = true -> GetHost.parse_line line w = (Ret tt, w).
Proof.
  unfold ignorable, GetHost.parse_line. intros ->. reflexivity.
Qed.

(** X12.  Blank lines and comment lines change nothing: with such a line
    inserted anywhere, the loop of either parser ends exactly as without
    it. *)
Theorem comments_and_blanks_are_skipped (l1 l2 : list string) (c : string) (w : frame) :
  ignorable c = true ->
  for_each (l1 ++ c :: l2) parse_line w = for_each (l1 ++ l2) parse_line w /\
  for_each (l1 ++ c :: l2) GetHost.parse_line w =
    for_each (l1 ++ l2) GetHost.parse_line w.
Proof.
  intros Hc. split.
  - rewrite !for_each_app. unfold bind.
    destruct (for_each l1 parse_line w) as [[[]|e|] w1]; try reflexivity.
    cbn [for_each]. unfold bind.
    rewrite (parse_line_ignorable c w1 Hc). reflexivity.
  - rewrite !for_each_app. unfold bind.
    destruct (for_each l1 GetHost.parse_line w) as [[[]|e|] w1]; try reflexivity.
    cbn [for_each]. unfold bind.
    rewrite (get_host_parse_line_ignorable c w1 Hc). reflexivity.
Qed.

(** X12 at work on the sample configuration with a comment after its first
    line. *)
Lemma comments_and_blanks_are_skipped_witness :
  for_each (["Host demo"] ++ "  # the demo machine" ::
            ["    HostName 10.0.0.5"; "    Port 28081"]) parse_line bare_machine =
    for_each demo_config parse_line bare_machine /\
  for_each (["Host demo"] ++ "  # the demo machine" ::
            ["    HostName 10.0.0.5"; "    Port 28081"]) GetHost.parse_line bare_machine =
    for_each demo_config GetHost.parse_line bare_machine.
Proof.
  apply (comments_and_blanks_are_skipped ["Host demo"]
           ["    HostName 10.0.0.5"; "    Port 28081"] "  # the demo machine"
           bare_machine).
  reflexivity.
Defined.


(** *** Words and blanks *)

Lemma is_empty_snoc (cur : string) (c : ascii) :
  PyStr.is_empty (cur +:+ String c EmptyString) = false.
Proof. destruct cur; reflexivity. Qed.

Lemma split_from_cur (s : string) :
  forall cur, PyStr.is_empty cur = false -> PyStr.split_from cur s <> [].
Proof.
  induction s as [|c s IH]; intros cur Hcur; cbn.
  - rewrite Hcur. discriminate.
  - destruct (PyStr.isspace c).
    + rewrite Hcur. discriminate.
    + apply IH, is_empty_snoc.
Qed.

Lemma split_from_rstrip (s : string) :
  forall cur,
    PyStr.is_empty (PyStr.rstrip s) = false ->
    PyStr.split_from cur (PyStr.rstrip s) <> [].
Proof.
  induction s as [|c s IH]; intros cur; cbn [PyStr.rstrip]; [discriminate|].
  destruct (PyStr.isspace c) eqn:Hc; cbn [andb].
  - destruct (PyStr.is_empty (PyStr.rstrip s)) eqn:He; [discriminate|].
    intros _. cbn [PyStr.split_from]. rewrite Hc.
    destruct (PyStr.is_empty cur); [apply IH; reflexivity|discriminate].
  - intros _. cbn [PyStr.split_from]. rewrite Hc.
    apply split_from_cur, is_empty_snoc.
Qed.

Lemma rstrip_cons (m : string) (c : ascii) (t : string) :
  PyStr.rstrip m = String c t ->
  exists m',
    m = String c m' /\ t = PyStr.rstrip m' /\
    (PyStr.isspace c = true -> PyStr.is_empty (PyStr.rstrip m') = false).
Proof.
  destruct m as [|c0 m']; cbn [PyStr.rstrip]; [discriminate|].
  destruct (PyStr.isspace c0) eqn:Hc; cbn [andb].
  - destruct (PyStr.is_empty (PyStr.rstrip m')) eqn:He; [discriminate|].
    intros [= <- <-]. eauto.
  - intros [= <- <-]. exists m'. repeat split. congruence.
Qed.

(** A line that passes the test for a host line has an alias to take. *)
Lemma host_line_alias (m : string) :
  PyStr.startswith (PyStr.lower (PyStr.rstrip m)) "host " = true ->
  exists h, second (PyStr.split (PyStr.rstrip m)) = inr h.
Proof.
  unfold PyStr.startswith.
  destruct (PyStr.rstrip m) as [|c1 [|c2 [|c3 [|c4 [|c5 l5]]]]] eqn:E;
    try (cbn [PyStr.lower String.prefix];
         repeat match goal with
                | |- context [ascii_dec ?a ?b] =>
                    destruct (ascii_dec a b); cbn [PyStr.lower String.prefix]
                end; intros Hno; discriminate Hno).
  cbn [PyStr.lower String.prefix].
  destruct (ascii_dec "h" (PyStr.lower_char c1)) as [H1|]; [|discriminate].
  destruct (ascii_dec "o" (PyStr.lower_char c2)) as [H2|]; [|discriminate].
  destruct (ascii_dec "s" (PyStr.lower_char c3)) as [H3|]; [|discriminate].
  destruct (ascii_dec "t" (PyStr.lower_char c4)) as [H4|]; [|discriminate].
  destruct (ascii_dec " " (PyStr.lower_char c5)) as [H5|]; [|discriminate].
  intros _.
  symmetry in H1, H2, H3, H4, H5.
  apply (lower_char_letter c1 "h" eq_refl eq_refl) in H1.
  apply (lower_char_letter c2 "o" eq_refl eq_refl) in H2.
  apply (lower_char_letter c3 "s" eq_refl eq_refl) in H3.
  apply (lower_char_letter c4 "t" eq_refl eq_refl) in H4.
  apply lower_char_blank in H5. subst c5.
  apply rstrip_cons in E as (m1 & -> & E & _).
  symmetry in E. apply rstrip_cons in E as (m2 & -> & E & _).
  symmetry in E. apply rstrip_cons in E as (m3 & -> & E & _).
  symmetry in E. apply rstrip_cons in E as (m4 & -> & E & _).
  symmetry in E. apply rstrip_cons in E as (m5 & -> & -> & He).
  specialize (He eq_refl).
  unfold PyStr.split. cbn [PyStr.split_from]. rewrite H1, H2, H3, H4.
  cbn.
  pose proof (split_from_rstrip m5 EmptyString He) as Hne.
  destruct (PyStr.split_from EmptyString (PyStr.rstrip m5)) as [|h rest];
    [contradiction|].
  exists h. reflexivity.
Qed.

Lemma host_is_open_entry (h : string) (w : frame) :
  host_is_open (set_locals (<[h := ∅]> (hosts w)) (Some h) w).
Proof.
  intros h' [= <-]. cbn. rewrite lookup_insert_eq. eauto.
Qed.

(** One line of a readable file: the loop body of [parse_ssh_config] returns,
    and logs nothing. *)
Lemma parse_line_ok (line : string) (w : frame) :
  host_is_open w ->
  exists w',
    parse_line line w = (Ret tt, w') /\ host_is_open w' /\
    log w' = log w /\ fs w' = fs w /\ home w' = home w /\ os_name w' = os_name w.
Proof.
  intros Hopen. unfold parse_line.
  destruct (PyStr.is_empty (PyStr.strip line) || PyStr.startswith (PyStr.strip line) "#");
    [exists w; auto 10|].
  destruct (PyStr.startswith (PyStr.lower (PyStr.strip line)) "host ") eqn:Hh.
  - destruct (host_line_alias (PyStr.lstrip line) Hh) as [h Hsnd].
    unfold PyStr.strip. unfold bind. rewrite Hsnd. cbn.
    eexists. split; [reflexivity|]. split; [apply host_is_open_entry|].
    auto.
  - unfold bind, gets.
    destruct (current_host w) as [h|] eqn:Hcur; cbn; [|exists w; auto 10].
    destruct (negb (PyStr.is_empty h) && PyStr.contains " " (PyStr.strip line));
      [|exists w; auto 10].
    destruct (PyStr.split_once (PyStr.strip line)) as [|key [|value [|? ?]]];
      try (exists w; solve [auto 10]).
    unfold set_attribute, bind, gets.
    destruct (Hopen h Hcur) as [entry Hentry]. rewrite Hentry. cbn.
    rewrite Hcur. cbn.
    eexists. split; [reflexivity|]. split; [|auto].
    intros h' Hh'. cbn in Hh'. cbn.
    assert (h' = h) as -> by congruence.
    rewrite lookup_insert_eq. eauto.
Qed.

Lemma parse_lines_ok (lines : list string) :
  forall w : frame,
    host_is_open w ->
    exists w',
      for_each lines parse_line w = (Ret tt, w') /\ host_is_open w' /\
      log w' = log w /\ fs w' = fs w.
Proof.
  induction lines as [|line lines IH]; intros w Hopen.
  - exists w. auto.
  - destruct (parse_line_ok line w Hopen) as (w1 & Hrun & Hopen1 & Hlog1 & Hfs1 & _).
    destruct (IH w1 Hopen1) as (w2 & Hrun2 & Hopen2 & Hlog2 & Hfs2).
    exists w2. cbn [for_each]. unfold bind. rewrite Hrun, Hrun2.
    repeat split; [exact Hopen2|congruence|congruence].
Qed.

Lemma for_lines_readable (w : frame) path lines (body : string -> M frame unit) :
  fs w path = TextFile lines None ->
  for_lines path body w = bind (for_each lines body) (fun _ => ret tt) w.
Proof.
  intros H. unfold for_lines, open_, bind, gets. rewrite H. reflexivity.
Qed.

Lemma parse_ssh_config_ok (path : string) (w w' : frame) :
  for_lines path parse_line (set_locals ∅ None w) = (Ret tt, w') ->
  parse_ssh_config (Some path) w = (Ret (hosts w'), w').
Proof.
  intros H.
  unfold parse_ssh_config, try_except, bind, ret, modify, gets.
  cbn -[for_lines]. rewrite H. reflexivity.
Qed.

(** X13.  A configuration file that can be read never makes
    [parse_ssh_config] fail, whatever it contains: every line is processed,
    the mapping built from all of them is returned, and nothing is logged. *)
Theorem readable_config_never_fails (w : frame) (path : string) (lines : list string) :
  fs w path = TextFile lines None ->
  exists cfg w',
    parse_ssh_config (Some path) w = (Ret cfg, w') /\
    log w' = log w /\
    for_each lines parse_line (set_locals ∅ None w) = (Ret tt, w') /\
    cfg = hosts w'.
Proof.
  intros Hfs.
  assert (Hopen : host_is_open (set_locals ∅ None w)) by (intros h [=]).
  destruct (parse_lines_ok lines _ Hopen) as (w' & Hrun & _ & Hlog & _).
  exists (hosts w'), w'.
  split; [|split; [exact Hlog|split; [exact Hrun|reflexivity]]].
  apply parse_ssh_config_ok.
  rewrite (for_lines_readable (set_locals ∅ None w) path lines parse_line Hfs).
  unfold bind. rewrite Hrun. reflexivity.
Qed.

(** X13 at work on the sample configuration. *)
Lemma readable_config_never_fails_witness :
  exists cfg w',
    parse_ssh_config (Some "/home/user/.ssh/config") demo_machine = (Ret cfg, w') /\
    log w' = log demo_machine /\
    for_each demo_config parse_line (set_locals ∅ None demo_machine) = (Ret tt, w') /\
    cfg = hosts w'.
Proof.
  apply (readable_config_never_fails demo_machine "/home/user/.ssh/config" demo_config).
  reflexivity.
Defined.


Lemma no_blank_not_host (l : string) :
  no_blank l = true ->
  PyStr.startswith (PyStr.lower l) "host " = false.
Proof.
  unfold PyStr.startswith. intros Hnb.
  destruct l as [|c1 [|c2 [|c3 [|c4 [|c5 l5]]]]];
    cbn [PyStr.lower String.prefix];
    repeat match goal with
           | |- context [ascii_dec ?a ?b] =>
               destruct (ascii_dec a b); cbn [PyStr.lower String.prefix]
           end; try reflexivity.
  exfalso.
  match goal with
  | E : " "%char = PyStr.lower_char c5 |- _ =>
      symmetry in E; apply lower_char_blank in E; subst c5
  end.
  cbn [no_blank] in Hnb.
  apply andb_true_iff in Hnb as [_ Hnb].
  apply andb_true_iff in Hnb as [_ Hnb].
  apply andb_true_iff in Hnb as [_ Hnb].
  apply andb_true_iff in Hnb as [_ Hnb].
  apply andb_true_iff in Hnb as [Hnb _].
  vm_compute in Hnb. discriminate.
Qed.

Lemma no_blank_re_split (l : string) :
  no_blank l = true -> PyStr.re_split_once l = [l].
Proof.
  induction l as [|c l IH]; [reflexivity|].
  cbn [no_blank PyStr.re_split_once]. intros H.
  apply andb_true_iff in H as [Hc Hl].
  apply negb_true_iff in Hc. rewrite Hc, (IH Hl). reflexivity.
Qed.

Lemma no_blank_contains (l : string) :
  no_blank l = true -> PyStr.contains " " l = false.
Proof.
  induction l as [|c l IH]; [reflexivity|].
  cbn [no_blank PyStr.contains]. intros H.
  apply andb_true_iff in H as [Hc Hl].
  rewrite (IH Hl), orb_false_r.
  destruct (Ascii.eqb_spec " " c) as [<-|]; [|reflexivity].
  vm_compute in Hc. discriminate.
Qed.

(** X14.  The two parsers differ on an attribute line that has a key and no
    value: under a host, the parser of [get_host.py] raises [ValueError] on
    it, where the parser of [opensilex_client.py] passes over it. *)
Theorem attribute_without_value (w : frame) (line h : string) :
  current_host w = Some h ->
  h <> EmptyString ->
  word (PyStr.strip line) ->
  PyStr.startswith (PyStr.strip line) "#" = false ->
  GetHost.parse_line line w = (Exc ValueError, w) /\
  parse_line line w = (Ret tt, w).
Proof.
  intros Hcur Hh [Hne Hnb] Hsharp.
  assert (He : PyStr.is_empty (PyStr.strip line) = false)
    by (destruct (PyStr.strip line); [contradiction|reflexivity]).
  assert (Hh' : PyStr.is_empty h = false)
    by (destruct h; [contradiction|reflexivity]).
  split.
  - unfold GetHost.parse_line.
    rewrite He, Hsharp, (no_blank_not_host _ Hnb). cbn [orb].
    unfold bind, gets. rewrite Hcur, Hh'. cbn [negb].
    rewrite (no_blank_re_split _ Hnb). reflexivity.
  - unfold parse_line.
    rewrite He, Hsharp, (no_blank_not_host _ Hnb). cbn [orb].
    unfold bind, gets. rewrite Hcur. cbn [is_set].
    rewrite (no_blank_contains _ Hnb), andb_false_r. reflexivity.
Qed.

(** X14 at work on [ForwardAgent] written without its value. *)
Lemma attribute_without_value_witness :
  GetHost.parse_line "    ForwardAgent"
      (set_locals {[ "demo" := ∅ ]} (Some "demo") bare_machine)
    = (Exc ValueError, set_locals {[ "demo" := ∅ ]} (Some "demo") bare_machine) /\
  parse_line "    ForwardAgent"
      (set_locals {[ "demo" := ∅ ]} (Some "demo") bare_machine)
    = (Ret tt, set_locals {[ "demo" := ∅ ]} (Some "demo") bare_machine).
Proof.
  apply (attribute_without_value
           (set_locals {[ "demo" := ∅ ]} (Some "demo") bare_machine)
           "    ForwardAgent" "demo").
  - reflexivity.
  - discriminate.
  - split; [discriminate|reflexivity].
  - reflexivity.
Defined.


(** *** What the loop keeps *)

Lemma for_each_inv {A} (P : frame -> Prop) (body : A -> M frame unit) :
  (forall x w r w', body x w = (r, w') -> P w -> P w') ->
  forall l w r w', for_each l body w = (r, w') -> P w -> P w'.
Proof.
  intros Hbody. induction l as [|x l IH]; intros w r w'.
  - cbn. intros [= _ <-]. auto.
  - cbn [for_each]. unfold bind.
    destruct (body x w) as [[[]|e|] w1] eqn:Hx.
    + intros Hrest Hw. exact (IH _ _ _ Hrest (Hbody _ _ _ _ Hx Hw)).
    + intros [= _ <-] Hw. exact (Hbody _ _ _ _ Hx Hw).
    + intros [= _ <-] Hw. exact (Hbody _ _ _ _ Hx Hw).
Qed.

Lemma for_lines_inv (P : frame -> Prop) (body : string -> M frame unit) path :
  (forall x w r w', body x w = (r, w') -> P w -> P w') ->
  forall w r w', for_lines path body w = (r, w') -> P w -> P w'.
Proof.
  intros Hbody w r w'. unfold for_lines, open_, bind, gets.
  destruct (fs w path) as [|what|lines failure|what]; cbn.
  - intros [= _ <-]. auto.
  - intros [= _ <-]. auto.
  - destruct (for_each lines body w) as [[[]|e|] w1] eqn:Hl.
    + destruct failure; cbn; intros [= _ <-] Hw;
        exact (for_each_inv P body Hbody _ _ _ _ Hl Hw).
    + intros [= _ <-] Hw. exact (for_each_inv P body Hbody _ _ _ _ Hl Hw).
    + intros [= _ <-] Hw. exact (for_each_inv P body Hbody _ _ _ _ Hl Hw).
  - intros [= _ <-]. auto.
Qed.

Lemma lowercase_keys_empty : lowercase_keys ∅.
Proof. intros h entry k v H. rewrite lookup_empty in H. discriminate. Qed.

Lemma lowercase_keys_open (cfg : gmap string (gmap string string)) (h : string) :
  lowercase_keys cfg -> lowercase_keys (<[h := ∅]> cfg).
Proof.
  intros Hk h' entry k v Hh Hentry.
  destruct (decide (h = h')) as [<-|Hne].
  - rewrite lookup_insert_eq in Hh. injection Hh as <-.
    rewrite lookup_empty in Hentry. discriminate.
  - rewrite lookup_insert_ne in Hh by exact Hne. exact (Hk _ _ _ _ Hh Hentry).
Qed.

Lemma lowercase_keys_set (cfg : gmap string (gmap string string))
    (h key v : string) (entry : gmap string string) :
  lowercase_keys cfg ->
  cfg !! h = Some entry ->
  lowercase_keys (<[h := <[PyStr.lower key := v]> entry]> cfg).
Proof.
  intros Hk Hh h' entry' k v' Hh' Hentry.
  destruct (decide (h = h')) as [<-|Hne].
  - rewrite lookup_insert_eq in Hh'. injection Hh' as <-.
    destruct (decide (PyStr.lower key = k)) as [<-|Hnk].
    + apply lower_idem.
    + rewrite lookup_insert_ne in Hentry by exact Hnk.
      exact (Hk _ _ _ _ Hh Hentry).
  - rewrite lookup_insert_ne in Hh' by exact Hne. exact (Hk _ _ _ _ Hh' Hentry).
Qed.

Lemma set_attribute_keys (h key v : string) (w : frame) r w' :
  set_attribute h (PyStr.lower key) v w = (r, w') ->
  lowercase_keys (hosts w) -> lowercase_keys (hosts w').
Proof.
  unfold set_attribute, bind, gets.
  destruct (hosts w !! h) as [entry|] eqn:Hh; cbn.
  - intros [= _ <-] Hk. cbn. apply lowercase_keys_set; assumption.
  - intros [= _ <-] Hk. exact Hk.
Qed.

Lemma open_entry_keys (h : string) (w : frame) r w' :
  open_entry h w = (r, w') ->
  lowercase_keys (hosts w) -> lowercase_keys (hosts w').
Proof.
  unfold open_entry, bind, gets. cbn.
  intros [= _ <-] Hk. cbn. apply lowercase_keys_open, Hk.
Qed.

Lemma parse_line_keys (line : string) (w : frame) r w' :
  parse_line line w = (r, w') ->
  lowercase_keys (hosts w) -> lowercase_keys (hosts w').
Proof.
  unfold parse_line.
  destruct (PyStr.is_empty (PyStr.strip line) || PyStr.startswith (PyStr.strip line) "#");
    [intros [= _ <-]; auto|].
  destruct (PyStr.startswith (PyStr.lower (PyStr.strip line)) "host ").
  - unfold bind at 1.
    destruct (second (PyStr.split (PyStr.strip line))) as [e|h]; cbn [lift].
    + intros [= _ <-]. auto.
    + cbn [ret]. apply open_entry_keys.
  - unfold bind at 1, gets.
    destruct (current_host w) as [h|]; cbn [is_set andb];
      [|intros [= _ <-]; auto].
    destruct (negb (PyStr.is_empty h) && PyStr.contains " " (PyStr.strip line));
      [|intros [= _ <-]; auto].
    destruct (PyStr.split_once (PyStr.strip line)) as [|key [|value [|? ?]]];
      try (intros [= _ <-]; auto).
    apply set_attribute_keys.
Qed.

Lemma get_host_parse_line_keys (line : string) (w : frame) r w' :
  GetHost.parse_line line w = (r, w') ->
  lowercase_keys (hosts w) -> lowercase_keys (hosts w').
Proof.
  unfold GetHost.parse_line.
  destruct (PyStr.is_empty (PyStr.strip line) || PyStr.startswith (PyStr.strip line) "#");
    [intros [= _ <-]; auto|].
  destruct (PyStr.startswith (PyStr.lower (PyStr.strip line)) "host ").
  - unfold bind at 1.
    destruct (second (PyStr.split (PyStr.strip line))) as [e|h]; cbn [lift].
    + intros [= _ <-]. auto.
    + cbn [ret]. apply open_entry_keys.
  - unfold bind at 1, gets.
    destruct (current_host w) as [h|]; [|intros [= _ <-]; auto].
    destruct (negb (PyStr.is_empty h)); [|intros [= _ <-]; auto].
    destruct (PyStr.re_split_once (PyStr.strip line)) as [|key [|value [|? ?]]];
      try (intros [= _ <-]; auto).
    apply set_attribute_keys.
Qed.

Lemma default_path_state (w : frame) :
  (exists p, default_path w = (Ret p, w)) \/
  (exists e, default_path w = (Exc e, w)).
Proof.
  destruct (HostFacts.default_path_cases w) as [H|(what & _ & H)]; eauto.
Qed.

(** X15.  Attribute keys are stored in lower case: whatever the file holds,
    every key of every entry of the mapping either parser builds is its own
    lower-case form, so that [HostName], [hostname] and [HOSTNAME] name the
    same attribute. *)
Theorem keys_are_lower_case :
  (forall config_path (w : frame) cfg w',
     parse_ssh_config config_path w = (Ret cfg, w') -> lowercase_keys cfg) /\
  (forall config_file (w : frame) r w',
     GetHost.__init__ config_file w = (r, w') -> lowercase_keys (hosts w')).
Proof.
  split.
  - intros config_path w cfg w'.
    assert (Hpath :
      (exists p,
         (match config_path with Some p => ret p | None => default_path end) w
           = (Ret p, w)) \/
      (exists e,
         (match config_path with Some p => ret p | None => default_path end) w
           = (Exc e, w))).
    { destruct config_path as [p|];
        [left; exists p; reflexivity|apply default_path_state]. }
    destruct Hpath as [[p Hp]|[e Hp]];
      [|unfold parse_ssh_config; unfold bind at 1; rewrite Hp; discriminate].
    unfold parse_ssh_config. unfold bind at 1. rewrite Hp.
    unfold bind at 1. unfold modify at 1.
    unfold bind at 1. unfold try_except.
    destruct (for_lines p parse_line (set_locals ∅ None w)) as [[[]|e|] w1] eqn:Hl.
    + cbn. intros [= <- <-].
      apply (for_lines_inv (fun w => lowercase_keys (hosts w)) parse_line p
               parse_line_keys _ _ _ Hl).
      apply lowercase_keys_empty.
    + assert (Hk : lowercase_keys (hosts w1)).
      { apply (for_lines_inv (fun w => lowercase_keys (hosts w)) parse_line p
                 parse_line_keys _ _ _ Hl).
        apply lowercase_keys_empty. }
      destruct e; cbn; intros [= <- <-]; exact Hk.
    + discriminate.
  - intros config_file w r w'.
    assert (Hpath : exists p, GetHost.expanduser config_file w = (Ret p, w)).
    { unfold GetHost.expanduser.
      destruct config_file as [|c [|c' rest]]; try (eexists; reflexivity);
        each_char c; try (eexists; reflexivity);
        each_char c'; eexists; reflexivity. }
    destruct Hpath as [p Hp].
    unfold GetHost.__init__. unfold bind at 1. rewrite Hp.
    unfold bind at 1. unfold modify at 1. unfold GetHost._parse.
    intros Hl.
    apply (for_lines_inv (fun w => lowercase_keys (hosts w)) GetHost.parse_line p
             get_host_parse_line_keys _ _ _ Hl).
    apply lowercase_keys_empty.
Qed.


(** *** A host block read back *)

Lemma word_nonempty (v : string) : word v -> PyStr.is_empty v = false.
Proof. intros [Hne _]. destruct v; [contradiction|reflexivity]. Qed.

Lemma word_lstrip (v : string) : word v -> PyStr.lstrip v = v.
Proof.
  intros [Hne Hnb]. destruct v as [|c v]; [contradiction|].
  cbn [no_blank] in Hnb. apply andb_true_iff in Hnb as [Hc _].
  apply negb_true_iff in Hc. cbn [PyStr.lstrip]. rewrite Hc. reflexivity.
Qed.

Lemma no_blank_rstrip (v : string) : no_blank v = true -> PyStr.rstrip v = v.
Proof.
  induction v as [|c v IH]; [reflexivity|].
  cbn [no_blank PyStr.rstrip]. intros H.
  apply andb_true_iff in H as [Hc Hv].
  apply negb_true_iff in Hc. rewrite Hc, (IH Hv). reflexivity.
Qed.

Lemma is_empty_app (s v : string) :
  PyStr.is_empty v = false -> PyStr.is_empty (s +:+ v) = false.
Proof. destruct s; auto. Qed.

Lemma rstrip_app_word (s v : string) :
  word v -> PyStr.rstrip (s +:+ v) = s +:+ v.
Proof.
  intros Hw. induction s as [|c s IH].
  - apply no_blank_rstrip, Hw.
  - change (String c s +:+ v) with (String c (s +:+ v)).
    cbn [PyStr.rstrip]. rewrite IH.
    rewrite (is_empty_app s v (word_nonempty v Hw)), andb_false_r. reflexivity.
Qed.

Lemma word_strip (v : string) : word v -> PyStr.strip v = v.
Proof.
  intros Hw. unfold PyStr.strip. rewrite (word_lstrip v Hw).
  apply no_blank_rstrip, Hw.
Qed.

Lemma append_snoc (cur : string) (c : ascii) (v : string) :
  (cur +:+ String c EmptyString) +:+ v = cur +:+ String c v.
Proof.
  induction cur as [|a cur IH]; [reflexivity|].
  change (String a ((cur +:+ String c EmptyString) +:+ v) =
          String a (cur +:+ String c v)).
  f_equal. exact IH.
Qed.

Lemma append_empty (cur : string) : cur +:+ EmptyString = cur.
Proof.
  induction cur as [|a cur IH]; [reflexivity|].
  change (String a (cur +:+ EmptyString) = String a cur).
  f_equal. exact IH.
Qed.

Lemma split_from_word (v : string) :
  no_blank v = true ->
  forall cur,
    PyStr.split_from cur v =
      if PyStr.is_empty (cur +:+ v) then [] else [cur +:+ v].
Proof.
  induction v as [|c v IH]; intros Hnb cur.
  - rewrite append_empty. reflexivity.
  - cbn [no_blank] in Hnb. apply andb_true_iff in Hnb as [Hc Hv].
    apply negb_true_iff in Hc. cbn [PyStr.split_from]. rewrite Hc.
    rewrite (IH Hv), append_snoc. reflexivity.
Qed.

Lemma append_cons (c : ascii) (s t : string) :
  String c s +:+ t = String c (s +:+ t).
Proof. reflexivity. Qed.

Lemma append_nil (t : string) : EmptyString +:+ t = t.
Proof. reflexivity. Qed.

(** Comparing the first characters of a line with [host ]. *)
Ltac compare_chars :=
  unfold PyStr.startswith;
  rewrite ?append_cons, ?append_nil;
  cbn [PyStr.lower String.prefix];
  repeat match goal with
         | |- context [ascii_dec ?a ?b] =>
             let e := fresh "e" in
             destruct (ascii_dec a b) as [e|e];
             [try (vm_compute in e; discriminate e)
             |try (exfalso; apply e; vm_compute; reflexivity)];
             cbn [PyStr.lower String.prefix]
         end;
  try reflexivity;
  try match goal with
      | |- String.prefix EmptyString ?x = true => destruct x; reflexivity
      end.

Lemma host_line_is_host (alias : string) :
  PyStr.startswith (PyStr.lower ("Host " +:+ alias)) "host " = true.
Proof. compare_chars. Qed.

Lemma hostname_line_not_host (ip : string) :
  PyStr.startswith (PyStr.lower ("HostName " +:+ ip)) "host " = false.
Proof. compare_chars. Qed.

Lemma port_line_not_host (port : string) :
  PyStr.startswith (PyStr.lower ("Port " +:+ port)) "host " = false.
Proof. compare_chars. Qed.

(** A host line with a one-word alias opens the entry of that alias. *)
Lemma parse_line_host (alias : string) (w : frame) :
  word alias ->
  parse_line ("Host " +:+ alias) w = open_entry alias w.
Proof.
  intros Hw.
  assert (Hstrip : PyStr.strip ("Host " +:+ alias) = "Host " +:+ alias).
  { unfold PyStr.strip.
    change (PyStr.lstrip ("Host " +:+ alias)) with ("Host " +:+ alias).
    apply rstrip_app_word, Hw. }
  unfold parse_line. rewrite Hstrip.
  change (PyStr.is_empty ("Host " +:+ alias) ||
          PyStr.startswith ("Host " +:+ alias) "#") with false.
  rewrite host_line_is_host. cbn match.
  assert (Hsplit : PyStr.split ("Host " +:+ alias) = ["Host"; alias]).
  { unfold PyStr.split.
    change (PyStr.split_from EmptyString ("Host " +:+ alias))
      with ("Host" :: PyStr.split_from EmptyString alias).
    rewrite (split_from_word alias (proj2 Hw)), append_nil.
    rewrite (word_nonempty alias Hw). reflexivity. }
  rewrite Hsplit. reflexivity.
Qed.

Lemma lstrip_app_word (k rest : string) :
  word k -> PyStr.lstrip (k +:+ rest) = k +:+ rest.
Proof.
  intros [Hne Hnb]. destruct k as [|c k]; [contradiction|].
  cbn [no_blank] in Hnb. apply andb_true_iff in Hnb as [Hc _].
  apply negb_true_iff in Hc.
  rewrite append_cons. cbn [PyStr.lstrip]. rewrite Hc. reflexivity.
Qed.

Lemma break_ws_word (k rest : string) :
  no_blank k = true ->
  PyStr.break_ws (k +:+ String " " rest) = (k, String " " rest).
Proof.
  induction k as [|c k IH]; intros Hnb.
  - reflexivity.
  - cbn [no_blank] in Hnb. apply andb_true_iff in Hnb as [Hc Hk].
    apply negb_true_iff in Hc.
    rewrite append_cons. cbn [PyStr.break_ws]. rewrite Hc, (IH Hk). reflexivity.
Qed.

Lemma contains_blank_app (k rest : string) :
  PyStr.contains " " (k +:+ String " " rest) = true.
Proof.
  induction k as [|c k IH]; [reflexivity|].
  rewrite append_cons. cbn [PyStr.contains]. rewrite IH. apply orb_true_r.
Qed.

Lemma is_empty_app_word (k rest : string) :
  word k -> PyStr.is_empty (k +:+ rest) = false.
Proof. intros [Hne _]. destruct k; [contradiction|reflexivity]. Qed.

Lemma prefix_empty (s : string) : String.prefix EmptyString s = true.
Proof. destruct s; reflexivity. Qed.

Lemma not_comment_app (k rest : string) :
  k <> EmptyString ->
  PyStr.startswith k "#" = false -> PyStr.startswith (k +:+ rest) "#" = false.
Proof.
  unfold PyStr.startswith. intros Hne. destruct k as [|c k]; [contradiction|].
  rewrite append_cons. cbn [String.prefix].
  destruct (ascii_dec "#" c); [|reflexivity].
  rewrite !prefix_empty. discriminate.
Qed.

(** [key value] cut at the first run of blanks. *)
Lemma split_once_pair (key value : string) :
  word key -> word value ->
  PyStr.split_once (key +:+ String " " value) = [key; value].
Proof.
  intros Hk Hv. unfold PyStr.split_once.
  rewrite (lstrip_app_word key _ Hk), (break_ws_word key value (proj2 Hk)).
  rewrite (word_nonempty key Hk).
  change (PyStr.lstrip (String " " value)) with (PyStr.lstrip value).
  rewrite (word_lstrip value Hv), (word_nonempty value Hv). reflexivity.
Qed.

Lemma re_split_once_pair (key value : string) :
  no_blank key = true -> word value ->
  PyStr.re_split_once (key +:+ String " " value) = [key; value].
Proof.
  intros Hk Hv. induction key as [|c k IH].
  - rewrite append_nil.
    change (PyStr.re_split_once (String " " value))
      with [EmptyString; PyStr.lstrip value].
    rewrite (word_lstrip value Hv). reflexivity.
  - cbn [no_blank] in Hk. apply andb_true_iff in Hk as [Hc Hk].
    apply negb_true_iff in Hc.
    rewrite append_cons. cbn [PyStr.re_split_once]. rewrite Hc, (IH Hk).
    reflexivity.
Qed.

Lemma strip_indented (key value : string) :
  word key -> word value ->
  PyStr.strip ("    " +:+ key +:+ String " " value) = key +:+ String " " value.
Proof.
  intros Hk Hv. unfold PyStr.strip.
  change (PyStr.lstrip ("    " +:+ key +:+ String " " value))
    with (PyStr.lstrip (key +:+ String " " value)).
  rewrite (lstrip_app_word key _ Hk).
  rewrite <- (append_snoc key " " value).
  apply rstrip_app_word, Hv.
Qed.

(** An indented [key value] line under a host sets that attribute of the
    host, the key in lower case: so reads the parser of
    [opensilex_client.py], and so the parser of [get_host.py]. *)
Lemma parse_line_attribute (key value h : string) (w : frame) :
  word key -> word value -> h <> EmptyString ->
  PyStr.startswith key "#" = false ->
  PyStr.startswith (PyStr.lower (key +:+ String " " value)) "host " = false ->
  current_host w = Some h ->
  parse_line ("    " +:+ key +:+ String " " value) w
    = set_attribute h (PyStr.lower key) value w /\
  GetHost.parse_line ("    " +:+ key +:+ String " " value) w
    = set_attribute h (PyStr.lower key) value w.
Proof.
  intros Hk Hv Hh Hsharp Hhost Hcur.
  assert (Hh' : PyStr.is_empty h = false)
    by (destruct h; [contradiction|reflexivity]).
  unfold parse_line, GetHost.parse_line.
  rewrite (strip_indented key value Hk Hv).
  rewrite (is_empty_app_word key _ Hk), (not_comment_app key _ (proj1 Hk) Hsharp).
  rewrite Hhost. cbn [orb]. cbv iota.
  split; unfold bind at 1; unfold gets; rewrite Hcur.
  - unfold is_set. rewrite Hh', contains_blank_app. cbn [negb andb]. cbv iota.
    rewrite (split_once_pair key value Hk Hv), (word_strip value Hv).
    reflexivity.
  - cbv iota. rewrite Hh'. cbn [negb]. cbv iota.
    rewrite (re_split_once_pair key value (proj2 Hk) Hv). reflexivity.
Qed.

Lemma get_host_parse_line_host (alias : string) (w : frame) :
  word alias ->
  GetHost.parse_line ("Host " +:+ alias) w = open_entry alias w.
Proof.
  intros Hw. rewrite <- (parse_line_host alias w Hw).
  unfold GetHost.parse_line, parse_line.
  assert (Hstrip : PyStr.strip ("Host " +:+ alias) = "Host " +:+ alias).
  { unfold PyStr.strip.
    change (PyStr.lstrip ("Host " +:+ alias)) with ("Host " +:+ alias).
    apply rstrip_app_word, Hw. }
  rewrite Hstrip.
  change (PyStr.is_empty ("Host " +:+ alias) ||
          PyStr.startswith ("Host " +:+ alias) "#") with false.
  rewrite host_line_is_host. reflexivity.
Qed.

Lemma set_attribute_run (h k v : string) (entry : gmap string string) (w : frame) :
  hosts w !! h = Some entry ->
  set_attribute h k v w =
    (Ret tt, set_locals (<[h := <[k := v]> entry]> (hosts w)) (current_host w) w).
Proof.
  intros H. unfold set_attribute, bind, gets, modify. rewrite H. reflexivity.
Qed.

(** The three lines of a host block, read by either loop body. *)
Lemma host_block_lines (body : string -> M frame unit) (alias ip port : string)
    (w : frame) :
  (forall a w, word a -> body ("Host " +:+ a) w = open_entry a w) ->
  (forall key value h w,
     word key -> word value -> h <> EmptyString ->
     PyStr.startswith key "#" = false ->
     PyStr.startswith (PyStr.lower (key +:+ String " " value)) "host " = false ->
     current_host w = Some h ->
     body ("    " +:+ key +:+ String " " value) w
       = set_attribute h (PyStr.lower key) value w) ->
  word alias -> word ip -> word port ->
  for_each (host_block alias ip port) body w =
    (Ret tt,
     set_locals (<[alias := block_entry ip port]> (hosts w)) (Some alias) w).
Proof.
  intros Hhost Hattr Ha Hi Hp.
  assert (Hne : alias <> EmptyString) by apply Ha.
  assert (Hname : word "HostName") by (split; [discriminate|reflexivity]).
  assert (Hport : word "Port") by (split; [discriminate|reflexivity]).
  assert (Hname_sharp : PyStr.startswith "HostName" "#" = false) by compare_chars.
  assert (Hport_sharp : PyStr.startswith "Port" "#" = false) by compare_chars.
  assert (Hname_host :
    PyStr.startswith (PyStr.lower ("HostName" +:+ String " " ip)) "host " = false)
    by compare_chars.
  assert (Hport_host :
    PyStr.startswith (PyStr.lower ("Port" +:+ String " " port)) "host " = false)
    by compare_chars.
  unfold host_block. cbn [for_each].
  unfold bind at 1. rewrite (Hhost alias w Ha).
  unfold open_entry at 1, bind at 1, gets, modify.
  set (w1 := set_locals (<[alias := ∅]> (hosts w)) (Some alias) w).
  unfold bind at 1.
  change ("    HostName " +:+ ip) with ("    " +:+ "HostName" +:+ String " " ip).
  rewrite (Hattr "HostName" ip alias w1 Hname Hi Hne Hname_sharp Hname_host eq_refl).
  rewrite (set_attribute_run alias _ ip ∅ w1) by apply lookup_insert_eq.
  set (w2 := set_locals _ (current_host w1) w1).
  unfold bind at 1.
  change ("    Port " +:+ port) with ("    " +:+ "Port" +:+ String " " port).
  rewrite (Hattr "Port" port alias w2 Hport Hp Hne Hport_sharp Hport_host eq_refl).
  rewrite (set_attribute_run alias _ port (<["hostname" := ip]> ∅) w2)
    by apply lookup_insert_eq.
  subst w2 w1. cbn [hosts current_host set_locals home os_name fs log].
  rewrite !insert_insert_eq. reflexivity.
Qed.

Lemma parse_host_block (alias ip port path : string) (w : frame) :
  word alias -> word ip -> word port ->
  fs w path = TextFile (host_block alias ip port) None ->
  parse_ssh_config (Some path) w =
    (Ret (<[alias := block_entry ip port]> ∅),
     set_locals (<[alias := block_entry ip port]> ∅) (Some alias) w).
Proof.
  intros Ha Hi Hp Hfs.
  set (w0 := set_locals ∅ None w).
  change (<[alias := block_entry ip port]> (∅ : gmap string (gmap string string)))
    with (hosts (set_locals (<[alias := block_entry ip port]> (hosts w0))
                   (Some alias) w0)) at 1.
  change (set_locals (<[alias := block_entry ip port]> ∅) (Some alias) w)
    with (set_locals (<[alias := block_entry ip port]> (hosts w0)) (Some alias) w0).
  apply (parse_ssh_config_ok path w).
  change (set_locals ∅ None w) with w0.
  rewrite (for_lines_readable w0 path _ parse_line Hfs).
  unfold bind.
  rewrite (host_block_lines parse_line alias ip port w0); try assumption.
  - reflexivity.
  - intros a w1 Hw. apply parse_line_host, Hw.
  - intros key value h w1 Hk Hv Hh Hs Hn Hc.
    apply (parse_line_attribute key value h w1 Hk Hv Hh Hs Hn Hc).
Qed.

Lemma get_host_parse_host_block (alias ip port path : string) (w : frame) :
  word alias -> word ip -> word port ->
  fs w path = TextFile (host_block alias ip port) None ->
  GetHost._parse path (set_locals ∅ None w) =
    (Ret tt, set_locals (<[alias := block_entry ip port]> ∅) (Some alias) w).
Proof.
  intros Ha Hi Hp Hfs.
  set (w0 := set_locals ∅ None w).
  unfold GetHost._parse.
  rewrite (for_lines_readable w0 path _ GetHost.parse_line Hfs).
  unfold bind.
  rewrite (host_block_lines GetHost.parse_line alias ip port w0); try assumption.
  - reflexivity.
  - intros a w1 Hw. apply get_host_parse_line_host, Hw.
  - intros key value h w1 Hk Hv Hh Hs Hn Hc.
    apply (parse_line_attribute key value h w1 Hk Hv Hh Hs Hn Hc).
Qed.

Lemma get_host_ip_block (alias ip port : string) :
  get_host_ip alias (<[alias := block_entry ip port]> ∅) = Some ip.
Proof.
  unfold get_host_ip, block_entry.
  rewrite lookup_insert_eq.
  rewrite lookup_insert_ne by discriminate.
  rewrite lookup_insert_eq. reflexivity.
Qed.

(** X16.  A host block is read back: from a file that holds
    [Host alias], [HostName ip] and [Port port], one word each,
    [parse_ssh_config] returns the mapping whose only host is the alias, with
    [hostname] and [port] in lower case as its only attributes, and logs
    nothing; [get_host_ip] then gives the address; and the parser of
    [get_host.py] builds the same mapping from the same file. *)
Theorem host_block_read_back (alias ip port path : string) (w : frame) :
  word alias -> word ip -> word port ->
  fs w path = TextFile (host_block alias ip port) None ->
  exists w' w'',
    parse_ssh_config (Some path) w = (Ret {[ alias := block_entry ip port ]}, w') /\
    log w' = log w /\
    get_host_ip alias {[ alias := block_entry ip port ]} = Some ip /\
    GetHost._parse path (set_locals ∅ None w) = (Ret tt, w'') /\
    hosts w'' = {[ alias := block_entry ip port ]}.
Proof.
  intros Ha Hi Hp Hfs.
  rewrite <- !insert_empty.
  eexists _, _.
  split; [exact (parse_host_block alias ip port path w Ha Hi Hp Hfs)|].
  split; [reflexivity|].
  split; [apply get_host_ip_block|].
  split; [exact (get_host_parse_host_block alias ip port path w Ha Hi Hp Hfs)|].
  reflexivity.
Qed.

(** X16 on a block for the alias [vm]. *)
Lemma host_block_read_back_witness :
  exists w' w'',
    parse_ssh_config (Some "/home/user/.ssh/config")
        (machine_with (host_block "vm" "10.0.0.5" "2222"))
      = (Ret {[ "vm" := block_entry "10.0.0.5" "2222" ]}, w') /\
    log w' = log (machine_with (host_block "vm" "10.0.0.5" "2222")) /\
    get_host_ip "vm" {[ "vm" := block_entry "10.0.0.5" "2222" ]} = Some "10.0.0.5" /\
    GetHost._parse "/home/user/.ssh/config"
        (set_locals ∅ None (machine_with (host_block "vm" "10.0.0.5" "2222")))
      = (Ret tt, w'') /\
    hosts w'' = {[ "vm" := block_entry "10.0.0.5" "2222" ]}.
Proof.
  apply (host_block_read_back "vm" "10.0.0.5" "2222" "/home/user/.ssh/config"
           (machine_with (host_block "vm" "10.0.0.5" "2222"))).
  - split; [discriminate|reflexivity].
  - split; [discriminate|reflexivity].
  - split; [discriminate|reflexivity].
  - reflexivity.
Defined.

End ParserFacts.

(** ** Constructing a client *)

Module BootFacts.
Import HostResolver Boot.

(** *** Trailing slashes *)

Lemma rstrip_slash_clean (s : string) : ends_with_slash (rstrip_slash s) = false.
Proof.
  induction s as [|c s IH]; [reflexivity|].
  cbn [rstrip_slash].
  destruct (rstrip_slash s) as [|c' r] eqn:Hr.
  - cbn [PyStr.is_empty]. rewrite andb_true_r.
    destruct (Ascii.eqb c "/") eqn:Hc; [reflexivity|].
    cbn [ends_with_slash]. exact Hc.
  - cbn [PyStr.is_empty]. rewrite andb_false_r. exact IH.
Qed.

Lemma rstrip_slash_suffix (s : string) :
  exists n, s = rstrip_slash s +:+ slashes n.
Proof.
  induction s as [|c s [n IH]]; [exists 0%nat; reflexivity|].
  cbn [rstrip_slash].
  destruct (rstrip_slash s) as [|c' r] eqn:Hr.
  - cbn [PyStr.is_empty]. rewrite andb_true_r.
    destruct (Ascii.eqb_spec c "/") as [->|Hc].
    + exists (S n). rewrite IH. reflexivity.
    + exists n. rewrite IH at 1. reflexivity.
  - cbn [PyStr.is_empty]. rewrite andb_false_r.
    exists n. rewrite IH at 1. reflexivity.
Qed.

Lemma rstrip_slash_app (s t : string) :
  PyStr.is_empty t = false -> rstrip_slash t = t ->
  rstrip_slash (s +:+ t) = s +:+ t.
Proof.
  intros Hne Ht. induction s as [|c s IH]; [exact Ht|].
  change (String c s +:+ t) with (String c (s +:+ t)).
  cbn [rstrip_slash]. rewrite IH.
  destruct (s +:+ t) eqn:E.
  - destruct s as [|a s'].
    + change (t = EmptyString) in E. subst t. discriminate Hne.
    + change (String a (s' +:+ t) = EmptyString) in E. discriminate E.
  - cbn [PyStr.is_empty]. rewrite andb_false_r. reflexivity.
Qed.

Lemma rstrip_slash_vm_url (ip : string) :
  rstrip_slash ("http://" +:+ ip +:+ ":28081/rest") = "http://" +:+ ip +:+ ":28081/rest".
Proof.
  apply rstrip_slash_app.
  - destruct ip; reflexivity.
  - apply rstrip_slash_app; reflexivity.
Qed.

(** *** The configuration is always read to the end *)

Lemma for_lines_settles (path : string) (w : frame) :
  host_is_open w ->
  exists r w', for_lines path parse_line w = (r, w') /\ r <> OutOfFuel.
Proof.
  intros Hopen. unfold for_lines, open_, bind, gets.
  destruct (fs w path) as [|what|lines failure|what]; cbn.
  - eexists _, _. split; [reflexivity|discriminate].
  - eexists _, _. split; [reflexivity|discriminate].
  - destruct (ParserFacts.parse_lines_ok lines w Hopen) as (w1 & Hrun & _).
    rewrite Hrun. destruct failure as [e|]; cbn;
      (eexists _, _; split; [reflexivity|discriminate]).
  - eexists _, _. split; [reflexivity|discriminate].
Qed.

Lemma parse_ssh_config_returns (path : string) (w : frame) :
  exists cfg w', parse_ssh_config (Some path) w = (Ret cfg, w').
Proof.
  unfold parse_ssh_config. unfold bind at 1. unfold ret at 1.
  unfold bind at 1. unfold modify at 1.
  unfold bind at 1. unfold try_except.
  assert (Hopen : host_is_open (set_locals ∅ None w)) by (intros h [=]).
  destruct (for_lines_settles path _ Hopen) as (r & w1 & Hrun & Hr).
  rewrite Hrun. destruct r as [[]|e|]; [| |contradiction].
  - cbn. eauto.
  - destruct e; cbn; eauto.
Qed.

(** Without a path: the exception of the test before the [try], or a
    mapping. *)
Lemma parse_default_outcome (w : frame) :
  (exists cfg w', parse_ssh_config None w = (Ret cfg, w')) \/
  (exists what,
     fs w (home w +:+ "/.ssh/config") = Unreachable what /\
     parse_ssh_config None w = (Exc (OSError what), w)).
Proof.
  destruct (HostFacts.default_path_cases w) as [[p Hp]|(what & Hfs & Hp)].
  - left. rewrite (HostFacts.parse_default_as_explicit w p Hp).
    apply parse_ssh_config_returns.
  - right. exists what. split; [exact Hfs|].
    exact (HostFacts.parse_default_raises w _ Hp).
Qed.

(** *** From the configuration to the base URL *)

Lemma init_after_lookup (o : option string) (b b1 : boot) (ssh_host : option string)
    (u p : string) (net : Client.remote) :
  _get_base_url_from_ssh ssh_host b = (Ret o, b1) ->
  exists b',
    __init__ None u p ssh_host true net b =
      (Ret (Client.State
              (rstrip_slash (match o with Some url => url | None => default_url end))
              u p JNull {[ "Content-Type" := "application/json" ]} net [] []), b') /\
    world b' = world b1 /\
    notes b' =
      notes b1 ++
      (match o with
       | Some _ => []
       | None => [(Client.INFO, UsingDefaultURL default_url)]
       end) ++
      [(Client.INFO,
        ClientInitialized
          (rstrip_slash (match o with Some url => url | None => default_url end)))].
Proof.
  intros H. unfold __init__. unfold bind at 1. rewrite H.
  destruct o as [url|]; cbn.
  - eexists. split; [reflexivity|]. split; reflexivity.
  - eexists. split; [reflexivity|]. split; [reflexivity|].
    cbn. rewrite <- app_assoc. reflexivity.
Qed.

Lemma get_base_url_returns (ssh_host : option string) (b : boot)
    (cfg : gmap string (gmap string string)) (w' : frame) :
  parse_ssh_config None (world b) = (Ret cfg, w') ->
  exists o b1, _get_base_url_from_ssh ssh_host b = (Ret o, b1) /\ world b1 = w'.
Proof.
  intros Hparse.
  unfold _get_base_url_from_ssh. unfold bind at 1. unfold on_world at 1.
  rewrite Hparse.
  destruct ssh_host as [h|].
  - cbn. destruct (str_truthy h && has_host cfg h).
    + destruct (get_host_ip h cfg) as [ip|].
      * destruct (str_truthy ip); [cbn; eauto|].
        destruct (bool_decide (cfg = ∅)); cbn; eauto.
      * destruct (bool_decide (cfg = ∅)); cbn; eauto.
    + destruct (bool_decide (cfg = ∅)); cbn; eauto.
  - destruct (find (has_host cfg) common_hosts) as [h|]; cbn.
    + destruct (str_truthy h && has_host cfg h).
      * destruct (get_host_ip h cfg) as [ip|].
        -- destruct (str_truthy ip); [cbn; eauto|].
           destruct (bool_decide (cfg = ∅)); cbn; eauto.
        -- destruct (bool_decide (cfg = ∅)); cbn; eauto.
      * destruct (bool_decide (cfg = ∅)); cbn; eauto.
    + destruct (bool_decide (cfg = ∅)); cbn; eauto.
Qed.

(** The exception of the test before the [try] goes through
    [_get_base_url_from_ssh] and through the constructor. *)
Lemma init_raises (u p : string) (ssh_host : option string) (net : Client.remote)
    (b : boot) (e : exn) :
  parse_ssh_config None (world b) = (Exc e, world b) ->
  __init__ None u p ssh_host true net b = (Exc e, b).
Proof.
  intros Hparse. destruct b as [w n]. cbn [world] in Hparse.
  unfold __init__. unfold bind at 1.
  unfold _get_base_url_from_ssh. unfold bind at 1. unfold on_world at 1.
  cbn [world notes]. rewrite Hparse. reflexivity.
Qed.

Lemma init_explicit (url u p : string) (ssh_host : option string)
    (use_ssh_config : bool) (net : Client.remote) (b : boot) :
  __init__ (Some url) u p ssh_host use_ssh_config net b =
    (Ret (Client.State (rstrip_slash url) u p JNull
            {[ "Content-Type" := "application/json" ]} net [] []),
     Boot (world b)
          (notes b ++ [(Client.INFO, ClientInitialized (rstrip_slash url))])).
Proof. reflexivity. Qed.

Lemma init_without_ssh (u p : string) (ssh_host : option string)
    (net : Client.remote) (b : boot) :
  __init__ None u p ssh_host false net b =
    (Ret (Client.State default_url u p JNull
            {[ "Content-Type" := "application/json" ]} net [] []),
     Boot (world b)
          ((notes b ++ [(Client.INFO, UsingDefaultURL default_url)])
             ++ [(Client.INFO, ClientInitialized default_url)])).
Proof. reflexivity. Qed.

(** X17.  On a machine whose home directory is known, constructing a client
    fails in one case only.  When no base URL
    is given, the SSH configuration is to be consulted and the test
    [exists()] on [~/.ssh/config] itself fails (a [~/.ssh] that may not be
    searched), that exception leaves the constructor, which has logged
    nothing.  In every other case the constructor returns, whatever the
    arguments and whatever the configuration file holds or fails to hold: the
    client comes out without a token, with the content type as its only
    header, with the credentials it was given, nothing sent yet, and a base
    URL that does not end in a slash. *)
Theorem client_construction_outcome (base_url : option string) (u p : string)
    (ssh_host : option string) (use_ssh_config : bool) (net : Client.remote)
    (b : boot) :
  (forall what,
     base_url = None -> use_ssh_config = true ->
     fs (world b) (home (world b) +:+ "/.ssh/config") = Unreachable what ->
     __init__ base_url u p ssh_host use_ssh_config net b = (Exc (OSError what), b)) /\
  ((base_url <> None \/ use_ssh_config = false \/
    forall what, fs (world b) (home (world b) +:+ "/.ssh/config") <> Unreachable what) ->
   exists s b',
     __init__ base_url u p ssh_host use_ssh_config net b = (Ret s, b') /\
     Client.token s = JNull /\
     Client.headers s = {[ "Content-Type" := "application/json" ]} /\
     Client.username s = u /\ Client.password s = p /\
     Client.sent s = [] /\
     ends_with_slash (Client.base_url s) = false).
Proof.
  split.
  - intros what -> -> Hfs. apply init_raises.
    pose proof (HostFacts.default_path_resolved (world b)) as Hd.
    rewrite Hfs in Hd. exact (HostFacts.parse_default_raises _ _ Hd).
  - intros Hcase.
    destruct base_url as [url|]; [|destruct use_ssh_config].
    + eexists _, _. split; [apply init_explicit|]. cbn.
      repeat split. apply rstrip_slash_clean.
    + destruct (parse_default_outcome (world b))
        as [(cfg & w' & Hparse)|(what & Hfs & _)].
      * destruct (get_base_url_returns ssh_host b cfg w' Hparse)
          as (o & b1 & Hget & _).
        destruct (init_after_lookup o b b1 ssh_host u p net Hget)
          as (b' & Hinit & _).
        eexists _, _. split; [exact Hinit|]. cbn.
        repeat split. apply rstrip_slash_clean.
      * exfalso. destruct Hcase as [H|[H|H]];
          [exact (H eq_refl)|discriminate H|exact (H what Hfs)].
    + eexists _, _. split; [apply init_without_ssh|]. cbn.
      repeat split.
Qed.

(** X17 on a machine whose [~/.ssh] may not be searched: the default
    constructor raises, and a constructor given its URL returns. *)
Lemma client_construction_outcome_witness :
  __init__ None "admin@opensilex.org" "admin" None true (Client.scripted [])
      (fresh sealed_machine)
    = (Exc (OSError "Permission denied"), fresh sealed_machine) /\
  exists s b',
    __init__ (Some "http://localhost:28081/rest/") "admin@opensilex.org" "admin"
        None true (Client.scripted []) (fresh sealed_machine) = (Ret s, b') /\
    Client.token s = JNull /\
    Client.headers s = {[ "Content-Type" := "application/json" ]} /\
    Client.username s = "admin@opensilex.org" /\ Client.password s = "admin" /\
    Client.sent s = [] /\
    ends_with_slash (Client.base_url s) = false.
Proof.
  split.
  - apply (proj1 (client_construction_outcome None "admin@opensilex.org" "admin"
                    None true (Client.scripted []) (fresh sealed_machine))
             "Permission denied"); reflexivity.
  - apply (proj2 (client_construction_outcome
                    (Some "http://localhost:28081/rest/") "admin@opensilex.org"
                    "admin" None true (Client.scripted []) (fresh sealed_machine))).
    left. discriminate.
Defined.

(** X18.  A base URL given to the constructor is used as it is, less its
    trailing slashes and nothing else; the SSH configuration is not read and
    [ssh_host] plays no part. *)
Theorem explicit_url_is_trimmed (url u p : string) (ssh_host : option string)
    (use_ssh_config : bool) (net : Client.remote) (b : boot) :
  exists s n,
    __init__ (Some url) u p ssh_host use_ssh_config net b =
      (Ret s,
       Boot (world b)
            (notes b ++ [(Client.INFO, ClientInitialized (Client.base_url s))])) /\
    Client.base_url s = rstrip_slash url /\
    url = Client.base_url s +:+ slashes n /\
    ends_with_slash (Client.base_url s) = false.
Proof.
  destruct (rstrip_slash_suffix url) as [n Hn].
  exists (Client.State (rstrip_slash url) u p JNull
            {[ "Content-Type" := "application/json" ]} net [] []), n.
  split; [apply init_explicit|]. cbn.
  split; [reflexivity|]. split; [exact Hn|apply rstrip_slash_clean].
Qed.

Lemma get_base_url_found (b : boot) (alias ip : string)
    (cfg : gmap string (gmap string string)) (w' : frame) :
  parse_ssh_config None (world b) = (Ret cfg, w') ->
  alias <> EmptyString -> ip <> EmptyString ->
  get_host_ip alias cfg = Some ip ->
  _get_base_url_from_ssh (Some alias) b =
    (Ret (Some ("http://" +:+ ip +:+ ":28081/rest")),
     Boot w' (notes b ++ [(Client.INFO, FoundVMIP ip)])).
Proof.
  intros Hparse Ha Hi Hip.
  assert (Hhas : has_host cfg alias = true).
  { unfold has_host. unfold get_host_ip in Hip.
    destruct (cfg !! alias); [reflexivity|discriminate]. }
  assert (Ha' : str_truthy alias = true) by (destruct alias; [contradiction|reflexivity]).
  assert (Hi' : str_truthy ip = true) by (destruct ip; [contradiction|reflexivity]).
  unfold _get_base_url_from_ssh. unfold bind at 1. unfold on_world at 1.
  rewrite Hparse. cbn. rewrite Ha', Hhas, Hip, Hi'. reflexivity.
Qed.

(** X19.  When the SSH configuration gives the requested host an address,
    [from_ssh_config] points the client at [http://<address>:28081/rest]: the
    address is the host's [hostname] attribute (or [host], failing that) and
    the port is always 28081, whatever [Port] the configuration states.  Missing
    credentials are replaced by the default administrator's. *)
Theorem ssh_host_gives_port_28081 (b : boot) (alias ip : string)
    (cfg : gmap string (gmap string string)) (w' : frame)
    (username password : option string) (net : Client.remote) :
  parse_ssh_config None (world b) = (Ret cfg, w') ->
  alias <> EmptyString -> ip <> EmptyString ->
  get_host_ip alias cfg = Some ip ->
  exists s b',
    from_ssh_config (Some alias) username password net b = (Ret s, b') /\
    Client.base_url s = "http://" +:+ ip +:+ ":28081/rest" /\
    Client.username s = or_default username "admin@opensilex.org" /\
    Client.password s = or_default password "admin" /\
    notes b' = notes b ++ [(Client.INFO, FoundVMIP ip);
                           (Client.INFO, ClientInitialized (Client.base_url s))].
Proof.
  intros Hparse Ha Hi Hip.
  pose proof (get_base_url_found b alias ip cfg w' Hparse Ha Hi Hip) as Hget.
  destruct (init_after_lookup _ b _ (Some alias)
              (or_default username "admin@opensilex.org")
              (or_default password "admin") net Hget) as (b' & Hinit & _ & Hnotes).
  eexists _, b'. split; [exact Hinit|]. cbn [Client.base_url Client.username Client.password].
  rewrite rstrip_slash_vm_url.
  split; [reflexivity|]. split; [reflexivity|]. split; [reflexivity|].
  rewrite Hnotes, rstrip_slash_vm_url. cbn [notes].
  rewrite <- app_assoc. reflexivity.
Qed.

(** X19 on a host block whose port is 2222. *)
Lemma ssh_host_gives_port_28081_witness :
  exists s b',
    from_ssh_config (Some "vm") None None (Client.scripted [])
        (fresh (machine_with (host_block "vm" "10.0.0.5" "2222")))
      = (Ret s, b') /\
    Client.base_url s = "http://" +:+ "10.0.0.5" +:+ ":28081/rest" /\
    Client.username s = or_default None "admin@opensilex.org" /\
    Client.password s = or_default None "admin" /\
    notes b' = notes (fresh (machine_with (host_block "vm" "10.0.0.5" "2222")))
               ++ [(Client.INFO, FoundVMIP "10.0.0.5");
                   (Client.INFO, ClientInitialized (Client.base_url s))].
Proof.
  eapply (ssh_host_gives_port_28081
            (fresh (machine_with (host_block "vm" "10.0.0.5" "2222")))
            "vm" "10.0.0.5").
  - vm_compute. reflexivity.
  - discriminate.
  - discriminate.
  - vm_compute. reflexivity.
Defined.

Lemma get_base_url_unknown (b : boot) (alias : string)
    (cfg : gmap string (gmap string string)) (w' : frame) :
  parse_ssh_config None (world b) = (Ret cfg, w') ->
  cfg !! alias = None ->
  _get_base_url_from_ssh (Some alias) b =
    (Ret None,
     Boot w' (notes b ++
              [(Client.WARNING,
                if bool_decide (cfg = ∅) then NoSSHConfig
                else NoVMConfiguration (dom cfg))])).
Proof.
  intros Hparse Hnone.
  unfold _get_base_url_from_ssh. unfold bind at 1. unfold on_world at 1.
  rewrite Hparse. cbn. unfold has_host. rewrite Hnone, andb_false_r.
  destruct (bool_decide (cfg = ∅)); reflexivity.
Qed.

(** X20.  A requested SSH host that the configuration does not hold sends the
    client to the default sandbox URL, and the constructor does not try the
    common host names in its stead.  The machine is left as
    [parse_ssh_config] left it, with whatever that call logged (a warning
    when the file is missing, an error when it cannot be read, nothing
    otherwise); on top of that the constructor logs one warning of its own,
    then the default URL and the initialisation. *)
Theorem unknown_ssh_host_falls_back (b : boot) (alias : string)
    (cfg : gmap string (gmap string string)) (w' : frame)
    (u p : string) (net : Client.remote) :
  parse_ssh_config None (world b) = (Ret cfg, w') ->
  cfg !! alias = None ->
  exists s b',
    __init__ None u p (Some alias) true net b = (Ret s, b') /\
    Client.base_url s = default_url /\
    world b' = w' /\
    notes b' =
      notes b ++
      [(Client.WARNING,
        if bool_decide (cfg = ∅) then NoSSHConfig else NoVMConfiguration (dom cfg));
       (Client.INFO, UsingDefaultURL default_url);
       (Client.INFO, ClientInitialized default_url)].
Proof.
  intros Hparse Hnone.
  pose proof (get_base_url_unknown b alias cfg w' Hparse Hnone) as Hget.
  destruct (init_after_lookup _ b _ (Some alias) u p net Hget)
    as (b' & Hinit & Hworld & Hnotes).
  eexists _, b'. split; [exact Hinit|].
  split; [reflexivity|].
  split; [exact Hworld|].
  rewrite Hnotes. cbn [notes]. rewrite <- app_assoc. reflexivity.
Qed.

(** X20 on a machine without a configuration file, asked for [opensilex]:
    the parser logs that the file is missing, and the constructor that there
    is no configuration. *)
Lemma unknown_ssh_host_falls_back_witness :
  exists s b',
    __init__ None "admin@opensilex.org" "admin" (Some "opensilex") true
        (Client.scripted []) (fresh bare_machine)
      = (Ret s, b') /\
    Client.base_url s = default_url /\
    world b' =
      Frame "/home/user" "posix" (fun _ => NoSuchFile)
        [(Client.WARNING, ConfigNotFound "/home/user/.ssh/config")] ∅ None /\
    notes b' =
      notes (fresh bare_machine) ++
      [(Client.WARNING,
        if bool_decide ((∅ : gmap string (gmap string string)) = ∅)
        then NoSSHConfig
        else NoVMConfiguration (dom (∅ : gmap string (gmap string string))));
       (Client.INFO, UsingDefaultURL default_url);
       (Client.INFO, ClientInitialized default_url)].
Proof.
  apply (unknown_ssh_host_falls_back (fresh bare_machine) "opensilex" ∅
           (Frame "/home/user" "posix" (fun _ => NoSuchFile)
              [(Client.WARNING, ConfigNotFound "/home/user/.ssh/config")] ∅ None)).
  - vm_compute. reflexivity.
  - reflexivity.
Defined.

Lemma common_hosts_named (h : string) : In h common_hosts -> str_truthy h = true.
Proof.
  unfold common_hosts. cbn [In].
  intros H. repeat (destruct H as [<-|H]; [reflexivity|]). contradiction.
Qed.

Lemma get_base_url_auto (b : boot) (h : string)
    (cfg : gmap string (gmap string string)) (w' : frame) :
  parse_ssh_config None (world b) = (Ret cfg, w') ->
  find (has_host cfg) common_hosts = Some h ->
  exists o b1,
    _get_base_url_from_ssh None b = (Ret o, b1) /\
    o = match get_host_ip h cfg with
        | Some ip =>
            if str_truthy ip then Some ("http://" +:+ ip +:+ ":28081/rest") else None
        | None => None
        end.
Proof.
  intros Hparse Hfind.
  destruct (find_some _ _ Hfind) as [Hin Hhas].
  pose proof (common_hosts_named h Hin) as Hh.
  unfold _get_base_url_from_ssh. unfold bind at 1. unfold on_world at 1.
  rewrite Hparse, Hfind. cbn. rewrite Hh, Hhas. cbn.
  destruct (get_host_ip h cfg) as [ip|].
  - destruct (str_truthy ip); [cbn; eauto|].
    destruct (bool_decide (cfg = ∅)); cbn; eauto.
  - destruct (bool_decide (cfg = ∅)); cbn; eauto.
Qed.

(** X21.  With no host requested, the constructor settles on the first of the
    common host names that the configuration holds, and on no other: when that
    host has an address the client goes to it on port 28081; when it has none
    the client goes to the default sandbox URL, even if a later common name
    has an address. *)
Theorem auto_detection_takes_first (b : boot) (h : string)
    (cfg : gmap string (gmap string string)) (w' : frame)
    (u p : string) (net : Client.remote) :
  parse_ssh_config None (world b) = (Ret cfg, w') ->
  find (has_host cfg) common_hosts = Some h ->
  exists s b',
    __init__ None u p None true net b = (Ret s, b') /\
    Client.base_url s =
      match get_host_ip h cfg with
      | Some ip =>
          if str_truthy ip then "http://" +:+ ip +:+ ":28081/rest" else default_url
      | None => default_url
      end.
Proof.
  intros Hparse Hfind.
  destruct (get_base_url_auto b h cfg w' Hparse Hfind) as (o & b1 & Hget & Ho).
  destruct (init_after_lookup o b b1 None u p net Hget) as (b' & Hinit & _).
  eexists _, b'. split; [exact Hinit|]. cbn [Client.base_url].
  rewrite Ho. destruct (get_host_ip h cfg) as [ip|]; [|reflexivity].
  destruct (str_truthy ip); [apply rstrip_slash_vm_url|reflexivity].
Qed.

(** X21 on a configuration where [opensilex] has no address and [vm] has
    one: the client goes to the default URL. *)
Lemma auto_detection_takes_first_witness :
  exists s b',
    __init__ None "admin@opensilex.org" "admin" None true (Client.scripted [])
        (fresh (machine_with ["Host opensilex"; "Host vm"; "    HostName 10.0.0.5"]))
      = (Ret s, b') /\
    Client.base_url s =
      match get_host_ip "opensilex"
              (<["vm" := {[ "hostname" := "10.0.0.5" ]}]> (<["opensilex" := ∅]> ∅)) with
      | Some ip =>
          if str_truthy ip then "http://" +:+ ip +:+ ":28081/rest" else default_url
      | None => default_url
      end.
Proof.
  eapply (auto_detection_takes_first
            (fresh (machine_with ["Host opensilex"; "Host vm"; "    HostName 10.0.0.5"]))
            "opensilex"
            (<["vm" := {[ "hostname" := "10.0.0.5" ]}]> (<["opensilex" := ∅]> ∅))).
  - vm_compute. reflexivity.
  - vm_compute. reflexivity.
Defined.

End BootFacts.

(** ** Search filters and the encoded path segment *)

Module SearchFacts.
Import Projects Searches.

Lemma lookup_set_if_not_none (k' : string) (v : json) (d : gmap string json)
    (k : string) :
  set_if_not_none k' v d !! k =
    if String.eqb k k'
    then (match v with JNull => d !! k | _ => Some v end)
    else d !! k.
Proof.
  unfold set_if_not_none.
  destruct (String.eqb_spec k k') as [->|Hne].
  - destruct v; try apply lookup_insert_eq; reflexivity.
  - destruct v; try (apply lookup_insert_ne; congruence); reflexivity.
Qed.

Ltac settle_key k :=
  repeat match goal with
  | |- context [String.eqb k ?lit] =>
      destruct (String.eqb_spec k lit) as [->|?];
      [cbn;
       repeat match goal with
              | |- context [truthy ?v] => destruct (truthy v)
              end; reflexivity|]
  end.

Lemma search_experiments_query_lookup (p : ExperimentSearchParams.t) (k : string) :
  search_experiments_query p !! k =
    if String.eqb k "page" then Some (JNum (ExperimentSearchParams.page p))
    else if String.eqb k "page_size"
         then Some (JNum (ExperimentSearchParams.page_size p))
    else if String.eqb k "is_public"
         then match ExperimentSearchParams.is_public p with
              | Some flag => Some (JBool flag)
              | None => None
              end
    else match assoc k (experiment_fields p) with
         | Some v => if truthy v then Some v else None
         | None => None
         end.
Proof.
  unfold search_experiments_query.
  rewrite !ProjectsFacts.lookup_set_if_truthy, lookup_set_if_not_none,
    !ProjectsFacts.lookup_set_if_truthy, !ProjectsFacts.lookup_insert_eqb.
  unfold experiment_fields, assoc.
  destruct (ExperimentSearchParams.is_public p) as [flag|]; cbn [of_bool];
    settle_key k; apply lookup_empty.
Qed.

Lemma search_scientific_objects_query_lookup (p : ScientificObjectSearchParams.t)
    (k : string) :
  search_scientific_objects_query p !! k =
    if String.eqb k "page" then Some (JNum (ScientificObjectSearchParams.page p))
    else if String.eqb k "page_size"
         then Some (JNum (ScientificObjectSearchParams.page_size p))
    else match assoc k (object_fields p) with
         | Some v => if truthy v then Some v else None
         | None => None
         end.
Proof.
  unfold search_scientific_objects_query.
  rewrite !ProjectsFacts.lookup_set_if_truthy, !ProjectsFacts.lookup_insert_eqb.
  unfold object_fields, assoc.
  settle_key k. apply lookup_empty.
Qed.

(** X22.  What the searches for experiments and for scientific objects send:
    [page] and [page_size] always, each optional filter exactly when its value
    is truthy, and nothing else.  [is_public] is the exception: it is sent
    whenever it is set, so that [False] reaches the server where an empty name
    or the year 0 does not. *)
Theorem search_filters :
  (forall (p : ExperimentSearchParams.t) (k : string),
     search_experiments_query p !! k =
       if String.eqb k "page" then Some (JNum (ExperimentSearchParams.page p))
       else if String.eqb k "page_size"
            then Some (JNum (ExperimentSearchParams.page_size p))
       else if String.eqb k "is_public"
            then match ExperimentSearchParams.is_public p with
                 | Some flag => Some (JBool flag)
                 | None => None
                 end
       else match assoc k (experiment_fields p) with
            | Some v => if truthy v then Some v else None
            | None => None
            end) /\
  (forall (p : ScientificObjectSearchParams.t) (k : string),
     search_scientific_objects_query p !! k =
       if String.eqb k "page" then Some (JNum (ScientificObjectSearchParams.page p))
       else if String.eqb k "page_size"
            then Some (JNum (ScientificObjectSearchParams.page_size p))
       else match assoc k (object_fields p) with
            | Some v => if truthy v then Some v else None
            | None => None
            end) /\
  (forall R (client : BaseAPIClient R) (p : ExperimentSearchParams.t),
     search_experiments client (Some p) =
       get client "/core/experiments" (Some (search_experiments_query p))) /\
  (forall R (client : BaseAPIClient R) (p : ScientificObjectSearchParams.t),
     search_scientific_objects client (Some p) =
       get client "/core/scientific_objects"
         (Some (search_scientific_objects_query p))).
Proof.
  split; [exact search_experiments_query_lookup|].
  split; [exact search_scientific_objects_query_lookup|].
  split; reflexivity.
Qed.

(** *** The encoded segment *)

Lemma all_chars_app (ok : ascii -> bool) (s t : string) :
  all_chars ok (s +:+ t) = all_chars ok s && all_chars ok t.
Proof.
  induction s as [|c s IH]; [reflexivity|].
  change (String c s +:+ t) with (String c (s +:+ t)).
  cbn [all_chars]. rewrite IH. apply andb_assoc.
Qed.

Lemma app_assoc_str (a b c : string) : (a +:+ b) +:+ c = a +:+ (b +:+ c).
Proof.
  induction a as [|x a IH]; [reflexivity|].
  change (String x ((a +:+ b) +:+ c) = String x (a +:+ (b +:+ c))).
  f_equal. exact IH.
Qed.

(** The escape of one character, apart from what follows it. *)
Lemma quote_cons (c : ascii) (s : string) :
  PyStr.quote (String c s) =
    PyStr.quote (String c EmptyString) +:+ PyStr.quote s.
Proof.
  cbn [PyStr.quote]. generalize (PyStr.utf8 c). intros l.
  induction l as [|n l IH]; [reflexivity|].
  cbn [fold_right]. rewrite IH. symmetry. apply app_assoc_str.
Qed.

Ltac each_char c := destruct c as [[|] [|] [|] [|] [|] [|] [|] [|]].

Lemma quote_char_safe (c : ascii) :
  all_chars segment_safe (PyStr.quote (String c EmptyString)) = true.
Proof. each_char c; vm_compute; reflexivity. Qed.

Lemma quote_char_unreserved (c : ascii) :
  is_unreserved c = true -> PyStr.quote (String c EmptyString) = String c EmptyString.
Proof. each_char c; vm_compute; intros H; try reflexivity; discriminate H. Qed.

Lemma quote_safe (s : string) : all_chars segment_safe (PyStr.quote s) = true.
Proof.
  induction s as [|c s IH]; [reflexivity|].
  rewrite quote_cons, all_chars_app, quote_char_safe, IH. reflexivity.
Qed.

Lemma quote_unreserved (s : string) :
  all_chars is_unreserved s = true -> PyStr.quote s = s.
Proof.
  induction s as [|c s IH]; [reflexivity|].
  cbn [all_chars]. intros H. apply andb_true_iff in H as [Hc Hs].
  rewrite quote_cons, (quote_char_unreserved c Hc), (IH Hs). reflexivity.
Qed.

(** X23.  The segment [get_project_by_uri] appends to [/core/projects/]
    holds only letters, digits, [_ . - ~] and the percent sign of an escape,
    whatever the URI: no slash, question mark or hash of the URI can split or
    end the path.  The encoding works character by character, and a URI made
    of unreserved characters goes out unchanged. *)
Theorem project_uri_segment_is_safe :
  (forall uri,
     get_project_by_uri recorder uri
       = Get ("/core/projects/" +:+ PyStr.quote uri) None /\
     all_chars segment_safe (PyStr.quote uri) = true /\
     PyStr.contains "/" (PyStr.quote uri) = false) /\
  (forall a b, PyStr.quote (a +:+ b) = PyStr.quote a +:+ PyStr.quote b) /\
  (forall uri, all_chars is_unreserved uri = true -> PyStr.quote uri = uri).
Proof.
  assert (Hslash : forall s,
    all_chars segment_safe s = true -> PyStr.contains "/" s = false).
  { induction s as [|c s IH]; [reflexivity|].
    cbn [all_chars PyStr.contains]. intros H.
    apply andb_true_iff in H as [Hc Hs]. rewrite (IH Hs), orb_false_r.
    destruct (Ascii.eqb_spec "/" c) as [<-|]; [|reflexivity].
    vm_compute in Hc. discriminate Hc. }
  split; [|split].
  - intros uri. split; [reflexivity|].
    split; [apply quote_safe|apply Hslash, quote_safe].
  - intros a b. induction a as [|c a IH]; [reflexivity|].
    change (String c a +:+ b) with (String c (a +:+ b)).
    rewrite (quote_cons c (a +:+ b)), (quote_cons c a), IH.
    symmetry. apply app_assoc_str.
  - exact quote_unreserved.
Qed.

End SearchFacts.

(** ** The demo script against the client *)

Module DemoFacts.
Import HostResolver Boot DemoScript.

Lemma append_cancel (s a b : string) : s +:+ a = s +:+ b -> a = b.
Proof.
  induction s as [|c s IH]; [exact (fun H => H)|].
  change (String c (s +:+ a) = String c (s +:+ b) -> a = b).
  intros [= H]. exact (IH H).
Qed.

Lemma length_append (a b : string) :
  String.length (a +:+ b) = (String.length a + String.length b)%nat.
Proof.
  induction a as [|c a IH]; [reflexivity|].
  change (S (String.length (a +:+ b)) = S (String.length a + String.length b)).
  f_equal. exact IH.
Qed.

Lemma construct_url_run (host_name : string) (host_config : gmap string string)
    (out : list printed) :
  construct_opensilex_url host_name host_config out =
    (Ret ("http://" +:+ get_or host_config "hostname" host_name +:+ ":" +:+
          get_or host_config "port" "28081" +:+ "/sandbox/rest"),
     out ++ [ConstructedAPIURL
               ("http://" +:+ get_or host_config "hostname" host_name +:+ ":" +:+
                get_or host_config "port" "28081" +:+ "/sandbox/rest")]).
Proof. reflexivity. Qed.

Lemma urls_differ (ip port : string) :
  "http://" +:+ ip +:+ ":" +:+ port +:+ "/sandbox/rest"
    <> "http://" +:+ ip +:+ ":28081/rest".
Proof.
  intros H.
  apply (append_cancel "http://") in H.
  apply (append_cancel ip) in H.
  apply (append_cancel ":" (port +:+ "/sandbox/rest") "28081/rest") in H.
  apply (f_equal String.length) in H.
  rewrite length_append in H. cbn in H. lia.
Qed.

(** X24.  The demo script and the client do not agree on where a host of the
    SSH configuration lives.  From a host block [Host alias / HostName ip /
    Port port] read by the parser of [get_host.py],
    [construct_opensilex_url] builds [http://ip:port/sandbox/rest], with the
    port of the configuration; the client built by [from_ssh_config] on the
    same machine goes to [http://ip:28081/rest].  The two URLs differ
    whatever the block says. *)
Theorem demo_script_url_differs (alias ip port : string)
    (username password : option string) (net : Client.remote)
    (out : list printed) :
  word alias -> word ip -> word port ->
  exists cfg entry w' s b',
    GetHost.get_ssh_config_hosts (machine_with (host_block alias ip port))
      = (Ret cfg, w') /\
    cfg !! alias = Some entry /\
    construct_opensilex_url alias entry out =
      (Ret ("http://" +:+ ip +:+ ":" +:+ port +:+ "/sandbox/rest"),
       out ++ [ConstructedAPIURL
                 ("http://" +:+ ip +:+ ":" +:+ port +:+ "/sandbox/rest")]) /\
    from_ssh_config (Some alias) username password net
        (fresh (machine_with (host_block alias ip port))) = (Ret s, b') /\
    Client.base_url s = "http://" +:+ ip +:+ ":28081/rest" /\
    Client.base_url s <> "http://" +:+ ip +:+ ":" +:+ port +:+ "/sandbox/rest".
Proof.
  intros Ha Hi Hp.
  set (w := machine_with (host_block alias ip port)).
  assert (Hfs : fs w "/home/user/.ssh/config" = TextFile (host_block alias ip port) None)
    by reflexivity.
  pose proof (ParserFacts.get_host_parse_host_block alias ip port _ w Ha Hi Hp Hfs)
    as Hget.
  pose proof (ParserFacts.parse_host_block alias ip port _ w Ha Hi Hp Hfs) as Hparse.
  assert (Hdefault : parse_ssh_config None (world (fresh w)) =
                     parse_ssh_config (Some "/home/user/.ssh/config") w)
    by reflexivity.
  rewrite <- Hdefault in Hparse.
  assert (Hne : alias <> EmptyString) by apply Ha.
  assert (Hine : ip <> EmptyString) by apply Hi.
  pose proof (BootFacts.get_base_url_found (fresh w) alias ip _ _ Hparse Hne Hine
                (ParserFacts.get_host_ip_block alias ip port)) as Hurl.
  destruct (BootFacts.init_after_lookup _ (fresh w) _ (Some alias)
              (or_default username "admin@opensilex.org")
              (or_default password "admin") net Hurl) as (b' & Hinit & _).
  exists (<[alias := block_entry ip port]> ∅), (block_entry ip port).
  eexists _, _, b'.
  split.
  { unfold GetHost.get_ssh_config_hosts, try_except, GetHost.__init__.
    unfold bind at 1. unfold bind at 1.
    change (GetHost.expanduser "~/.ssh/config" w)
      with (Ret "/home/user/.ssh/config", w).
    cbv iota beta. unfold bind at 1. unfold modify at 1. cbv iota beta.
    rewrite Hget. reflexivity. }
  split; [apply lookup_insert_eq|].
  split.
  { rewrite construct_url_run. unfold get_or, block_entry.
    rewrite lookup_insert_ne by discriminate.
    rewrite !lookup_insert_eq. reflexivity. }
  split; [exact Hinit|].
  cbn [Client.base_url]. rewrite BootFacts.rstrip_slash_vm_url.
  split; [reflexivity|].
  intros H. symmetry in H. exact (urls_differ ip port H).
Qed.

(** X24 on a block whose port is 8080. *)
Lemma demo_script_url_differs_witness :
  exists cfg entry w' s b',
    GetHost.get_ssh_config_hosts (machine_with (host_block "vm" "10.0.0.5" "8080"))
      = (Ret cfg, w') /\
    cfg !! "vm" = Some entry /\
    construct_opensilex_url "vm" entry [] =
      (Ret ("http://" +:+ "10.0.0.5" +:+ ":" +:+ "8080" +:+ "/sandbox/rest"),
       [] ++ [ConstructedAPIURL
                ("http://" +:+ "10.0.0.5" +:+ ":" +:+ "8080" +:+ "/sandbox/rest")]) /\
    from_ssh_config (Some "vm") None None (Client.scripted [])
        (fresh (machine_with (host_block "vm" "10.0.0.5" "8080"))) = (Ret s, b') /\
    Client.base_url s = "http://" +:+ "10.0.0.5" +:+ ":28081/rest" /\
    Client.base_url s <> "http://" +:+ "10.0.0.5" +:+ ":" +:+ "8080" +:+ "/sandbox/rest".
Proof.
  apply (demo_script_url_differs "vm" "10.0.0.5" "8080" None None
           (Client.scripted []) []).
  - split; [discriminate|reflexivity].
  - split; [discriminate|reflexivity].
  - split; [discriminate|reflexivity].
Defined.

End DemoFacts.
